(** * minerva-requests: request construction for Minerva

    A shallow embedding of [lib/requests.js] (request_variable, request,
    request_set), the properties its specification states about it, and
    then what else the code shows of each method: what it queues, what it
    ignores, what it rejects.

    Conventions of the embedding.
    - A JavaScript value carried by the library is a [jsval]: null, a
      boolean, a string, an array or an object.  Objects keep their
      properties in insertion order, as JavaScript enumerates them.
      Numbers are not request data (every identifier is a string); the
      only numeric parameter, the skip count of the backward lookups, is
      an integer of its own.
    - A function argument is an [arg]: [None] is an omitted argument
      (JavaScript's undefined), [Some v] a supplied value.
    - Objects the code mutates in place (a request, the request set) are
      passed explicitly: a method returns its result together with the
      updated object.  The request set lives in a [world] next to the
      number of identifiers [bbop.uuid] has handed out so far.
    - A thrown [Error] is an outcome of its own; what was mutated before
      the throw stays mutated. *)

From Stdlib Require Import ZArith NArith Lia String Ascii List Bool.
From stdpp Require Import base option list strings pretty.

Local Open Scope string_scope.
Local Open Scope list_scope.

(** ** JavaScript values *)

Local Unset Elimination Schemes.

Inductive jsval : Type :=
| JNull
| JBool (b : bool)
| JStr (s : string)
| JArr (items : list jsval)
| JObj (props : list (string * jsval)).

Local Set Elimination Schemes.

(** Induction on a value, with the property at hand for every element of
    an array and every property value of an object. *)
Section jsval_induction.
Variable P : jsval -> Prop.
Hypothesis Hnull : P JNull.
Hypothesis Hbool : forall b, P (JBool b).
Hypothesis Hstr : forall s, P (JStr s).
Hypothesis Harr : forall l, Forall P l -> P (JArr l).
Hypothesis Hobj : forall o, Forall (fun kv => P (snd kv)) o -> P (JObj o).

Fixpoint jsval_ind (v : jsval) : P v :=
  match v with
  | JNull => Hnull
  | JBool b => Hbool b
  | JStr s => Hstr s
  | JArr l =>
      Harr l
        ((fix all (l : list jsval) : Forall P l :=
            match l with
            | [] => @List.Forall_nil _ P
            | x :: l' => @List.Forall_cons _ P x l' (jsval_ind x) (all l')
            end) l)
  | JObj o =>
      Hobj o
        ((fix all (o : list (string * jsval))
            : Forall (fun kv => P (snd kv)) o :=
            match o with
            | [] => @List.Forall_nil _ _
            | kv :: o' =>
                @List.Forall_cons _ (fun kv => P (snd kv)) kv o'
                  (jsval_ind (snd kv)) (all o')
            end) o)
  end.
End jsval_induction.

Abbreviation arg := (option jsval).

(** ToBoolean: null, false and the empty string are falsy; arrays and
    objects are always truthy. *)
Definition truthy (v : jsval) : bool :=
  match v with
  | JNull => false
  | JBool b => b
  | JStr s => negb (String.eqb s "")
  | JArr _ => true
  | JObj _ => true
  end.

(** [given a] is the value of [a] when [if( a ){ ... }] takes its branch. *)
Definition given (a : arg) : option jsval :=
  match a with
  | Some v => if truthy v then Some v else None
  | None => None
  end.

Definition to_bool (a : arg) : bool :=
  match given a with Some _ => true | None => false end.

(** [a || null] *)
Definition or_null (a : arg) : jsval :=
  match given a with Some v => v | None => JNull end.

(** Own properties of an object, in insertion order. *)
Fixpoint prop_get {A : Type} (k : string) (o : list (string * A)) : option A :=
  match o with
  | [] => None
  | (k', v) :: o' => if String.eqb k' k then Some v else prop_get k o'
  end.

(** [o[k] = v]: an existing property keeps its place, a new one goes last. *)
Fixpoint prop_set {A : Type} (k : string) (v : A) (o : list (string * A))
  : list (string * A) :=
  match o with
  | [] => [(k, v)]
  | (k', v') :: o' =>
      if String.eqb k' k then (k, v) :: o' else (k', v') :: prop_set k v o'
  end.

(** [v[i]] on a non-null value: an array element, a one-character string,
    or the property named by the index; undefined when there is none. *)
Definition js_index (v : jsval) (i : nat) : arg :=
  match v with
  | JNull => None
  | JBool _ => None
  | JStr s =>
      match String.get i s with
      | Some c => Some (JStr (String c EmptyString))
      | None => None
      end
  | JArr l => l !! i
  | JObj o => prop_get (pretty i) o
  end.

(** Modelled from the spec: bbop-core's [what_is], the run-time type
    sniffing the library uses to tell a string from a list.  Objects report
    their [_is_a] tag when they carry one. *)
Definition what_is (a : arg) : option string :=
  match a with
  | None => None
  | Some JNull => Some "null"
  | Some (JBool _) => Some "boolean"
  | Some (JStr _) => Some "string"
  | Some (JArr _) => Some "array"
  | Some (JObj o) =>
      match prop_get "_is_a" o with
      | Some (JStr t) => Some t
      | _ => Some "object"
      end
  end.

Definition what_is_eq (a : arg) (t : string) : bool :=
  match what_is a with Some t' => String.eqb t' t | None => false end.

(** ** Errors *)

Inductive js_error : Type :=
| Error (message : string)
| TypeError.

Inductive outcome (A : Type) : Type :=
| Ret (a : A)
| Throw (e : js_error).
Arguments Ret {A} a.
Arguments Throw {A} e.

Definition returned {A : Type} (o : outcome A) : bool :=
  match o with Ret _ => true | Throw _ => false end.

(** ** request_variable *)

Record request_variable : Type := {
  _var : jsval;
  _use_var_p : bool
}.

Definition _value (value : arg) (anchor : request_variable)
  : jsval * request_variable :=
  match given value with
  | Some v =>
      let anchor := {| _var := v; _use_var_p := true |} in
      (_var anchor, anchor)
  | None => (_var anchor, anchor)
  end.

(** [new request_variable(varvalue)], [primo] being the identifier the
    call to [uuid()] produced. *)
Definition new_request_variable (primo : string) (varvalue : arg)
  : request_variable :=
  snd (_value varvalue {| _var := JStr primo; _use_var_p := false |}).

Definition value := _value.

Definition set_p (anchor : request_variable) : bool := _use_var_p anchor.

(** ** request *)

Record request : Type := {
  _entity : string;
  _operation : string;
  _individual_id : request_variable;
  _arguments : list (string * jsval)
}.

Definition with_arguments (args : list (string * jsval)) (anchor : request)
  : request :=
  {| _entity := _entity anchor;
     _operation := _operation anchor;
     _individual_id := _individual_id anchor;
     _arguments := args |}.

Definition with_individual_id (v : request_variable) (anchor : request)
  : request :=
  {| _entity := _entity anchor;
     _operation := _operation anchor;
     _individual_id := v;
     _arguments := _arguments anchor |}.

(** [new request(entity, operation)]; the request's [_model_id] field is
    never read by the library and is left out. *)
Definition new_request (primo : string) (entity operation : string) : request :=
  {| _entity := entity;
     _operation := operation;
     _individual_id := new_request_variable primo None;
     _arguments := [] |}.

Definition _ensure_list (key : string) (anchor : request) : request :=
  if to_bool (prop_get key (_arguments anchor)) then anchor
  else with_arguments (prop_set key (JArr []) (_arguments anchor)) anchor.

Definition _add (key : string) (val : jsval) (anchor : request)
  : jsval * request :=
  (val, with_arguments (prop_set key val (_arguments anchor)) anchor).

Definition _get (key : string) (anchor : request) : jsval :=
  match prop_get key (_arguments anchor) with
  | Some JNull => JNull
  | Some t => t
  | None => JNull
  end.

Definition _get_set (key : string) (variable : arg) (anchor : request)
  : jsval * request :=
  let anchor :=
    match given variable with
    | Some v => snd (_add key v anchor)
    | None => anchor
    end in
  (_get key anchor, anchor).

Definition entity (anchor : request) : string := _entity anchor.

Definition special (name : string) (val : arg) (anchor : request)
  : jsval * request :=
  _get_set name val anchor.

(** The object [objectify] returns; [base_arguments] is the request's own
    argument object, not a copy. *)
Record objectified : Type := {
  base_entity : string;
  base_operation : string;
  base_arguments : list (string * jsval)
}.

Definition objectify (anchor : request) : objectified * request :=
  let anchor :=
    if String.eqb (_entity anchor) "individual"
       && negb (set_p (_individual_id anchor))
    then with_arguments
           (prop_set "assign-to-variable"
              (fst (value None (_individual_id anchor)))
              (_arguments anchor))
           anchor
    else anchor in
  ({| base_entity := _entity anchor;
      base_operation := _operation anchor;
      base_arguments := _arguments anchor |}, anchor).

Definition individual (ind_id : arg) (anchor : request) : jsval * request :=
  let anchor :=
    match given ind_id with
    | Some v =>
        let anchor :=
          with_individual_id (snd (value (Some v) (_individual_id anchor)))
            anchor in
        snd (_add "individual" v anchor)
    | None => anchor
    end in
  (fst (value None (_individual_id anchor)), anchor).

Definition subject (sub : arg) (anchor : request) : jsval * request :=
  _get_set "subject" sub anchor.

Definition object (obj : arg) (anchor : request) : jsval * request :=
  _get_set "object" obj anchor.

Definition predicate (pred : arg) (anchor : request) : jsval * request :=
  _get_set "predicate" pred anchor.

Definition model (model : arg) (anchor : request) : jsval * request :=
  _get_set "model-id" model anchor.

Definition fact (sub obj pred : arg) (anchor : request) : request :=
  let anchor := snd (subject sub anchor) in
  let anchor := snd (object obj anchor) in
  snd (predicate pred anchor).

(** [anchor._arguments[key].push(item)]; pushing onto something that is
    not an array is a TypeError. *)
Definition push_onto (key : string) (item : jsval) (anchor : request)
  : outcome nat * request :=
  match prop_get key (_arguments anchor) with
  | Some (JArr l) =>
      (Ret (length (l ++ [item])),
       with_arguments (prop_set key (JArr (l ++ [item])) (_arguments anchor))
         anchor)
  | _ => (Throw TypeError, anchor)
  end.

Definition annotation_pair (key val : jsval) : jsval :=
  JObj [("key", key); ("value", val)].

Fixpoint push_annotations (key : jsval) (vals : list jsval) (anchor : request)
  : outcome unit * request :=
  match vals with
  | [] => (Ret tt, anchor)
  | val :: vals' =>
      match push_onto "values" (annotation_pair key val) anchor with
      | (Ret _, anchor) => push_annotations key vals' anchor
      | (Throw e, anchor) => (Throw e, anchor)
      end
  end.

(** [anchor._arguments[key].length]: a number when the property holds a
    list (or a string), undefined otherwise. *)
Definition list_length (key : string) (anchor : request) : option nat :=
  match prop_get key (_arguments anchor) with
  | Some (JArr l) => Some (length l)
  | Some (JStr s) => Some (String.length s)
  | _ => None
  end.

Definition add_annotation (key : jsval) (vals : arg) (anchor : request)
  : outcome (option nat) * request :=
  let vals :=
    if what_is_eq vals "string"
    then match vals with Some v => Some (JArr [v]) | None => None end
    else vals in
  if negb (what_is_eq vals "array")
  then (Throw (Error "unknown argument"), anchor)
  else
    let anchor := _ensure_list "values" anchor in
    let items :=
      match vals with
      | Some (JArr l) => l
      | Some (JObj o) => map snd o
      | _ => []
      end in
    match push_annotations key items anchor with
    | (Ret _, anchor) => (Ret (list_length "values" anchor), anchor)
    | (Throw e, anchor) => (Throw e, anchor)
    end.

Definition annotations (anchor : request) : arg :=
  prop_get "values" (_arguments anchor).

Definition expressions (anchor : request) : arg :=
  prop_get "expressions" (_arguments anchor).

(** ** request_set *)

Record request_set : Type := {
  _user_token : jsval;
  _model_id : jsval;
  _requests : list request;
  _intention : string
}.

Definition with_requests (reqs : list request) (anchor : request_set)
  : request_set :=
  {| _user_token := _user_token anchor;
     _model_id := _model_id anchor;
     _requests := reqs;
     _intention := _intention anchor |}.

Definition with_intention (intention : string) (anchor : request_set)
  : request_set :=
  {| _user_token := _user_token anchor;
     _model_id := _model_id anchor;
     _requests := _requests anchor;
     _intention := intention |}.

(** [new request_set(user_token, model_id)]; [_last_entity_id] is never
    read and is left out. *)
Definition new_request_set (user_token model_id : arg) : request_set :=
  {| _user_token := or_null user_token;
     _model_id := or_null model_id;
     _requests := [];
     _intention := "query" |}.

(** The request set under construction and the number of identifiers
    [uuid()] has produced so far. *)
Record world : Type := {
  uuid_calls : nat;
  the_set : request_set
}.

(** A method of the request set: it may read and mutate the world, and
    either returns or throws.  A throw keeps the mutations made so far. *)
Definition M (A : Type) : Type := world -> outcome A * world.

#[global] Instance M_ret : MRet M := fun A a w => (Ret a, w).

#[global] Instance M_bind : MBind M := fun A B f m w =>
  match m w with
  | (Ret a, w') => f a w'
  | (Throw e, w') => (Throw e, w')
  end.

Definition throw {A : Type} (e : js_error) : M A := fun w => (Throw e, w).

Definition get_anchor : M request_set := fun w => (Ret (the_set w), w).

Definition put_anchor (anchor : request_set) : M unit := fun w =>
  (Ret tt, {| uuid_calls := uuid_calls w; the_set := anchor |}).

(** Run a method of a request that is still local to the caller. *)
Definition on_request {A : Type} (r : outcome A * request) : M request :=
  match r with
  | (Ret _, req) => mret req
  | (Throw e, _) => throw e
  end.

Definition lift_outcome {A : Type} (o : outcome A) : M A := fun w => (o, w).

(** [if( model_id ){ req.model(model_id); }] *)
Definition model_if_given (model_id : arg) (req : request) : request :=
  if to_bool model_id then snd (model model_id req) else req.

(** [triple[i]] once [triple] is known to be truthy. *)
Definition arg_index (triple : arg) (i : nat) : arg :=
  match triple with
  | Some v => js_index v i
  | None => None
  end.

(** [hash[k]] on a truthy [hash]. *)
Definition arg_prop (hash : arg) (k : string) : arg :=
  match hash with
  | Some (JObj o) => prop_get k o
  | _ => None
  end.

Definition hint_given (intention : option string) : bool :=
  match intention with
  | Some s => negb (String.eqb s "")
  | None => false
  end.

Definition hint_is (intention : option string) (s : string) : bool :=
  match intention with
  | Some s' => String.eqb s' s
  | None => false
  end.

(** The wire payload of [structure()] and of [callable()]. *)
Record rset : Type := {
  token : jsval;
  intention : string;
  requests : list objectified
}.

Record rset_callable : Type := {
  callable_token : jsval;
  callable_intention : string;
  callable_requests : string
}.

(** ** The transport encoding: JSON text, percent-encoded

    [callable] hands the request list to two built-ins of the language,
    [JSON.stringify] and [encodeURIComponent]; the receiving side undoes
    them with [decodeURIComponent] and [JSON.parse].  They are modelled on
    strings whose code units lie in the Latin-1 range (one [ascii] per code
    unit) and on the values of [jsval]. *)

Definition dquote : ascii := "034"%char.
Definition backslash : ascii := "092"%char.

Definition hex_lower (n : N) : ascii :=
  if (n <? 10)%N then ascii_of_N (48 + n) else ascii_of_N (87 + n).

Definition hex_upper (n : N) : ascii :=
  if (n <? 10)%N then ascii_of_N (48 + n) else ascii_of_N (55 + n).

(** The value of a hexadecimal digit, in either case. *)
Definition hex_value (c : ascii) : option N :=
  let n := N_of_ascii c in
  if (48 <=? n)%N && (n <=? 57)%N then Some (n - 48)%N
  else if (65 <=? n)%N && (n <=? 70)%N then Some (n - 55)%N
  else if (97 <=? n)%N && (n <=? 102)%N then Some (n - 87)%N
  else None.

(** QuoteJSONString on one code unit. *)
Definition json_escape (c : ascii) : string :=
  let n := N_of_ascii c in
  if Ascii.eqb c dquote then String backslash (String dquote "")
  else if Ascii.eqb c backslash then String backslash (String backslash "")
  else if (n =? 8)%N then String backslash "b"
  else if (n =? 12)%N then String backslash "f"
  else if (n =? 10)%N then String backslash "n"
  else if (n =? 13)%N then String backslash "r"
  else if (n =? 9)%N then String backslash "t"
  else if (n <? 32)%N then
    String backslash
      (String "u" (String "0" (String "0"
         (String (hex_lower (n / 16)) (String (hex_lower (n mod 16)) "")))))
  else String c "".

Fixpoint print_chars (s : string) (rest : string) : string :=
  match s with
  | EmptyString => rest
  | String c s' => json_escape c +:+ print_chars s' rest
  end.

Definition print_string (s : string) (rest : string) : string :=
  String dquote (print_chars s (String dquote rest)).

(** The elements after the first one, each behind its comma, and the
    closing bracket. *)
Definition print_more {A : Type} (pr : A -> string -> string) (close : ascii)
           (rest : string) : list A -> string :=
  fix more (l : list A) : string :=
    match l with
    | [] => String close rest
    | y :: l' => String "," (pr y (more l'))
    end.

(** [print v rest] is the JSON text of [v] followed by [rest]. *)
Fixpoint print (v : jsval) (rest : string) : string :=
  match v with
  | JNull => "null" +:+ rest
  | JBool true => "true" +:+ rest
  | JBool false => "false" +:+ rest
  | JStr s => print_string s rest
  | JArr [] => "[]" +:+ rest
  | JArr (x :: l) => String "[" (print x (print_more print "]" rest l))
  | JObj [] => "{}" +:+ rest
  | JObj (kx :: o) =>
      let member (kv : string * jsval) (r : string) : string :=
        print_string (fst kv) (String ":" (print (snd kv) r)) in
      String "{" (member kx (print_more member "}" rest o))
  end.

Definition JSON_stringify (v : jsval) : string := print v "".

(** JSON white space: space, tab, line feed, carriage return. *)
Definition is_ws (c : ascii) : bool :=
  let n := N_of_ascii c in
  (n =? 32)%N || (n =? 9)%N || (n =? 10)%N || (n =? 13)%N.

Fixpoint skip_ws (s : string) : string :=
  match s with
  | String c s' => if is_ws c then skip_ws s' else s
  | EmptyString => s
  end.

Fixpoint strip_prefix (p s : string) : option string :=
  match p, s with
  | EmptyString, _ => Some s
  | String a p', String b s' =>
      if Ascii.eqb a b then strip_prefix p' s' else None
  | String _ _, EmptyString => None
  end.

(** The character a simple escape [\c] stands for. *)
Definition unescape (c : ascii) : option ascii :=
  if Ascii.eqb c dquote then Some dquote
  else if Ascii.eqb c backslash then Some backslash
  else if Ascii.eqb c "/" then Some "/"%char
  else if Ascii.eqb c "b" then Some "008"%char
  else if Ascii.eqb c "f" then Some "012"%char
  else if Ascii.eqb c "n" then Some "010"%char
  else if Ascii.eqb c "r" then Some "013"%char
  else if Ascii.eqb c "t" then Some "009"%char
  else None.

(** Four hexadecimal digits as a code unit; one above the Latin-1 range is
    outside the model. *)
Definition code_unit (h1 h2 h3 h4 : ascii) : option ascii :=
  match hex_value h1, hex_value h2, hex_value h3, hex_value h4 with
  | Some a, Some b, Some c, Some d =>
      if (a =? 0)%N && (b =? 0)%N then Some (ascii_of_N (16 * c + d)) else None
  | _, _, _, _ => None
  end.

(** The characters of a string literal, after its opening quote and up to
    the closing one. *)
Fixpoint parse_chars (s : string) : option (string * string) :=
  match s with
  | EmptyString => None
  | String c s1 =>
      if Ascii.eqb c dquote then Some (EmptyString, s1)
      else if Ascii.eqb c backslash then
        match s1 with
        | String e s2 =>
            if Ascii.eqb e "u" then
              match s2 with
              | String h1 (String h2 (String h3 (String h4 s3))) =>
                  match code_unit h1 h2 h3 h4, parse_chars s3 with
                  | Some u, Some (t, r) => Some (String u t, r)
                  | _, _ => None
                  end
              | _ => None
              end
            else
              match unescape e, parse_chars s2 with
              | Some u, Some (t, r) => Some (String u t, r)
              | _, _ => None
              end
        | EmptyString => None
        end
      else if (N_of_ascii c <? 32)%N then None
      else
        match parse_chars s1 with
        | Some (t, r) => Some (String c t, r)
        | None => None
        end
  end.

Definition parse_string (s : string) : option (string * string) :=
  match s with
  | String c s' => if Ascii.eqb c dquote then parse_chars s' else None
  | EmptyString => None
  end.

(** The elements of an array after its first bracket, [pv] parsing one
    value. *)
Fixpoint parse_items (pv : string -> option (jsval * string)) (fuel : nat)
         (s : string) : option (list jsval * string) :=
  match fuel with
  | 0 => None
  | S fuel' =>
      match pv s with
      | Some (x, s1) =>
          match skip_ws s1 with
          | String c s2 =>
              if Ascii.eqb c "," then
                match parse_items pv fuel' s2 with
                | Some (l, s3) => Some (x :: l, s3)
                | None => None
                end
              else if Ascii.eqb c "]" then Some ([x], s2)
              else None
          | EmptyString => None
          end
      | None => None
      end
  end.

Fixpoint parse_members (pv : string -> option (jsval * string)) (fuel : nat)
         (s : string) : option (list (string * jsval) * string) :=
  match fuel with
  | 0 => None
  | S fuel' =>
      match parse_string (skip_ws s) with
      | Some (k, s1) =>
          match skip_ws s1 with
          | String c s2 =>
              if Ascii.eqb c ":" then
                match pv s2 with
                | Some (x, s3) =>
                    match skip_ws s3 with
                    | String d s4 =>
                        if Ascii.eqb d "," then
                          match parse_members pv fuel' s4 with
                          | Some (o, s5) => Some ((k, x) :: o, s5)
                          | None => None
                          end
                        else if Ascii.eqb d "}" then Some ([(k, x)], s4)
                        else None
                    | EmptyString => None
                    end
                | None => None
                end
              else None
          | EmptyString => None
          end
      | None => None
      end
  end.

(** The object a list of parsed members denotes: a repeated name keeps its
    first place and its last value. *)
Definition props_of_members (ms : list (string * jsval))
  : list (string * jsval) :=
  fold_left (fun o kv => prop_set (fst kv) (snd kv) o) ms [].

Fixpoint parse_value (fuel : nat) (s : string) : option (jsval * string) :=
  match fuel with
  | 0 => None
  | S fuel' =>
      match skip_ws s with
      | EmptyString => None
      | String c s1 =>
          if Ascii.eqb c "n" then
            match strip_prefix "ull" s1 with
            | Some r => Some (JNull, r)
            | None => None
            end
          else if Ascii.eqb c "t" then
            match strip_prefix "rue" s1 with
            | Some r => Some (JBool true, r)
            | None => None
            end
          else if Ascii.eqb c "f" then
            match strip_prefix "alse" s1 with
            | Some r => Some (JBool false, r)
            | None => None
            end
          else if Ascii.eqb c dquote then
            match parse_chars s1 with
            | Some (t, r) => Some (JStr t, r)
            | None => None
            end
          else if Ascii.eqb c "[" then
            match skip_ws s1 with
            | String d s2 =>
                if Ascii.eqb d "]" then Some (JArr [], s2)
                else
                  match parse_items (parse_value fuel') fuel' s1 with
                  | Some (l, r) => Some (JArr l, r)
                  | None => None
                  end
            | EmptyString => None
            end
          else if Ascii.eqb c "{" then
            match skip_ws s1 with
            | String d s2 =>
                if Ascii.eqb d "}" then Some (JObj [], s2)
                else
                  match parse_members (parse_value fuel') fuel' s1 with
                  | Some (ms, r) => Some (JObj (props_of_members ms), r)
                  | None => None
                  end
            | EmptyString => None
            end
          else None
      end
  end.

(** [JSON.parse] on a text without numbers. *)
Definition JSON_parse (s : string) : option jsval :=
  match parse_value (S (String.length s)) s with
  | Some (v, r) =>
      match skip_ws r with
      | EmptyString => Some v
      | String _ _ => None
      end
  | None => None
  end.

(** The characters [encodeURIComponent] leaves as they are. *)
Definition uri_unreserved (c : ascii) : bool :=
  let n := N_of_ascii c in
  ((65 <=? n)%N && (n <=? 90)%N)
  || ((97 <=? n)%N && (n <=? 122)%N)
  || ((48 <=? n)%N && (n <=? 57)%N)
  || (n =? 45)%N || (n =? 95)%N || (n =? 46)%N || (n =? 33)%N
  || (n =? 126)%N || (n =? 42)%N || (n =? 39)%N || (n =? 40)%N || (n =? 41)%N.

Definition percent (byte : N) (rest : string) : string :=
  String "%"
    (String (hex_upper (byte / 16)) (String (hex_upper (byte mod 16)) rest)).

(** One code unit, as the percent-encoded octets of its UTF-8 form. *)
Definition uri_encode_unit (c : ascii) (rest : string) : string :=
  let n := N_of_ascii c in
  if uri_unreserved c then String c rest
  else if (n <? 128)%N then percent n rest
  else percent (192 + n / 64) (percent (128 + n mod 64) rest).

Fixpoint encodeURIComponent (s : string) : string :=
  match s with
  | EmptyString => EmptyString
  | String c s' => uri_encode_unit c (encodeURIComponent s')
  end.

Definition octet (h1 h2 : ascii) : option N :=
  match hex_value h1, hex_value h2 with
  | Some a, Some b => Some (16 * a + b)%N
  | _, _ => None
  end.

(** [decodeURIComponent]; [None] is a URIError, or a code unit above the
    Latin-1 range. *)
Fixpoint decodeURIComponent (s : string) : option string :=
  match s with
  | EmptyString => Some EmptyString
  | String c s1 =>
      if Ascii.eqb c "%" then
        match s1 with
        | String h1 (String h2 s2) =>
            match octet h1 h2 with
            | Some b =>
                if (b <? 128)%N then
                  match decodeURIComponent s2 with
                  | Some t => Some (String (ascii_of_N b) t)
                  | None => None
                  end
                else if (194 <=? b)%N && (b <=? 195)%N then
                  match s2 with
                  | String p (String h3 (String h4 s3)) =>
                      if Ascii.eqb p "%" then
                        match octet h3 h4 with
                        | Some b' =>
                            if (128 <=? b')%N && (b' <=? 191)%N then
                              match decodeURIComponent s3 with
                              | Some t =>
                                  Some
                                    (String
                                       (ascii_of_N
                                          ((b - 192) * 64 + (b' - 128)))
                                       t)
                              | None => None
                              end
                            else None
                        | None => None
                        end
                      else None
                  | _ => None
                  end
                else None
            | None => None
            end
        | _ => None
        end
      else
        match decodeURIComponent s1 with
        | Some t => Some (String c t)
        | None => None
        end
  end.

(** Property names are distinct in every object of the value. *)
Fixpoint distinct (ks : list string) : bool :=
  match ks with
  | [] => true
  | k :: ks' => negb (existsb (String.eqb k) ks') && distinct ks'
  end.

Fixpoint well_formed (v : jsval) : bool :=
  match v with
  | JArr l => forallb well_formed l
  | JObj o =>
      distinct (map fst o) && forallb (fun kv => well_formed (snd kv)) o
  | _ => true
  end.

(** The fuel that parsing the text of a value takes. *)
Fixpoint jsize (v : jsval) : nat :=
  match v with
  | JArr l => S (list_sum (map jsize l))
  | JObj o => S (list_sum (map (fun kv => jsize (snd kv)) o))
  | _ => 1
  end.

(** The text begins like a JSON value of the model. *)
Definition starts_value (s : string) : bool :=
  match s with
  | String c _ =>
      Ascii.eqb c "n" || Ascii.eqb c "t" || Ascii.eqb c "f"
      || Ascii.eqb c dquote || Ascii.eqb c "[" || Ascii.eqb c "{"
  | EmptyString => false
  end.

(** One member of an object, as [print] writes it. *)
Definition print_member (kv : string * jsval) (r : string) : string :=
  print_string (fst kv) (String ":" (print (snd kv) r)).

Section Minerva.

(** The class-expression adapter, an external collaborator:
    [class_structure x] is [new class_expression(x).structure()]. *)
Variable class_structure : arg -> jsval.

(** [uuid n] is the identifier the [n]-th call of [bbop.uuid()] returns. *)
Variable uuid : nat -> string.

Definition add_class_expression (class_expr : arg) (anchor : request)
  : outcome (option nat) * request :=
  let anchor := _ensure_list "expressions" anchor in
  let expr := class_structure class_expr in
  match push_onto "expressions" expr anchor with
  | (Ret _, anchor) => (Ret (list_length "expressions" anchor), anchor)
  | (Throw e, anchor) => (Throw e, anchor)
  end.

(** [new request(entity, operation)] inside a method: the constructor of
    its request variable draws one identifier. *)
Definition fresh_request (entity operation : string) : M request := fun w =>
  (Ret (new_request (uuid (uuid_calls w)) entity operation),
   {| uuid_calls := S (uuid_calls w); the_set := the_set w |}).

(** The backward loop of [last_individual_id]: [ugh] counts down from the
    length of the list, [number_to_skip] is decremented on each skipped
    match. *)
Fixpoint last_individual_loop (reqs : list request) (ugh : nat)
         (number_to_skip : Z) : jsval :=
  match ugh with
  | 0 => JNull
  | S ugh' =>
      match reqs !! ugh' with
      | Some req =>
          if String.eqb (entity req) "individual" then
            if (number_to_skip >? 0)%Z
            then last_individual_loop reqs ugh' (number_to_skip - 1)%Z
            else fst (individual None req)
          else last_individual_loop reqs ugh' number_to_skip
      | None => JNull
      end
  end.

(** An omitted [number_to_skip] is undefined, and [undefined > 0] is
    false just as [0 > 0] is. *)
Definition last_individual_id (number_to_skip : option Z)
           (anchor : request_set) : jsval :=
  last_individual_loop (_requests anchor) (length (_requests anchor))
    (default 0%Z number_to_skip).

Fixpoint last_fact_loop (reqs : list request) (ugh : nat)
         (number_to_skip : Z) : jsval :=
  match ugh with
  | 0 => JNull
  | S ugh' =>
      match reqs !! ugh' with
      | Some req =>
          if String.eqb (entity req) "edge" then
            if (number_to_skip >? 0)%Z
            then last_fact_loop reqs ugh' (number_to_skip - 1)%Z
            else JArr [fst (subject None req);
                       fst (object None req);
                       fst (predicate None req)]
          else last_fact_loop reqs ugh' number_to_skip
      | None => JNull
      end
  end.

Definition last_fact_triple (number_to_skip : option Z)
           (anchor : request_set) : jsval :=
  last_fact_loop (_requests anchor) (length (_requests anchor))
    (default 0%Z number_to_skip).

Definition add (req : request) (intention : option string) : M request_set :=
  anchor ← get_anchor;
  let anchor :=
    if negb (hint_given intention) then with_intention "action" anchor
    else if hint_is intention "action"
         then with_intention (default "" intention) anchor
    else if hint_is intention "query" then anchor
    else anchor in
  put_anchor (with_requests (_requests anchor ++ [req]) anchor);;
  get_anchor.

Definition add_individual (class_expr model_id : arg) : M jsval :=
  if to_bool class_expr then
    ind_req ← fresh_request "individual" "add";
    let ind_req := model_if_given model_id ind_req in
    ind_req ← on_request (add_class_expression class_expr ind_req);
    add ind_req (Some "action");;
    mret (fst (individual None ind_req))
  else mret JNull.

Definition remove_individual (individual_id model_id : arg)
  : M request_set :=
  (if to_bool individual_id then
     ind_req ← fresh_request "individual" "remove";
     let ind_req := model_if_given model_id ind_req in
     let ind_req := snd (individual individual_id ind_req) in
     add ind_req (Some "action");;
     mret tt
   else mret tt);;
  get_anchor.

Definition _op_type_to_individual (op : string)
           (class_expr individual_id model_id : arg) : M request_set :=
  (if negb (String.eqb op "") && to_bool class_expr && to_bool individual_id
   then
     if negb (String.eqb op "add") && negb (String.eqb op "remove")
     then throw (Error "unknown type operation")
     else
       type_req ← fresh_request "individual" (op +:+ "-type");
       let type_req := snd (individual individual_id type_req) in
       let type_req := model_if_given model_id type_req in
       type_req ← on_request (add_class_expression class_expr type_req);
       add type_req (Some "action");;
       mret tt
   else mret tt);;
  get_anchor.

Definition add_type_to_individual (class_expr individual_id model_id : arg)
  : M request_set :=
  _op_type_to_individual "add" class_expr individual_id model_id.

Definition remove_type_from_individual
           (class_expr individual_id model_id : arg) : M request_set :=
  _op_type_to_individual "remove" class_expr individual_id model_id.

Definition _ensure_fact (triple : arg) : outcome unit :=
  if to_bool triple
     && to_bool (arg_index triple 0)
     && to_bool (arg_index triple 1)
     && to_bool (arg_index triple 2)
  then Ret tt
  else Throw (Error "triple did not look like a proper fact").

Definition add_fact (triple model_id : arg) : M arg :=
  lift_outcome (_ensure_fact triple);;
  edge_req ← fresh_request "edge" "add";
  let edge_req := model_if_given model_id edge_req in
  let edge_req :=
    fact (arg_index triple 0) (arg_index triple 1) (arg_index triple 2)
      edge_req in
  add edge_req (Some "action");;
  mret triple.

Definition remove_fact (triple model_id : arg) : M request_set :=
  lift_outcome (_ensure_fact triple);;
  edge_req ← fresh_request "edge" "remove";
  let edge_req := model_if_given model_id edge_req in
  let edge_req :=
    fact (arg_index triple 0) (arg_index triple 1) (arg_index triple 2)
      edge_req in
  add edge_req (Some "action");;
  get_anchor.

Definition add_evidence
           (evidence_id source_ids target_identifier model_id : arg)
  : M request_set :=
  (if to_bool evidence_id && to_bool source_ids then
     ev_ind_req ← fresh_request "individual" "add";
     let ev_ind_req := model_if_given model_id ev_ind_req in
     ev_ind_req ← on_request (add_class_expression evidence_id ev_ind_req);
     add ev_ind_req (Some "action");;
     ev_ind_ann_req ← fresh_request "individual" "add-annotation";
     let ev_ind_ann_req := model_if_given model_id ev_ind_ann_req in
     let ev_ind_ann_req :=
       snd (individual (Some (fst (individual None ev_ind_req)))
              ev_ind_ann_req) in
     ev_ind_ann_req ←
       on_request (add_annotation (JStr "source") source_ids ev_ind_ann_req);
     add ev_ind_ann_req (Some "action");;
     if negb (to_bool target_identifier) then
       throw (Error "no target identified for evidence add")
     else if what_is_eq target_identifier "string" then
       ind_ann_req ← fresh_request "individual" "add-annotation";
       let ind_ann_req := model_if_given model_id ind_ann_req in
       let ind_ann_req := snd (individual target_identifier ind_ann_req) in
       ind_ann_req ←
         on_request
           (add_annotation (JStr "evidence")
              (Some (fst (individual None ev_ind_req))) ind_ann_req);
       add ind_ann_req (Some "action");;
       mret tt
     else
       lift_outcome (_ensure_fact target_identifier);;
       ed_ann_req ← fresh_request "edge" "add-annotation";
       let ed_ann_req := model_if_given model_id ed_ann_req in
       let t := target_identifier in
       let ed_ann_req :=
         fact (arg_index t 0) (arg_index t 1) (arg_index t 2) ed_ann_req in
       ed_ann_req ←
         on_request
           (add_annotation (JStr "evidence")
              (Some (fst (individual None ev_ind_req))) ed_ann_req);
       add ed_ann_req (Some "action");;
       mret tt
   else mret tt);;
  get_anchor.

Definition remove_evidence (evidence_individual_id model_id : arg)
  : M request_set :=
  (if to_bool evidence_individual_id then
     remove_individual evidence_individual_id model_id;;
     mret tt
   else mret tt);;
  get_anchor.

Definition add_evidence_to_last_individual
           (evidence_id source_ids model_id : arg) : M request_set :=
  anchor ← get_anchor;
  let tmp_indv := last_individual_id None anchor in
  (if truthy tmp_indv then
     add_evidence evidence_id source_ids (Some tmp_indv) model_id;;
     mret tt
   else mret tt);;
  get_anchor.

Definition add_evidence_to_last_fact
           (evidence_id source_ids model_id : arg) : M request_set :=
  anchor ← get_anchor;
  let tmp_triple := last_fact_triple None anchor in
  (if truthy tmp_triple then
     add_evidence evidence_id source_ids (Some tmp_triple) model_id;;
     mret tt
   else mret tt);;
  get_anchor.

Definition _op_annotation_to_target (op target : string)
           (target_identifier key value model_id : arg) : M unit :=
  req ←
    (if String.eqb op "add" || String.eqb op "remove" then
       req ← fresh_request target (op +:+ "-annotation");
       mret (model_if_given model_id req)
     else throw (Error "unknown annotation operation"));
  req ←
    (if String.eqb target "model" then mret req
     else if String.eqb target "individual" then
       mret (snd (individual target_identifier req))
     else if String.eqb target "edge" then
       lift_outcome (_ensure_fact target_identifier);;
       mret (fact (arg_index target_identifier 0)
               (arg_index target_identifier 1)
               (arg_index target_identifier 2) req)
     else throw (Error "unknown annotation target"));
  match given key, given value with
  | Some k, Some _ =>
      req ← on_request (add_annotation k value req);
      add req (Some "action");;
      mret tt
  | _, _ => mret tt
  end.

Definition add_annotation_to_model (key value model_id : arg)
  : M request_set :=
  _op_annotation_to_target "add" "model" (Some JNull) key value model_id;;
  get_anchor.

Definition remove_annotation_from_model (key value model_id : arg)
  : M request_set :=
  _op_annotation_to_target "remove" "model" (Some JNull) key value model_id;;
  get_anchor.

Definition add_annotation_to_individual
           (key value individual_id model_id : arg) : M request_set :=
  _op_annotation_to_target "add" "individual" individual_id
    key value model_id;;
  get_anchor.

Definition remove_annotation_from_individual
           (key value individual_id model_id : arg) : M request_set :=
  _op_annotation_to_target "remove" "individual" individual_id
    key value model_id;;
  get_anchor.

Definition add_annotation_to_fact (key value triple model_id : arg)
  : M request_set :=
  lift_outcome (_ensure_fact triple);;
  _op_annotation_to_target "add" "edge" triple key value model_id;;
  get_anchor.

Definition remove_annotation_from_fact (key value triple model_id : arg)
  : M request_set :=
  lift_outcome (_ensure_fact triple);;
  _op_annotation_to_target "remove" "edge" triple key value model_id;;
  get_anchor.

Definition undo_last_model_batch (model_id : arg) : M request_set :=
  mod_req ← fresh_request "model" "undo";
  let mod_req := model_if_given model_id mod_req in
  add mod_req (Some "action");;
  get_anchor.

Definition redo_last_model_batch (model_id : arg) : M request_set :=
  mod_req ← fresh_request "model" "redo";
  let mod_req := model_if_given model_id mod_req in
  add mod_req (Some "action");;
  get_anchor.

Definition get_meta : M request_set :=
  req ← fresh_request "meta" "get";
  add req (Some "query");;
  get_anchor.

Definition get_model (model_id : arg) : M request_set :=
  req ← fresh_request "model" "get";
  let req := model_if_given model_id req in
  add req (Some "query");;
  get_anchor.

Definition get_undo_redo (model_id : arg) : M request_set :=
  req ← fresh_request "model" "get-undo-redo";
  let req := model_if_given model_id req in
  add req (Some "query");;
  get_anchor.

Definition add_model (argument_hash : arg) : M request_set :=
  let cls_id :=
    if to_bool argument_hash then
      if to_bool (arg_prop argument_hash "class-id")
      then arg_prop argument_hash "class-id" else Some JNull
    else Some JNull in
  let tax_id :=
    if to_bool argument_hash then
      if to_bool (arg_prop argument_hash "taxon-id")
      then arg_prop argument_hash "taxon-id" else Some JNull
    else Some JNull in
  model_req ← fresh_request "model" "add";
  let model_req :=
    if to_bool cls_id then snd (special "class-id" cls_id model_req)
    else model_req in
  let model_req :=
    if to_bool tax_id then snd (special "taxon-id" tax_id model_req)
    else model_req in
  add model_req (Some "action");;
  get_anchor.

Definition store_model (model_id : arg) : M request_set :=
  store_req ← fresh_request "model" "store";
  let store_req := model_if_given model_id store_req in
  add store_req (Some "query");;
  get_anchor.

(** The body of the loop of [structure]: back-fill the model, then
    objectify.  Both mutate the request, which stays in the list. *)
Definition structure_request (anchor : request_set) (req : request)
  : objectified * request :=
  let req :=
    if negb (truthy (fst (model None req))) && truthy (_model_id anchor)
    then snd (model (Some (_model_id anchor)) req)
    else req in
  objectify req.

Definition structure : M rset :=
  anchor ← get_anchor;
  let done := map (structure_request anchor) (_requests anchor) in
  put_anchor (with_requests (map snd done) anchor);;
  mret {| token := _user_token anchor;
          intention := _intention anchor;
          requests := map fst done |}.

(** What [JSON.stringify] sees of the list [structure] returns. *)
Definition objectified_value (base : objectified) : jsval :=
  JObj [("entity", JStr (base_entity base));
        ("operation", JStr (base_operation base));
        ("arguments", JObj (base_arguments base))].

Definition requests_value (reqs : list objectified) : jsval :=
  JArr (map objectified_value reqs).

Definition callable : M rset_callable :=
  rset ← structure;
  let reqs := requests rset in
  let str := JSON_stringify (requests_value reqs) in
  let enc := encodeURIComponent str in
  mret {| callable_token := token rset;
          callable_intention := intention rset;
          callable_requests := enc |}.

(** ** Batches: a caller's sequence of method calls *)

Inductive call : Type :=
| Add (req : request) (intention : option string)
| AddIndividual (class_expr model_id : arg)
| RemoveIndividual (individual_id model_id : arg)
| AddTypeToIndividual (class_expr individual_id model_id : arg)
| RemoveTypeFromIndividual (class_expr individual_id model_id : arg)
| AddFact (triple model_id : arg)
| RemoveFact (triple model_id : arg)
| AddEvidence (evidence_id source_ids target_identifier model_id : arg)
| RemoveEvidence (evidence_individual_id model_id : arg)
| AddEvidenceToLastIndividual (evidence_id source_ids model_id : arg)
| AddEvidenceToLastFact (evidence_id source_ids model_id : arg)
| AddAnnotationToModel (key value model_id : arg)
| RemoveAnnotationFromModel (key value model_id : arg)
| AddAnnotationToIndividual (key value individual_id model_id : arg)
| RemoveAnnotationFromIndividual (key value individual_id model_id : arg)
| AddAnnotationToFact (key value triple model_id : arg)
| RemoveAnnotationFromFact (key value triple model_id : arg)
| UndoLastModelBatch (model_id : arg)
| RedoLastModelBatch (model_id : arg)
| GetMeta
| GetModel (model_id : arg)
| GetUndoRedo (model_id : arg)
| AddModel (argument_hash : arg)
| StoreModel (model_id : arg)
| Structure
| Callable.

Definition do_call (c : call) : M unit :=
  match c with
  | Add req intention => add req intention;; mret tt
  | AddIndividual class_expr model_id =>
      add_individual class_expr model_id;; mret tt
  | RemoveIndividual individual_id model_id =>
      remove_individual individual_id model_id;; mret tt
  | AddTypeToIndividual class_expr individual_id model_id =>
      add_type_to_individual class_expr individual_id model_id;; mret tt
  | RemoveTypeFromIndividual class_expr individual_id model_id =>
      remove_type_from_individual class_expr individual_id model_id;; mret tt
  | AddFact triple model_id => add_fact triple model_id;; mret tt
  | RemoveFact triple model_id => remove_fact triple model_id;; mret tt
  | AddEvidence evidence_id source_ids target_identifier model_id =>
      add_evidence evidence_id source_ids target_identifier model_id;;
      mret tt
  | RemoveEvidence evidence_individual_id model_id =>
      remove_evidence evidence_individual_id model_id;; mret tt
  | AddEvidenceToLastIndividual evidence_id source_ids model_id =>
      add_evidence_to_last_individual evidence_id source_ids model_id;;
      mret tt
  | AddEvidenceToLastFact evidence_id source_ids model_id =>
      add_evidence_to_last_fact evidence_id source_ids model_id;; mret tt
  | AddAnnotationToModel key value model_id =>
      add_annotation_to_model key value model_id;; mret tt
  | RemoveAnnotationFromModel key value model_id =>
      remove_annotation_from_model key value model_id;; mret tt
  | AddAnnotationToIndividual key value individual_id model_id =>
      add_annotation_to_individual key value individual_id model_id;;
      mret tt
  | RemoveAnnotationFromIndividual key value individual_id model_id =>
      remove_annotation_from_individual key value individual_id model_id;;
      mret tt
  | AddAnnotationToFact key value triple model_id =>
      add_annotation_to_fact key value triple model_id;; mret tt
  | RemoveAnnotationFromFact key value triple model_id =>
      remove_annotation_from_fact key value triple model_id;; mret tt
  | UndoLastModelBatch model_id => undo_last_model_batch model_id;; mret tt
  | RedoLastModelBatch model_id => redo_last_model_batch model_id;; mret tt
  | GetMeta => get_meta;; mret tt
  | GetModel model_id => get_model model_id;; mret tt
  | GetUndoRedo model_id => get_undo_redo model_id;; mret tt
  | AddModel argument_hash => add_model argument_hash;; mret tt
  | StoreModel model_id => store_model model_id;; mret tt
  | Structure => structure;; mret tt
  | Callable => callable;; mret tt
  end.

(** The world after a sequence of calls; a call that throws is caught by
    the caller, who goes on with the next one. *)
Fixpoint run_calls (calls : list call) (w : world) : world :=
  match calls with
  | [] => w
  | c :: calls' => run_calls calls' (snd (do_call c w))
  end.

(** The calls that read the batch out, as opposed to building it. *)
Definition serializes (c : call) : bool :=
  match c with
  | Structure | Callable => true
  | _ => false
  end.

(** The [model_id] argument of a macro call, if the macro has one and
    the caller gave it. *)
Definition call_model_id (c : call) : arg :=
  match c with
  | AddIndividual _ m | RemoveIndividual _ m
  | AddTypeToIndividual _ _ m | RemoveTypeFromIndividual _ _ m
  | AddFact _ m | RemoveFact _ m
  | AddEvidence _ _ _ m | RemoveEvidence _ m
  | AddEvidenceToLastIndividual _ _ m | AddEvidenceToLastFact _ _ m
  | AddAnnotationToModel _ _ m | RemoveAnnotationFromModel _ _ m
  | AddAnnotationToIndividual _ _ _ m
  | RemoveAnnotationFromIndividual _ _ _ m
  | AddAnnotationToFact _ _ _ m | RemoveAnnotationFromFact _ _ _ m
  | UndoLastModelBatch m | RedoLastModelBatch m
  | GetModel m | GetUndoRedo m | StoreModel m => m
  | Add _ _ | GetMeta | AddModel _ | Structure | Callable => None
  end.

End Minerva.

(** ** The other class expressions of a request

    [add_svf_expression] and [add_set_class_expression] build their
    expression in two steps, [new class_expression()] and then [as_svf] or
    [as_set], which can reject their arguments: the adapter returns the
    structure or the error thrown. *)

Section Expression_forms.

(** [svf_structure class_expr property_id] is the outcome of
    [expr.as_svf(class_expr, property_id)] followed by [expr.structure()]
    on a new expression, [set_structure type class_expr_list] that of
    [expr.as_set(type, class_expr_list)]. *)
Variable svf_structure : arg -> arg -> outcome jsval.
Variable set_structure : arg -> arg -> outcome jsval.

(** The push and the count the expression methods end with. *)
Definition push_expression (expr : outcome jsval) (anchor : request)
  : outcome (option nat) * request :=
  match expr with
  | Ret expr =>
      match push_onto "expressions" expr anchor with
      | (Ret _, anchor) => (Ret (list_length "expressions" anchor), anchor)
      | (Throw e, anchor) => (Throw e, anchor)
      end
  | Throw e => (Throw e, anchor)
  end.

Definition add_svf_expression (class_expr property_id : arg)
           (anchor : request) : outcome (option nat) * request :=
  let anchor := _ensure_list "expressions" anchor in
  let expr := svf_structure class_expr property_id in
  push_expression expr anchor.

Definition add_set_class_expression (type class_expr_list : arg)
           (anchor : request) : outcome (option nat) * request :=
  let anchor := _ensure_list "expressions" anchor in
  let expr := set_structure type class_expr_list in
  push_expression expr anchor.

End Expression_forms.

(** ** A caller's sequence of calls on one request

    The methods of a request that can change it.  What a call returns is
    of no concern here, and a call that throws is caught by the caller: in
    both cases the request goes on as the call left it. *)

Inductive request_call : Type :=
| ReqSpecial (name : string) (val : arg)
| ReqIndividual (ind_id : arg)
| ReqSubject (sub : arg)
| ReqObject (obj : arg)
| ReqPredicate (pred : arg)
| ReqModel (model : arg)
| ReqFact (sub obj pred : arg)
| ReqAddAnnotation (key : jsval) (vals : arg)
| ReqAddClassExpression (class_expr : arg)
| ReqAddSvfExpression (class_expr property_id : arg)
| ReqAddSetClassExpression (type class_expr_list : arg)
| ReqObjectify.

Section Request_calls.

Variable class_structure : arg -> jsval.
Variable svf_structure : arg -> arg -> outcome jsval.
Variable set_structure : arg -> arg -> outcome jsval.

Definition do_request_call (c : request_call) (req : request) : request :=
  match c with
  | ReqSpecial name val => snd (special name val req)
  | ReqIndividual ind_id => snd (individual ind_id req)
  | ReqSubject sub => snd (subject sub req)
  | ReqObject obj => snd (object obj req)
  | ReqPredicate pred => snd (predicate pred req)
  | ReqModel m => snd (model m req)
  | ReqFact sub obj pred => fact sub obj pred req
  | ReqAddAnnotation key vals => snd (add_annotation key vals req)
  | ReqAddClassExpression class_expr =>
      snd (add_class_expression class_structure class_expr req)
  | ReqAddSvfExpression class_expr property_id =>
      snd (add_svf_expression svf_structure class_expr property_id req)
  | ReqAddSetClassExpression type class_expr_list =>
      snd (add_set_class_expression set_structure type class_expr_list req)
  | ReqObjectify => snd (objectify req)
  end.

Fixpoint run_request_calls (calls : list request_call) (req : request)
  : request :=
  match calls with
  | [] => req
  | c :: calls' => run_request_calls calls' (do_request_call c req)
  end.

End Request_calls.

(** The calls that can store an argument under the name
    assign-to-variable: [objectify], and [special] under that name. *)
Definition assigns_variable (c : request_call) : bool :=
  match c with
  | ReqSpecial name _ => String.eqb name "assign-to-variable"
  | ReqObjectify => true
  | _ => false
  end.

(** ** Notions the properties are stated with *)

(** Every value of the request, and of the world, is a proper object. *)
Definition wf_request (req : request) : bool :=
  well_formed (JObj (_arguments req))
  && well_formed (_var (_individual_id req)).

Definition wf_set (anchor : request_set) : bool :=
  well_formed (_model_id anchor) && forallb wf_request (_requests anchor).

Definition wf_world (w : world) : bool := wf_set (the_set w).

Definition wf_arg (a : arg) : Prop :=
  match a with
  | Some v => well_formed v = true
  | None => True
  end.

(** The request set after [add(req, intention)]. *)
Definition pushed (req : request) (intention : option string)
           (anchor : request_set) : request_set :=
  {| _user_token := _user_token anchor;
     _model_id := _model_id anchor;
     _requests := _requests anchor ++ [req];
     _intention :=
       if negb (hint_given intention) then "action"
       else if hint_is intention "action" then "action"
       else _intention anchor |}.

(** The world after a call of [uuid()], and after [add(req, intention)]. *)
Definition fresh_world (w : world) : world :=
  {| uuid_calls := S (uuid_calls w); the_set := the_set w |}.

Definition pushed_world (req : request) (intention : option string)
           (w : world) : world :=
  {| uuid_calls := uuid_calls w;
     the_set := pushed req intention (the_set w) |}.

(** When [untouched] holds, the request has no model id: [req.model()] is
    null. *)
Definition no_model (untouched : bool) (req : request) : Prop :=
  untouched = true -> fst (model None req) = JNull.

(** [grows untouched w w']: from [w] to [w'] the token and the default
    model stay, the intention is not weakened, and the request list is
    extended at its end, the requests already there being left as they
    were.  When [untouched] holds, the new requests have no model id of
    their own. *)
Definition grows (untouched : bool) (w w' : world) : Prop :=
  _user_token (the_set w') = _user_token (the_set w)
  /\ _model_id (the_set w') = _model_id (the_set w)
  /\ (_intention (the_set w) = "action" -> _intention (the_set w') = "action")
  /\ exists added,
      _requests (the_set w') = _requests (the_set w) ++ added
      /\ Forall (no_model untouched) added.

(** Whether the requests a call appends are sure to have no model id
    of their own: the caller gave none.  A request handed to [add] is
    the caller's own. *)
Definition call_untouched (c : call) : bool :=
  match c with
  | Add _ _ => false
  | _ => negb (to_bool (call_model_id c))
  end.

(** A request of the given entity kind, and the triple of an edge
    request. *)
Definition is_kind (kind : string) (req : request) : bool :=
  String.eqb (entity req) kind.

Definition fact_triple (req : request) : jsval :=
  JArr [fst (subject None req); fst (object None req);
        fst (predicate None req)].

(** The error [_ensure_fact] throws. *)
Definition malformed_fact : js_error :=
  Error "triple did not look like a proper fact".

(** The values [add_annotation] adds one pair for. *)
Definition annotation_items (vals : arg) : list jsval :=
  if what_is_eq vals "string" then
    match vals with Some v => [v] | None => [] end
  else
    match vals with
    | Some (JArr l) => l
    | Some (JObj o) => map snd o
    | _ => []
    end.

(** [sat Inv R V m]: run on a set that satisfies [Inv], the method [m]
    leaves a set that satisfies [Inv], in a world related by [R] to the one
    it started in, and what it returns satisfies [V]. *)
Definition sat (Inv : request_set -> Prop) (R : world -> world -> Prop)
           {A : Type} (V : A -> Prop) (m : M A) : Prop :=
  forall w, Inv (the_set w) ->
    Inv (the_set (snd (m w))) /\ R w (snd (m w))
    /\ forall a, fst (m w) = Ret a -> V a.

(** The arguments of a call are fit: [Q] holds of a request handed to
    [add], [okm] of a model id and [oka] of any other argument. *)
Definition call_fit (Q : request -> Prop) (okm oka : arg -> Prop) (c : call)
  : Prop :=
  match c with
  | Add req _ => Q req
  | AddIndividual a m | RemoveIndividual a m | AddFact a m | RemoveFact a m
  | RemoveEvidence a m =>
      oka a /\ okm m
  | AddTypeToIndividual a b m | RemoveTypeFromIndividual a b m
  | AddEvidenceToLastIndividual a b m | AddEvidenceToLastFact a b m
  | AddAnnotationToModel a b m | RemoveAnnotationFromModel a b m =>
      oka a /\ oka b /\ okm m
  | AddEvidence a b c m
  | AddAnnotationToIndividual a b c m | RemoveAnnotationFromIndividual a b c m
  | AddAnnotationToFact a b c m | RemoveAnnotationFromFact a b c m =>
      oka a /\ oka b /\ oka c /\ okm m
  | UndoLastModelBatch m | RedoLastModelBatch m | GetModel m | GetUndoRedo m
  | StoreModel m =>
      okm m
  | AddModel a => oka a
  | GetMeta | Structure | Callable => True
  end.

(** The arguments of a call are proper values. *)
Definition call_wf (c : call) : Prop :=
  call_fit (fun req => wf_request req = true) wf_arg wf_arg c.

(** The first request of [add_evidence], the floating evidence individual. *)
Definition floating_evidence (class_structure : arg -> jsval)
           (evidence_id model_id : arg) (primo : string) : request :=
  with_arguments
    (prop_set "expressions" (JArr [class_structure evidence_id])
       (_arguments
          (model_if_given model_id (new_request primo "individual" "add"))))
    (model_if_given model_id (new_request primo "individual" "add")).

(** The request an annotation macro builds before it looks at the key and
    the value: fresh, with its model id and what identifies its target. *)
Definition annotation_target (op target : string)
           (target_identifier model_id : arg) (primo : string) : request :=
  let base :=
    model_if_given model_id
      (new_request primo target (op +:+ "-annotation")) in
  if String.eqb target "individual"
  then snd (individual target_identifier base)
  else if String.eqb target "edge"
  then fact (arg_index target_identifier 0) (arg_index target_identifier 1)
         (arg_index target_identifier 2) base
  else base.

(** The names every object answers to without having been given them,
    the properties of [Object.prototype]: under such a name the argument
    object of a request, a plain [{}], is not empty. *)
Definition inherited (name : string) : bool :=
  existsb (String.eqb name)
    ["constructor"; "__proto__"; "hasOwnProperty"; "isPrototypeOf";
     "propertyIsEnumerable"; "toLocaleString"; "toString"; "valueOf";
     "__defineGetter__"; "__defineSetter__"; "__lookupGetter__";
     "__lookupSetter__"].

(** [kept req req']: [req'] is [req] but for what serialization may have
    written into it, the model id and the variable to assign. *)
Definition kept (req req' : request) : Prop :=
  _entity req' = _entity req
  /\ _operation req' = _operation req
  /\ forall k, k <> "model-id" -> k <> "assign-to-variable" ->
       prop_get k (_arguments req') = prop_get k (_arguments req).

(** The calls that only ask: they queue their request with the hint
    query. *)
Definition asks (c : call) : bool :=
  match c with
  | GetMeta | GetModel _ | GetUndoRedo _ | StoreModel _ => true
  | _ => false
  end.

(** A string made of the characters [encodeURIComponent] leaves as they
    are and of percent signs. *)
Fixpoint uri_safe (s : string) : bool :=
  match s with
  | EmptyString => true
  | String c s' => (uri_unreserved c || Ascii.eqb c "%") && uri_safe s'
  end.

(** ** A sample collaborator and identifier source

    Used to run the library on concrete batches. *)

Definition sample_structure (a : arg) : jsval :=
  match a with
  | Some (JStr s) => JObj [("type", JStr "class"); ("id", JStr s)]
  | Some v => v
  | None => JNull
  end.

Definition sample_uuid (n : nat) : string := "uuid-" +:+ pretty n.

Definition str (s : string) : arg := Some (JStr s).

Definition sample_world : world :=
  {| uuid_calls := 0;
     the_set := new_request_set (str "token") (str "gomodel:01") |}.

(** * Properties *)

(** ** Truthiness *)

Lemma to_bool_false_given (a : arg) : to_bool a = false -> given a = None.
Proof. unfold to_bool. by destruct (given a). Qed.

Lemma given_truthy (v : jsval) : truthy v = true -> given (Some v) = Some v.
Proof. unfold given. by intros ->. Qed.

(** ** request_variable *)

Lemma value_set (v : jsval) (anchor : request_variable) :
  truthy v = true ->
  value (Some v) anchor = (v, {| _var := v; _use_var_p := true |}).
Proof. intros Hv. unfold value, _value. by rewrite given_truthy. Qed.

(** C6, as the code has it: [value(w)] with a truthy argument overwrites
    the stored value every time it is called and marks the variable as
    explicitly set; with no argument, or a falsy one, it changes nothing.
    The flag, once set, stays set. *)
Theorem value_overwrites (anchor : request_variable) (w : arg) :
  (forall v, w = Some v -> truthy v = true ->
     value w anchor = (v, {| _var := v; _use_var_p := true |}))
  /\ (to_bool w = false -> value w anchor = (_var anchor, anchor))
  /\ (set_p anchor = true -> set_p (snd (value w anchor)) = true).
Proof.
  repeat split.
  - intros v -> Hv. by apply value_set.
  - intros Hw. unfold value, _value. by rewrite (to_bool_false_given _ Hw).
  - intros Hset. unfold value, _value. by destruct (given w).
Qed.

(** C6, counterexample: a variable explicitly set to "a" and then to "b"
    holds "b", not the value of the first explicit set. *)
Lemma value_second_set_wins :
  let v0 := new_request_variable "uuid-0" None in
  let v1 := snd (value (str "a") v0) in
  let v2 := snd (value (str "b") v1) in
  _var v1 = JStr "a" /\ set_p v1 = true /\ _var v2 = JStr "b"
  /\ _var v2 <> _var v1.
Proof. cbn. repeat split. discriminate. Qed.

Lemma value_overwrites_witness :
  let v1 := snd (value (str "a") (new_request_variable "uuid-0" None)) in
  value (str "b") v1 = (JStr "b", {| _var := JStr "b"; _use_var_p := true |})
  /\ value None v1 = (JStr "a", v1)
  /\ set_p (snd (value (str "b") v1)) = true.
Proof.
  intros v1. split; [|split].
  - apply (proj1 (value_overwrites v1 (str "b")) (JStr "b")); reflexivity.
  - apply (proj1 (proj2 (value_overwrites v1 None))). reflexivity.
  - apply (proj2 (proj2 (value_overwrites v1 (str "b")))). reflexivity.
Defined.

(** ** Properties of an object *)

Lemma prop_get_set_eq {A : Type} (k : string) (v : A) (o : list (string * A)) :
  prop_get k (prop_set k v o) = Some v.
Proof.
  induction o as [|[k' v'] o IH]; cbn.
  - by rewrite String.eqb_refl.
  - destruct (String.eqb k' k) eqn:Hk; cbn.
    + by rewrite String.eqb_refl.
    + by rewrite Hk.
Qed.

Lemma prop_get_set_ne {A : Type} (k k' : string) (v : A)
      (o : list (string * A)) :
  k <> k' -> prop_get k' (prop_set k v o) = prop_get k' o.
Proof.
  intros Hne. induction o as [|[k0 v0] o IH]; cbn.
  - by apply String.eqb_neq in Hne as ->.
  - destruct (String.eqb_spec k0 k) as [->|Hk0]; cbn.
    + by apply String.eqb_neq in Hne as ->.
    + by rewrite IH.
Qed.

Lemma prop_set_keys {A : Type} (k k' : string) (v : A)
      (o : list (string * A)) :
  k' ∈ map fst (prop_set k v o) <-> k' = k \/ k' ∈ map fst o.
Proof.
  induction o as [|[k0 v0] o IH]; cbn.
  - rewrite elem_of_cons, elem_of_nil. tauto.
  - destruct (String.eqb_spec k0 k) as [->|Hk0]; cbn.
    + rewrite !elem_of_cons. tauto.
    + rewrite !elem_of_cons, IH. tauto.
Qed.

(** ** request *)

Lemma individual_get (req : request) :
  individual None req = (_var (_individual_id req), req).
Proof. reflexivity. Qed.

Lemma individual_set (v : jsval) (req : request) :
  truthy v = true ->
  individual (Some v) req
  = (v, {| _entity := _entity req;
           _operation := _operation req;
           _individual_id := {| _var := v; _use_var_p := true |};
           _arguments := prop_set "individual" v (_arguments req) |}).
Proof.
  intros Hv. unfold individual. rewrite given_truthy by done.
  by rewrite value_set.
Qed.

(** A request whose id is still implicit after [individual(ind_id)] has
    the id it had before: the generated one, on a request that never had
    another. *)
Lemma implicit_id_is_generated (ind_id : arg) (req : request) :
  set_p (_individual_id (snd (individual ind_id req))) = false ->
  fst (individual ind_id req) = fst (individual None req)
  /\ set_p (_individual_id req) = false.
Proof.
  unfold individual. destruct (given ind_id) as [v|] eqn:Hv; [|done].
  cbn. unfold value, _value.
  assert (given (Some v) = Some v) as ->; [|done].
  unfold given in *. destruct ind_id as [v'|]; [|done].
  destruct (truthy v') eqn:Ht; [|done]. injection Hv as <-. by rewrite Ht.
Qed.

(** C1, counterexample: a request objectified while its id was implicit
    and given an explicit id afterwards still carries the
    assign-to-variable argument when it is objectified again. *)
Lemma objectify_keeps_stale_variable :
  let r0 := new_request "uuid-0" "individual" "add" in
  let r1 := snd (objectify r0) in
  let r2 := snd (individual (str "gomodel:01/ind1") r1) in
  _entity r2 = "individual"
  /\ set_p (_individual_id r2) = true
  /\ prop_get "assign-to-variable" (base_arguments (fst (objectify r2)))
     = Some (JStr "uuid-0")
  /\ prop_get "assign-to-variable" (base_arguments (fst (objectify r2)))
     <> None.
Proof. cbn. repeat split. discriminate. Qed.

(** *** Arguments a request method leaves alone *)

Lemma _get_set_frame (key k : string) (variable : arg) (req : request) :
  key <> k ->
  prop_get k (_arguments (snd (_get_set key variable req)))
  = prop_get k (_arguments req).
Proof.
  intros Hne. unfold _get_set. destruct (given variable); cbn; [|done].
  by apply prop_get_set_ne.
Qed.

Lemma individual_frame (k : string) (ind_id : arg) (req : request) :
  "individual" <> k ->
  prop_get k (_arguments (snd (individual ind_id req)))
  = prop_get k (_arguments req).
Proof.
  intros Hne. unfold individual. destruct (given ind_id); cbn; [|done].
  by apply prop_get_set_ne.
Qed.

Lemma fact_frame (k : string) (sub obj pred : arg) (req : request) :
  "subject" <> k -> "object" <> k -> "predicate" <> k ->
  prop_get k (_arguments (fact sub obj pred req)) = prop_get k (_arguments req).
Proof.
  intros Hs Ho Hp. unfold fact, subject, object, predicate.
  by rewrite !_get_set_frame.
Qed.

Lemma _ensure_list_frame (key k : string) (req : request) :
  key <> k ->
  prop_get k (_arguments (_ensure_list key req)) = prop_get k (_arguments req).
Proof.
  intros Hne. unfold _ensure_list.
  destruct (to_bool (prop_get key (_arguments req))); cbn; [done|].
  by apply prop_get_set_ne.
Qed.

Lemma push_onto_frame (key k : string) (item : jsval) (req : request) :
  key <> k ->
  prop_get k (_arguments (snd (push_onto key item req)))
  = prop_get k (_arguments req).
Proof.
  intros Hne. unfold push_onto.
  destruct (prop_get key (_arguments req)) as [[]|]; cbn; try done.
  by apply prop_get_set_ne.
Qed.

Lemma push_annotations_frame (k : string) (key : jsval) (vals : list jsval) :
  "values" <> k ->
  forall req,
    prop_get k (_arguments (snd (push_annotations key vals req)))
    = prop_get k (_arguments req).
Proof.
  intros Hne. induction vals as [|val vals IH]; intros req; [done|].
  cbn [push_annotations].
  pose proof (push_onto_frame "values" k (annotation_pair key val) req Hne)
    as Hpush.
  destruct (push_onto "values" (annotation_pair key val) req) as [[n|e] req'];
    cbn [snd] in *.
  - by rewrite IH.
  - done.
Qed.

Lemma add_annotation_frame (k : string) (key : jsval) (vals : arg)
      (req : request) :
  "values" <> k ->
  prop_get k (_arguments (snd (add_annotation key vals req)))
  = prop_get k (_arguments req).
Proof.
  intros Hne. unfold add_annotation.
  destruct (negb (what_is_eq _ "array")); [done|].
  match goal with
  | |- context [push_annotations ?key ?items ?r] =>
      pose proof (push_annotations_frame k key items Hne r) as Hpush;
      destruct (push_annotations key items r) as [[u|e] req']
  end; cbn [snd] in *; by rewrite Hpush, _ensure_list_frame.
Qed.

Lemma model_get (k : string) (req req' : request) :
  prop_get k (_arguments req') = prop_get k (_arguments req) ->
  _get k req' = _get k req.
Proof. unfold _get. by intros ->. Qed.


(** ** Invariants of the building calls

    Every macro builds its requests in the same way: a fresh request, its
    model id when one is given, the fields that identify its target, its
    annotations or class expression, and then [add].  What such a call
    preserves is proved once, for any property [Inv] of the set, relation [R]
    between the world before and after, and property [Q] of a request under
    construction that the steps respect when their arguments are fit
    ([okm] for a model id, [oka] for any other argument). *)

Lemma add_spec (req : request) (intention : option string) (w : world) :
  add req intention w
  = (Ret (pushed req intention (the_set w)), pushed_world req intention w).
Proof.
  unfold add, pushed_world, pushed, mbind, M_bind, get_anchor, put_anchor. cbn.
  destruct intention as [s|]; cbn; [|done].
  destruct (String.eqb_spec s ""); cbn; [done|].
  destruct (String.eqb_spec s "action") as [->|]; cbn; [done|].
  by destruct (String.eqb s "query").
Qed.

Section Invariant.

Variable class_structure : arg -> jsval.
Variable uuid : nat -> string.

Variable Inv : request_set -> Prop.
Variable R : world -> world -> Prop.
Variable Q : request -> Prop.
Variable okm oka : arg -> Prop.

Hypothesis R_refl : forall w, R w w.
Hypothesis R_trans : forall w1 w2 w3, R w1 w2 -> R w2 w3 -> R w1 w3.
Hypothesis R_fresh : forall w, R w (fresh_world w).
Hypothesis R_add :
  forall req intention w, Q req -> R w (pushed_world req intention w).
Hypothesis Inv_add :
  forall req intention anchor,
    Q req -> Inv anchor -> Inv (pushed req intention anchor).

Hypothesis Q_new : forall primo entity operation,
    Q (new_request primo entity operation).
Hypothesis Q_model : forall model_id req,
    okm model_id -> Q req -> Q (model_if_given model_id req).
Hypothesis Q_individual : forall ind_id req,
    oka ind_id -> Q req -> Q (snd (individual ind_id req)).
Hypothesis Q_fact : forall sub obj pred req,
    oka sub -> oka obj -> oka pred -> Q req -> Q (fact sub obj pred req).
Hypothesis Q_annotation : forall key vals req,
    oka (Some key) -> oka vals -> Q req ->
    Q (snd (add_annotation key vals req)).
Hypothesis Q_class : forall class_expr req,
    oka class_expr -> Q req ->
    Q (snd (add_class_expression class_structure class_expr req)).
Hypothesis Q_special : forall name val req,
    name <> "model-id" -> oka val -> Q req -> Q (snd (special name val req)).

Hypothesis oka_string : forall s, oka (Some (JStr s)).
Hypothesis oka_null : oka (Some JNull).
Hypothesis oka_given : forall a v, oka a -> given a = Some v -> oka (Some v).
Hypothesis oka_index : forall triple i, oka triple -> oka (arg_index triple i).
Hypothesis oka_prop : forall hash k, oka hash -> oka (arg_prop hash k).
Hypothesis oka_id : forall req,
    Q req -> oka (Some (fst (individual None req))).
Hypothesis oka_last : forall anchor,
    Inv anchor ->
    oka (Some (last_individual_id None anchor))
    /\ oka (Some (last_fact_triple None anchor)).

Lemma sat_ret {A : Type} (V : A -> Prop) (a : A) : V a -> sat Inv R V (mret a).
Proof. intros Ha w Hw. repeat split; [done..|]. cbn. by intros ? [= <-]. Qed.

Lemma sat_throw {A : Type} (V : A -> Prop) (e : js_error) :
  sat Inv R V (throw e).
Proof. intros w Hw. by repeat split. Qed.

Lemma sat_bind {A B : Type} (V : A -> Prop) (V' : B -> Prop)
      (m : M A) (f : A -> M B) :
  sat Inv R V m -> (forall a, V a -> sat Inv R V' (f a)) ->
  sat Inv R V' (m ≫= f).
Proof.
  intros Hm Hf w Hw. destruct (Hm w Hw) as (Hi & Hr & Hv).
  unfold mbind, M_bind. destruct (m w) as [[a|e] w1]; cbn [fst snd] in *.
  - destruct (Hf a (Hv a eq_refl) w1 Hi) as (Hi' & Hr' & Hv').
    repeat split; [done| |done]. by eapply R_trans.
  - by repeat split.
Qed.

Lemma sat_bind_any {A B : Type} (V' : B -> Prop) (m : M A) (f : A -> M B) :
  sat Inv R (fun _ => True) m -> (forall a, sat Inv R V' (f a)) ->
  sat Inv R V' (m ≫= f).
Proof. intros Hm Hf. eapply sat_bind; [exact Hm | by intros]. Qed.

Lemma sat_bind_req {B : Type} (V' : B -> Prop)
      (m : M request) (f : request -> M B) :
  sat Inv R Q m -> (forall a, Q a -> sat Inv R V' (f a)) ->
  sat Inv R V' (m ≫= f).
Proof. apply sat_bind. Qed.

Lemma sat_bind_anchor {B : Type} (V' : B -> Prop) (f : request_set -> M B) :
  (forall a, Inv a -> sat Inv R V' (f a)) -> sat Inv R V' (get_anchor ≫= f).
Proof.
  intros Hf. eapply (sat_bind Inv); [|exact Hf].
  intros w Hw. repeat split; [done..|]. cbn. by intros ? [= <-].
Qed.

Lemma sat_any {A : Type} (V : A -> Prop) (m : M A) :
  sat Inv R V m -> sat Inv R (fun _ => True) m.
Proof. intros Hm w Hw. destruct (Hm w Hw) as (? & ? & _). by repeat split. Qed.

Lemma sat_get_anchor : sat Inv R (fun _ => True) get_anchor.
Proof. intros w Hw. by repeat split. Qed.

Lemma sat_lift_outcome {A : Type} (o : outcome A) :
  sat Inv R (fun _ => True) (lift_outcome o).
Proof. intros w Hw. by repeat split. Qed.

Lemma sat_on_request {A : Type} (V : request -> Prop)
      (r : outcome A * request) :
  V (snd r) -> sat Inv R V (on_request r).
Proof.
  intros Hr. destruct r as [[a|e] req]; [by apply sat_ret | apply sat_throw].
Qed.

Lemma sat_fresh_request (entity operation : string) :
  sat Inv R Q (fresh_request uuid entity operation).
Proof.
  intros w Hw. repeat split; [done|apply R_fresh|].
  cbn. intros ? [= <-]. apply Q_new.
Qed.

Lemma sat_add (req : request) (intention : option string) :
  Q req -> sat Inv R (fun _ => True) (add req intention).
Proof.
  intros Hreq w Hw. rewrite add_spec. cbn [fst snd].
  repeat split; [by apply Inv_add | by apply R_add].
Qed.

Lemma Q_if (c : bool) (req req' : request) :
  Q req -> Q req' -> Q (if c then req else req').
Proof. by destruct c. Qed.

Lemma oka_if (c : bool) (a a' : arg) :
  oka a -> oka a' -> oka (if c then a else a').
Proof. by destruct c. Qed.

(** The request under construction, and the arguments, are fit. *)
Ltac fit_step :=
  first
    [ assumption
    | lazymatch goal with
      | |- Q (new_request _ _ _) => apply Q_new
      | |- Q (model_if_given _ _) => apply Q_model
      | |- Q (snd (individual _ _)) => apply Q_individual
      | |- Q (fact _ _ _ _) => apply Q_fact
      | |- Q (snd (add_annotation _ _ _)) => apply Q_annotation
      | |- Q (snd (add_class_expression _ _ _)) => apply Q_class
      | |- Q (snd (special _ _ _)) => apply Q_special; [discriminate| |]
      | |- Q (if _ then _ else _) => apply Q_if
      | |- oka (if _ then _ else _) => apply oka_if
      | |- oka (Some (JStr _)) => apply oka_string
      | |- oka (Some JNull) => apply oka_null
      | |- oka (arg_index _ _) => apply oka_index
      | |- oka (arg_prop _ _) => apply oka_prop
      | |- oka (Some (fst (individual None _))) => apply oka_id
      | |- oka (Some (last_individual_id None _)) => by apply oka_last
      | |- oka (Some (last_fact_triple None _)) => by apply oka_last
      | |- oka (Some ?v) =>
          match goal with
          | H : given ?a = Some v |- _ => apply (oka_given a v); [|exact H]
          end
      end ].

Ltac fit := repeat fit_step.

(** One step of a proof that a macro respects the invariant. *)
Ltac sat_step :=
  lazymatch goal with
  | |- sat _ _ _ (mret _) => apply sat_ret
  | |- sat _ _ _ (throw _) => apply sat_throw
  | |- sat _ _ _ get_anchor => apply sat_get_anchor
  | |- sat _ _ _ (lift_outcome _) => apply sat_lift_outcome
  | |- sat _ _ _ (fresh_request _ _ _) => apply sat_fresh_request
  | |- sat _ _ _ (on_request _) => apply sat_on_request
  | |- sat _ _ _ (add _ _) => apply sat_add
  | |- sat _ _ _ (if ?c then _ else _) => destruct c eqn:?
  | |- sat _ _ _ (match given ?a with _ => _ end) => destruct (given a) eqn:?
  | |- sat _ _ _ (@mbind M _ request _ _ _) =>
      apply sat_bind_req; [|intros ? ?; cbv zeta]
  | |- sat _ _ _ (@mbind M _ request_set _ _ get_anchor) =>
      apply sat_bind_anchor; intros ? ?; cbv zeta
  | |- sat _ _ _ (@mbind M _ _ _ _ _) =>
      apply sat_bind_any; [|intros ?; cbv zeta]
  | |- Q _ => solve [fit]
  | |- oka _ => solve [fit]
  | |- okm _ => assumption
  | |- True => exact I
  end.

Ltac sat_auto := repeat sat_step.

Lemma sat_add_individual (class_expr model_id : arg) :
  oka class_expr -> okm model_id ->
  sat Inv R (fun _ => True)
    (add_individual class_structure uuid class_expr model_id).
Proof. intros ? ?. unfold add_individual. sat_auto. Qed.

Lemma sat_remove_individual (individual_id model_id : arg) :
  oka individual_id -> okm model_id ->
  sat Inv R (fun _ => True) (remove_individual uuid individual_id model_id).
Proof. intros ? ?. unfold remove_individual. sat_auto. Qed.

Lemma sat__op_type_to_individual (op : string)
      (class_expr individual_id model_id : arg) :
  oka class_expr -> oka individual_id -> okm model_id ->
  sat Inv R (fun _ => True)
    (_op_type_to_individual class_structure uuid op
       class_expr individual_id model_id).
Proof. intros ? ? ?. unfold _op_type_to_individual. sat_auto. Qed.

Lemma sat_add_fact (triple model_id : arg) :
  oka triple -> okm model_id ->
  sat Inv R (fun _ => True) (add_fact uuid triple model_id).
Proof. intros ? ?. unfold add_fact. sat_auto. Qed.

Lemma sat_remove_fact (triple model_id : arg) :
  oka triple -> okm model_id ->
  sat Inv R (fun _ => True) (remove_fact uuid triple model_id).
Proof. intros ? ?. unfold remove_fact. sat_auto. Qed.

Lemma sat_add_evidence
      (evidence_id source_ids target_identifier model_id : arg) :
  oka evidence_id -> oka source_ids -> oka target_identifier ->
  okm model_id ->
  sat Inv R (fun _ => True)
    (add_evidence class_structure uuid evidence_id source_ids
       target_identifier model_id).
Proof.
  intros ? ? ? ?. unfold add_evidence. sat_auto.
Qed.

Lemma sat_remove_evidence (evidence_individual_id model_id : arg) :
  oka evidence_individual_id -> okm model_id ->
  sat Inv R (fun _ => True)
    (remove_evidence uuid evidence_individual_id model_id).
Proof.
  intros ? ?. unfold remove_evidence. sat_auto.
  by apply sat_remove_individual.
Qed.

Lemma sat_add_evidence_to_last_individual
      (evidence_id source_ids model_id : arg) :
  oka evidence_id -> oka source_ids -> okm model_id ->
  sat Inv R (fun _ => True)
    (add_evidence_to_last_individual class_structure uuid
       evidence_id source_ids model_id).
Proof.
  intros ? ? ?. unfold add_evidence_to_last_individual. sat_auto.
  apply sat_add_evidence; fit.
Qed.

Lemma sat_add_evidence_to_last_fact (evidence_id source_ids model_id : arg) :
  oka evidence_id -> oka source_ids -> okm model_id ->
  sat Inv R (fun _ => True)
    (add_evidence_to_last_fact class_structure uuid
       evidence_id source_ids model_id).
Proof.
  intros ? ? ?. unfold add_evidence_to_last_fact. sat_auto.
  apply sat_add_evidence; fit.
Qed.

Lemma sat__op_annotation_to_target (op target : string)
      (target_identifier key value model_id : arg) :
  oka target_identifier -> oka key -> oka value -> okm model_id ->
  sat Inv R (fun _ => True)
    (_op_annotation_to_target uuid op target target_identifier
       key value model_id).
Proof. intros ? ? ? ?. unfold _op_annotation_to_target. sat_auto. Qed.

Lemma sat_model_request (model_id : arg) (entity operation : string)
      (intention : option string) :
  okm model_id ->
  sat Inv R (fun _ => True)
    (req ← fresh_request uuid entity operation;
     let req := model_if_given model_id req in
     add req intention;;
     get_anchor).
Proof. intros ?. sat_auto. Qed.

Lemma sat_add_model (argument_hash : arg) :
  oka argument_hash -> sat Inv R (fun _ => True) (add_model uuid argument_hash).
Proof.
  intros ?. unfold add_model. cbv zeta. sat_auto.
Qed.

Lemma sat_get_meta : sat Inv R (fun _ => True) (get_meta uuid).
Proof. unfold get_meta. sat_auto. Qed.

Lemma sat_do_call (c : call) :
  serializes c = false -> call_fit Q okm oka c ->
  sat Inv R (fun _ => True) (do_call class_structure uuid c).
Proof.
  intros Hc Hfit.
  destruct c; try discriminate Hc; cbn [do_call]; cbn [call_fit] in Hfit;
    destruct_and?;
    (apply sat_bind_any; [|intros ?; by apply sat_ret]).
  - by apply sat_add.
  - by apply sat_add_individual.
  - by apply sat_remove_individual.
  - by apply sat__op_type_to_individual.
  - by apply sat__op_type_to_individual.
  - eapply sat_any. by apply sat_add_fact.
  - by apply sat_remove_fact.
  - by apply sat_add_evidence.
  - by apply sat_remove_evidence.
  - by apply sat_add_evidence_to_last_individual.
  - by apply sat_add_evidence_to_last_fact.
  - apply sat_bind_any; [|intros ?; apply sat_get_anchor].
    by apply sat__op_annotation_to_target.
  - apply sat_bind_any; [|intros ?; apply sat_get_anchor].
    by apply sat__op_annotation_to_target.
  - apply sat_bind_any; [|intros ?; apply sat_get_anchor].
    by apply sat__op_annotation_to_target.
  - apply sat_bind_any; [|intros ?; apply sat_get_anchor].
    by apply sat__op_annotation_to_target.
  - unfold add_annotation_to_fact. sat_auto.
    by apply sat__op_annotation_to_target.
  - unfold remove_annotation_from_fact. sat_auto.
    by apply sat__op_annotation_to_target.
  - by apply sat_model_request.
  - by apply sat_model_request.
  - apply sat_get_meta.
  - by apply sat_model_request.
  - by apply sat_model_request.
  - by apply sat_add_model.
  - by apply sat_model_request.
Qed.

End Invariant.

(** ** How a building call changes the request set *)

Lemma grows_refl (b : bool) (w : world) : grows b w w.
Proof.
  repeat split; [done|]. exists []. by rewrite app_nil_r.
Qed.

Lemma grows_fresh (b : bool) (w : world) : grows b w (fresh_world w).
Proof.
  repeat split; [done|]. exists []. by rewrite app_nil_r.
Qed.

Lemma grows_trans (b : bool) (w1 w2 w3 : world) :
  grows b w1 w2 -> grows b w2 w3 -> grows b w1 w3.
Proof.
  intros (Ht & Hm & Hi & l & Hl & Hq) (Ht' & Hm' & Hi' & l' & Hl' & Hq').
  repeat split; [congruence | congruence | tauto |].
  exists (l ++ l'). split.
  - by rewrite Hl', Hl, app_assoc.
  - by apply Forall_app.
Qed.

Lemma grows_add (b : bool) (req : request) (intention : option string)
      (w : world) :
  no_model b req -> grows b w (pushed_world req intention w).
Proof.
  intros Hreq. unfold pushed_world, pushed. repeat split; cbn.
  - intros ->. by repeat case_match.
  - exists [req]. split; [done|]. by constructor.
Qed.

Lemma no_model_frame (b : bool) (req req' : request) :
  prop_get "model-id" (_arguments req')
  = prop_get "model-id" (_arguments req) ->
  no_model b req -> no_model b req'.
Proof.
  intros Heq Hreq Hb. specialize (Hreq Hb). cbn in *.
  by rewrite (model_get _ _ _ Heq).
Qed.

Section Growth.

Variable class_structure : arg -> jsval.
Variable uuid : nat -> string.

Lemma add_class_expression_frame (k : string) (class_expr : arg)
      (req : request) :
  "expressions" <> k ->
  prop_get k (_arguments (snd (add_class_expression class_structure
                                 class_expr req)))
  = prop_get k (_arguments req).
Proof.
  intros Hne. unfold add_class_expression.
  match goal with
  | |- context [push_onto ?key ?item ?r] =>
      pose proof (push_onto_frame key k item r Hne) as Hpush;
      destruct (push_onto key item r) as [[n|e] req']
  end; cbn [snd] in *; by rewrite Hpush, _ensure_list_frame.
Qed.

Lemma do_call_grows (c : call) (w : world) :
  serializes c = false ->
  grows (call_untouched c) w (snd (do_call class_structure uuid c w)).
Proof.
  intros Hc. set (b := call_untouched c).
  refine (proj1 (proj2 (sat_do_call class_structure uuid
            (fun _ => True) (grows b) (no_model b)
            (fun m => b = true -> to_bool m = false) (fun _ => True)
            _ _ _ _ _ _ _ _ _ _ _ _ _ _ _ _ _ _ _ c Hc _ w I))); try done.
  - apply grows_refl.
  - apply grows_trans.
  - apply grows_fresh.
  - intros req intention w0. apply grows_add.
  - intros model_id req Hm Hreq Hb. unfold model_if_given.
    by rewrite (Hm Hb), (Hreq Hb).
  - intros ind_id req _. apply no_model_frame. by apply individual_frame.
  - intros sub obj pred req _ _ _. apply no_model_frame. by apply fact_frame.
  - intros key vals req _ _. apply no_model_frame.
    by apply add_annotation_frame.
  - intros class_expr req _. apply no_model_frame.
    by apply add_class_expression_frame.
  - intros name val req Hne _. apply no_model_frame.
    by apply _get_set_frame.
  - subst b. destruct c; try discriminate Hc; cbn; try done;
      repeat split; try done;
      by intros ->%negb_true_iff.
Qed.

End Growth.

(** ** Serialization of the implicit id *)

Lemma _get_set_subject (key : string) (variable : arg) (req : request) :
  _entity (snd (_get_set key variable req)) = _entity req
  /\ _individual_id (snd (_get_set key variable req)) = _individual_id req.
Proof. unfold _get_set. by destruct (given variable). Qed.

Lemma _ensure_list_subject (key : string) (req : request) :
  _entity (_ensure_list key req) = _entity req
  /\ _individual_id (_ensure_list key req) = _individual_id req.
Proof.
  unfold _ensure_list. by destruct (to_bool (prop_get key (_arguments req))).
Qed.

Lemma push_onto_subject (key : string) (item : jsval) (req : request) :
  _entity (snd (push_onto key item req)) = _entity req
  /\ _individual_id (snd (push_onto key item req)) = _individual_id req.
Proof.
  unfold push_onto. by destruct (prop_get key (_arguments req)) as [[]|].
Qed.

Lemma push_annotations_subject (key : jsval) (vals : list jsval) :
  forall req,
    _entity (snd (push_annotations key vals req)) = _entity req
    /\ _individual_id (snd (push_annotations key vals req))
       = _individual_id req.
Proof.
  induction vals as [|val vals IH]; intros req; [done|].
  cbn [push_annotations].
  destruct (push_onto_subject "values" (annotation_pair key val) req)
    as [He Hi].
  destruct (push_onto "values" (annotation_pair key val) req) as [[n|e] req'];
    cbn [snd] in *; [|done].
  destruct (IH req') as [-> ->]. done.
Qed.

Lemma add_annotation_subject (key : jsval) (vals : arg) (req : request) :
  _entity (snd (add_annotation key vals req)) = _entity req
  /\ _individual_id (snd (add_annotation key vals req)) = _individual_id req.
Proof.
  unfold add_annotation.
  destruct (negb (what_is_eq _ "array")); [done|].
  match goal with
  | |- context [push_annotations ?key ?items ?r] =>
      destruct (push_annotations_subject key items r) as [He Hi];
      destruct (push_annotations key items r) as [[u|e] req']
  end; cbn [snd] in *;
    by destruct (_ensure_list_subject "values" req) as [<- <-].
Qed.

Lemma push_expression_subject (expr : outcome jsval) (req : request) :
  _entity (snd (push_expression expr req)) = _entity req
  /\ _individual_id (snd (push_expression expr req)) = _individual_id req.
Proof.
  unfold push_expression. destruct expr as [item|e]; [|done].
  destruct (push_onto_subject "expressions" item req) as [He Hi].
  by destruct (push_onto "expressions" item req) as [[n|e] req'].
Qed.

Lemma push_expression_frame (k : string) (expr : outcome jsval)
      (req : request) :
  "expressions" <> k ->
  prop_get k (_arguments (snd (push_expression expr req)))
  = prop_get k (_arguments req).
Proof.
  intros Hne. unfold push_expression. destruct expr as [item|e]; [|done].
  pose proof (push_onto_frame "expressions" k item req Hne) as Hpush.
  by destruct (push_onto "expressions" item req) as [[n|e] req'].
Qed.

Lemma objectify_subject (req : request) :
  _entity (snd (objectify req)) = _entity req
  /\ _individual_id (snd (objectify req)) = _individual_id req.
Proof.
  unfold objectify.
  by destruct (String.eqb (_entity req) "individual"
               && negb (set_p (_individual_id req))).
Qed.

Lemma individual_subject (ind_id : arg) (req : request) :
  _entity (snd (individual ind_id req)) = _entity req
  /\ (set_p (_individual_id req) = true \/ to_bool ind_id = true ->
      set_p (_individual_id (snd (individual ind_id req))) = true).
Proof.
  unfold individual, to_bool. destruct (given ind_id) as [v|] eqn:Hv.
  - split; [done|]. intros _. cbn. unfold value, _value.
    assert (given (Some v) = Some v) as ->; [|done].
    destruct ind_id as [v'|]; [|done]. cbn in Hv |- *.
    destruct (truthy v') eqn:Ht; [|done]. injection Hv as <-. by rewrite Ht.
  - split; [done|]. by intros [?|?].
Qed.

Section Implicit_id.

Variable class_structure : arg -> jsval.
Variable svf_structure : arg -> arg -> outcome jsval.
Variable set_structure : arg -> arg -> outcome jsval.

Local Abbreviation call_on :=
  (do_request_call class_structure svf_structure set_structure).
Local Abbreviation calls_on :=
  (run_request_calls class_structure svf_structure set_structure).

(** A call on a request keeps its entity, and keeps an explicitly set id
    explicitly set. *)
Lemma do_request_call_subject (c : request_call) (req : request) :
  _entity (call_on c req) = _entity req
  /\ (set_p (_individual_id req) = true ->
      set_p (_individual_id (call_on c req)) = true).
Proof.
  assert (forall key variable r,
            _entity (snd (_get_set key variable r)) = _entity r
            /\ (set_p (_individual_id r) = true ->
                set_p (_individual_id (snd (_get_set key variable r))) = true))
    as Hget_set.
  { intros key variable r.
    by destruct (_get_set_subject key variable r) as [-> ->]. }
  assert (forall expr,
            _entity (snd (push_expression expr
                            (_ensure_list "expressions" req))) = _entity req
            /\ (set_p (_individual_id req) = true ->
                set_p (_individual_id
                         (snd (push_expression expr
                                 (_ensure_list "expressions" req)))) = true))
    as Hpush.
  { intros expr.
    destruct (push_expression_subject expr (_ensure_list "expressions" req))
      as [-> ->].
    by destruct (_ensure_list_subject "expressions" req) as [-> ->]. }
  destruct c as [name val|ind_id|sub|obj|pred|m|sub obj pred|key vals
                |class_expr|class_expr property_id|type class_expr_list|];
    cbn [do_request_call].
  - apply Hget_set.
  - destruct (individual_subject ind_id req) as [He Hs]. auto.
  - apply Hget_set.
  - apply Hget_set.
  - apply Hget_set.
  - apply Hget_set.
  - unfold fact, subject, object, predicate.
    destruct (Hget_set "subject" sub req) as [He1 Hs1].
    destruct (Hget_set "object" obj (snd (_get_set "subject" sub req)))
      as [He2 Hs2].
    destruct (Hget_set "predicate" pred
                (snd (_get_set "object" obj
                        (snd (_get_set "subject" sub req))))) as [He3 Hs3].
    split; [congruence | auto].
  - by destruct (add_annotation_subject key vals req) as [-> ->].
  - apply (Hpush (Ret (class_structure class_expr))).
  - apply Hpush.
  - apply Hpush.
  - by destruct (objectify_subject req) as [-> ->].
Qed.

(** A call other than [objectify] and [special] under the name
    assign-to-variable leaves what the request stores under that name. *)
Lemma do_request_call_frame (c : request_call) (req : request) :
  assigns_variable c = false ->
  prop_get "assign-to-variable" (_arguments (call_on c req))
  = prop_get "assign-to-variable" (_arguments req).
Proof.
  intros Hc. destruct c; cbn [do_request_call]; try discriminate Hc.
  - cbn in Hc. apply _get_set_frame. by apply String.eqb_neq.
  - by apply individual_frame.
  - by apply _get_set_frame.
  - by apply _get_set_frame.
  - by apply _get_set_frame.
  - by apply _get_set_frame.
  - by apply fact_frame.
  - by apply add_annotation_frame.
  - by apply add_class_expression_frame.
  - unfold add_svf_expression. cbv zeta.
    by rewrite push_expression_frame, _ensure_list_frame.
  - unfold add_set_class_expression. cbv zeta.
    by rewrite push_expression_frame, _ensure_list_frame.
Qed.

Lemma run_request_calls_subject (calls : list request_call) (req : request) :
  _entity (calls_on calls req) = _entity req
  /\ (set_p (_individual_id req) = true ->
      set_p (_individual_id (calls_on calls req)) = true).
Proof.
  revert req. induction calls as [|c calls IH]; intros req; [done|].
  cbn [run_request_calls].
  destruct (IH (call_on c req)) as [-> Hs].
  destruct (do_request_call_subject c req) as [-> Hs']. auto.
Qed.

Lemma run_request_calls_frame (calls : list request_call) (req : request) :
  forallb (fun c => negb (assigns_variable c)) calls = true ->
  prop_get "assign-to-variable" (_arguments (calls_on calls req))
  = prop_get "assign-to-variable" (_arguments req).
Proof.
  revert req. induction calls as [|c calls IH]; intros req Hcalls; [done|].
  cbn [forallb] in Hcalls. apply andb_true_iff in Hcalls as [Hc Hcalls].
  cbn [run_request_calls]. rewrite IH by done.
  apply do_request_call_frame. by apply negb_true_iff.
Qed.

Lemma run_request_calls_set (calls : list request_call) (id : jsval)
      (req : request) :
  In (ReqIndividual (Some id)) calls -> truthy id = true ->
  set_p (_individual_id (calls_on calls req)) = true.
Proof.
  revert req. induction calls as [|c calls IH]; intros req Hin Hid; [done|].
  cbn [run_request_calls]. destruct Hin as [-> | Hin].
  - apply run_request_calls_subject. cbn [do_request_call].
    apply individual_subject. right. unfold to_bool.
    by rewrite given_truthy.
  - by apply IH.
Qed.

(** C1, as the code has it: a request for the entity kind individual whose
    id was never explicitly set objectifies with an assign-to-variable
    argument equal to its generated individual id.  Once the id is
    explicitly set, objectify adds nothing: it returns the stored arguments
    as they are, so the key is in the result exactly when the request
    already stores it.  It stores none, and is serialized without the key
    once its id is explicitly set, when it was made by the constructor and
    then went through any calls of its methods other than objectify and
    special under the name assign-to-variable; and its id is explicitly set
    as soon as one of these calls is individual with a truthy id. *)
Theorem objectify_assign_to_variable (req : request) :
  _entity req = "individual" ->
  (set_p (_individual_id req) = false ->
     prop_get "assign-to-variable" (base_arguments (fst (objectify req)))
     = Some (fst (individual None req)))
  /\ (set_p (_individual_id req) = true ->
        snd (objectify req) = req
        /\ base_arguments (fst (objectify req)) = _arguments req
        /\ prop_get "assign-to-variable"
             (base_arguments (fst (objectify req)))
           = prop_get "assign-to-variable" (_arguments req))
  /\ (forall (primo operation : string) (calls : list request_call),
        req = run_request_calls class_structure svf_structure set_structure
                calls (new_request primo "individual" operation) ->
        forallb (fun c => negb (assigns_variable c)) calls = true ->
        (set_p (_individual_id req) = true ->
         prop_get "assign-to-variable"
           (base_arguments (fst (objectify req))) = None)
        /\ (forall id, In (ReqIndividual (Some id)) calls ->
              truthy id = true ->
              set_p (_individual_id req) = true
              /\ prop_get "assign-to-variable"
                   (base_arguments (fst (objectify req))) = None)).
Proof.
  intros Hent.
  assert (set_p (_individual_id req) = true ->
          snd (objectify req) = req
          /\ base_arguments (fst (objectify req)) = _arguments req)
    as Hexplicit.
  { unfold objectify. rewrite Hent. by intros ->. }
  split; [|split].
  - unfold objectify. rewrite Hent.
    change (String.eqb "individual" "individual") with true. cbn [andb].
    intros ->. cbn. apply prop_get_set_eq.
  - intros Hset. destruct (Hexplicit Hset) as [Hsame Hargs].
    by rewrite Hargs.
  - intros primo operation calls Hreq Hcalls.
    assert (set_p (_individual_id req) = true ->
            prop_get "assign-to-variable"
              (base_arguments (fst (objectify req))) = None) as Hnone.
    { intros Hset. destruct (Hexplicit Hset) as [_ ->].
      rewrite Hreq. by rewrite run_request_calls_frame. }
    split; [exact Hnone|]. intros id Hin Hid.
    assert (set_p (_individual_id req) = true) as Hset
      by (rewrite Hreq; by eapply run_request_calls_set).
    split; [exact Hset | by apply Hnone].
Qed.

End Implicit_id.

Lemma objectify_assign_to_variable_witness :
  let no_form (a b : arg) : outcome jsval := Throw (Error "no such form") in
  let implicit := new_request "uuid-0" "individual" "add" in
  let explicit := snd (individual (str "gomodel:01/ind1") implicit) in
  let calls :=
    [ReqModel (str "gomodel:01");
     ReqSpecial "assign-to" (str "x");
     ReqIndividual (str "gomodel:01/ind1");
     ReqAddClassExpression (str "GO:0008150");
     ReqAddAnnotation (JStr "comment") (str "a")] in
  let built :=
    run_request_calls sample_structure no_form no_form calls
      (new_request "uuid-1" "individual" "add-type") in
  prop_get "assign-to-variable" (base_arguments (fst (objectify implicit)))
  = Some (fst (individual None implicit))
  /\ (snd (objectify explicit) = explicit
      /\ base_arguments (fst (objectify explicit)) = _arguments explicit
      /\ prop_get "assign-to-variable"
           (base_arguments (fst (objectify explicit)))
         = prop_get "assign-to-variable" (_arguments explicit))
  /\ (set_p (_individual_id built) = true
      /\ prop_get "assign-to-variable"
           (base_arguments (fst (objectify built))) = None).
Proof.
  intros no_form implicit explicit calls built. split; [|split].
  - apply (proj1 (objectify_assign_to_variable sample_structure no_form
                    no_form implicit eq_refl)).
    reflexivity.
  - apply (proj1 (proj2 (objectify_assign_to_variable sample_structure
                           no_form no_form explicit eq_refl))).
    reflexivity.
  - apply (proj2 (proj2 (proj2 (objectify_assign_to_variable sample_structure
                                  no_form no_form built eq_refl))
                    "uuid-1" "add-type" calls eq_refl eq_refl)
             (JStr "gomodel:01/ind1")).
    + right. right. left. reflexivity.
    + reflexivity.
Defined.

(** ** Intention and serialization *)

Lemma structure_spec (w : world) :
  structure w
  = (Ret {| token := _user_token (the_set w);
            intention := _intention (the_set w);
            requests :=
              map fst (map (structure_request (the_set w))
                         (_requests (the_set w))) |},
     {| uuid_calls := uuid_calls w;
        the_set :=
          with_requests
            (map snd (map (structure_request (the_set w))
                        (_requests (the_set w))))
            (the_set w) |}).
Proof. reflexivity. Qed.

Lemma callable_spec (w : world) :
  callable w
  = (Ret {| callable_token := _user_token (the_set w);
            callable_intention := _intention (the_set w);
            callable_requests :=
              encodeURIComponent
                (JSON_stringify
                   (requests_value
                      (map fst (map (structure_request (the_set w))
                                  (_requests (the_set w)))))) |},
     snd (structure w)).
Proof. reflexivity. Qed.

Section Batches.

Variable class_structure : arg -> jsval.
Variable uuid : nat -> string.

Lemma do_call_intention (c : call) (w : world) :
  _intention (the_set w) = "action" ->
  _intention (the_set (snd (do_call class_structure uuid c w))) = "action".
Proof.
  destruct (serializes c) eqn:Hc.
  - by destruct c.
  - destruct (do_call_grows class_structure uuid c w Hc) as (_ & _ & Hi & _).
    exact Hi.
Qed.

Lemma run_calls_intention (calls : list call) (w : world) :
  _intention (the_set w) = "action" ->
  _intention (the_set (run_calls class_structure uuid calls w)) = "action".
Proof.
  revert w. induction calls as [|c calls IH]; intros w Hw; [done|].
  cbn [run_calls]. by apply IH, do_call_intention.
Qed.

(** C2: a request set starts with the intention query; an add with no
    hint or with the hint action sets it to action; an add with the hint
    query leaves it as it is; and once it is action, no sequence of calls
    brings it back: it is still action after them, and that is what
    structure reports. *)
Theorem intention_monotonic :
  (forall user_token model_id : arg,
     _intention (new_request_set user_token model_id) = "query")
  /\ (forall (req : request) (hint : option string) (w : world),
        hint = None \/ hint = Some "action" ->
        _intention (the_set (snd (add req hint w))) = "action")
  /\ (forall (req : request) (w : world),
        _intention (the_set (snd (add req (Some "query") w)))
        = _intention (the_set w))
  /\ (forall (calls : list call) (w : world),
        _intention (the_set w) = "action" ->
        let w' := run_calls class_structure uuid calls w in
        _intention (the_set w') = "action"
        /\ exists r w'', structure w' = (Ret r, w'') /\ intention r = "action").
Proof.
  split; [done|]. split; [|split].
  - intros req hint w [-> | ->]; by rewrite add_spec.
  - intros req w. by rewrite add_spec.
  - intros calls w Hw w'. pose proof (run_calls_intention calls w Hw) as Hw'.
    split; [exact Hw'|]. rewrite structure_spec. by eexists _, _.
Qed.

End Batches.

Lemma intention_monotonic_witness :
  let w :=
    snd (add (new_request "uuid-0" "model" "get") None sample_world) in
  let w' :=
    run_calls sample_structure sample_uuid
      [GetMeta; Add (new_request "uuid-9" "meta" "get") (Some "query");
       StoreModel None] w in
  _intention (the_set sample_world) = "query"
  /\ _intention (the_set w) = "action"
  /\ _intention (the_set w') = "action"
  /\ exists r w'', structure w' = (Ret r, w'') /\ intention r = "action".
Proof.
  intros w w'. split; [reflexivity|]. split.
  - apply (proj1 (proj2 (intention_monotonic sample_structure sample_uuid))).
    left. reflexivity.
  - apply (proj2 (proj2 (proj2
             (intention_monotonic sample_structure sample_uuid)))).
    reflexivity.
Defined.

Lemma objectify_frame (k : string) (req : request) :
  k <> "assign-to-variable" ->
  prop_get k (base_arguments (fst (objectify req)))
  = prop_get k (_arguments req).
Proof.
  intros Hne. unfold objectify.
  destruct (String.eqb (_entity req) "individual"
            && negb (set_p (_individual_id req))); cbn; [|done].
  by apply prop_get_set_ne.
Qed.




Section Serialization.

Variable class_structure : arg -> jsval.
Variable uuid : nat -> string.

Lemma do_call_model_id (c : call) (w : world) :
  _model_id (the_set (snd (do_call class_structure uuid c w)))
  = _model_id (the_set w).
Proof.
  destruct (serializes c) eqn:Hc.
  - by destruct c.
  - by destruct (do_call_grows class_structure uuid c w Hc) as (_ & Hm & _).
Qed.

Lemma run_calls_model_id (calls : list call) (w : world) :
  _model_id (the_set (run_calls class_structure uuid calls w))
  = _model_id (the_set w).
Proof.
  revert w. induction calls as [|c calls IH]; intros w; [done|].
  cbn [run_calls]. by rewrite IH, do_call_model_id.
Qed.



End Serialization.


(** ** Backward lookup *)

Lemma last_individual_loop_spec (reqs : list request) (ugh skip : nat) :
  ugh <= length reqs ->
  last_individual_loop reqs ugh (Z.of_nat skip)
  = match List.filter (is_kind "individual") (rev (take ugh reqs)) !! skip with
    | Some req => fst (individual None req)
    | None => JNull
    end.
Proof.
  revert skip. induction ugh as [|ugh IH]; intros skip Hlen; [done|].
  destruct (lookup_lt_is_Some_2 reqs ugh) as [req Hreq]; [lia|].
  cbn [last_individual_loop]. rewrite Hreq.
  rewrite (take_S_r _ _ _ Hreq), rev_unit. cbn [List.filter].
  unfold is_kind at 1. destruct (String.eqb (entity req) "individual").
  - destruct skip as [|skip].
    + done.
    + assert ((Z.of_nat (S skip) >? 0)%Z = true) as -> by (apply Z.gtb_lt; lia).
      replace (Z.of_nat (S skip) - 1)%Z with (Z.of_nat skip) by lia.
      rewrite IH by lia. done.
  - apply IH. lia.
Qed.

Lemma last_fact_loop_spec (reqs : list request) (ugh skip : nat) :
  ugh <= length reqs ->
  last_fact_loop reqs ugh (Z.of_nat skip)
  = match List.filter (is_kind "edge") (rev (take ugh reqs)) !! skip with
    | Some req => fact_triple req
    | None => JNull
    end.
Proof.
  revert skip. induction ugh as [|ugh IH]; intros skip Hlen; [done|].
  destruct (lookup_lt_is_Some_2 reqs ugh) as [req Hreq]; [lia|].
  cbn [last_fact_loop]. rewrite Hreq.
  rewrite (take_S_r _ _ _ Hreq), rev_unit. cbn [List.filter].
  unfold is_kind at 1. destruct (String.eqb (entity req) "edge").
  - destruct skip as [|skip].
    + done.
    + assert ((Z.of_nat (S skip) >? 0)%Z = true) as -> by (apply Z.gtb_lt; lia).
      replace (Z.of_nat (S skip) - 1)%Z with (Z.of_nat skip) by lia.
      rewrite IH by lia. done.
  - apply IH. lia.
Qed.

(** C4: for a natural number skip, last_individual_id(skip) is the
    individual id of the request at position skip among the requests of
    entity kind individual, read from the most recently added one backward,
    and null when there are no more than skip of them; last_fact_triple(skip)
    is the same for the kind edge, with the list of subject, object and
    predicate of the request. *)
Theorem last_lookup_skips (anchor : request_set) (skip : nat) :
  last_individual_id (Some (Z.of_nat skip)) anchor
  = match List.filter (is_kind "individual") (rev (_requests anchor)) !! skip
    with
    | Some req => fst (individual None req)
    | None => JNull
    end
  /\ last_fact_triple (Some (Z.of_nat skip)) anchor
     = match List.filter (is_kind "edge") (rev (_requests anchor)) !! skip with
       | Some req =>
           JArr [fst (subject None req); fst (object None req);
                 fst (predicate None req)]
       | None => JNull
       end.
Proof.
  unfold last_individual_id, last_fact_triple.
  change (default 0%Z (Some (Z.of_nat skip))) with (Z.of_nat skip).
  rewrite last_individual_loop_spec, last_fact_loop_spec by done.
  by rewrite firstn_all.
Qed.

(** An omitted skip count is a skip count of zero. *)
Lemma last_lookup_default (anchor : request_set) :
  last_individual_id None anchor = last_individual_id (Some 0%Z) anchor
  /\ last_fact_triple None anchor = last_fact_triple (Some 0%Z) anchor.
Proof. done. Qed.

(** ** Fact triples *)

Lemma to_bool_arg_index (triple : arg) (i : nat) :
  to_bool (arg_index triple i) = true -> to_bool triple = true.
Proof.
  destruct triple as [[| |s| |]|]; try done.
  destruct s; [by destruct i | done].
Qed.

Lemma _ensure_fact_throws (triple : arg) :
  (exists i, i < 3 /\ to_bool (arg_index triple i) = false) ->
  _ensure_fact triple = Throw malformed_fact.
Proof.
  intros (i & Hi & Habsent). unfold _ensure_fact.
  destruct i as [|[|[|i]]]; [..|lia]; rewrite Habsent;
    by rewrite ?andb_false_r.
Qed.

Lemma _ensure_fact_returns (triple : arg) :
  (forall i, i < 3 -> to_bool (arg_index triple i) = true) ->
  _ensure_fact triple = Ret tt.
Proof.
  intros Hall. unfold _ensure_fact.
  rewrite (to_bool_arg_index triple 0), !Hall by (try apply Hall; lia). done.
Qed.

Lemma push_annotations_error (key : jsval) (vals : list jsval) :
  forall (req : request) (e : js_error),
    fst (push_annotations key vals req) = Throw e -> e = TypeError.
Proof.
  induction vals as [|val vals IH]; intros req e; [done|].
  cbn [push_annotations]. unfold push_onto.
  destruct (prop_get "values" (_arguments req)) as [[]|]; cbn;
    try (by intros [= <-]).
  apply IH.
Qed.

Lemma add_annotation_error (key : jsval) (vals : arg) (req : request)
      (e : js_error) :
  fst (add_annotation key vals req) = Throw e ->
  e = Error "unknown argument" \/ e = TypeError.
Proof.
  unfold add_annotation.
  destruct (negb (what_is_eq _ "array")); [intros [= <-]; by left|].
  match goal with
  | |- context [push_annotations ?key ?items ?r] =>
      pose proof (push_annotations_error key items r) as Hpush;
      destruct (push_annotations key items r) as [[u|e'] req']
  end; cbn; [done|].
  intros [= <-]. right. by apply Hpush.
Qed.

Section Facts.

Variable uuid : nat -> string.

Lemma _op_annotation_to_fact_error (op : string)
      (triple key value model_id : arg) (w : world) :
  _ensure_fact triple = Ret tt ->
  fst (_op_annotation_to_target uuid op "edge" triple key value model_id w)
  <> Throw malformed_fact.
Proof.
  intros Hok. unfold _op_annotation_to_target, mbind, M_bind.
  destruct (String.eqb op "add" || String.eqb op "remove"); [|done].
  cbn. rewrite Hok. cbn.
  destruct (given key) as [k|]; [|done].
  destruct (given value) as [v|]; [|done].
  match goal with
  | |- context [add_annotation ?k ?v ?r] =>
      pose proof (add_annotation_error k v r) as Herr;
      destruct (add_annotation k v r) as [[n|e] req']
  end; cbn; [done|].
  intros [= ->]. by destruct (Herr _ eq_refl).
Qed.

(** C5: when the triple argument, or any of its three fields, is absent
    (missing, null or empty), add_fact, remove_fact, add_annotation_to_fact
    and remove_annotation_from_fact throw the error "triple did not look like
    a proper fact"; when all three fields are present, none of them throws
    it. *)
Theorem malformed_fact_raises (triple model_id key value : arg) (w : world) :
  ((exists i, i < 3 /\ to_bool (arg_index triple i) = false) ->
     fst (add_fact uuid triple model_id w) = Throw malformed_fact
     /\ fst (remove_fact uuid triple model_id w) = Throw malformed_fact
     /\ fst (add_annotation_to_fact uuid key value triple model_id w)
        = Throw malformed_fact
     /\ fst (remove_annotation_from_fact uuid key value triple model_id w)
        = Throw malformed_fact)
  /\ ((forall i, i < 3 -> to_bool (arg_index triple i) = true) ->
        fst (add_fact uuid triple model_id w) = Ret triple
        /\ returned (fst (remove_fact uuid triple model_id w)) = true
        /\ fst (add_annotation_to_fact uuid key value triple model_id w)
           <> Throw malformed_fact
        /\ fst (remove_annotation_from_fact uuid key value triple model_id w)
           <> Throw malformed_fact).
Proof.
  split.
  - intros Habsent. apply _ensure_fact_throws in Habsent.
    unfold add_fact, remove_fact, add_annotation_to_fact,
      remove_annotation_from_fact, mbind, M_bind, lift_outcome.
    by rewrite Habsent.
  - intros Hpresent. apply _ensure_fact_returns in Hpresent.
    pose proof (_op_annotation_to_fact_error "add" triple key value model_id
                  w Hpresent) as Hadd.
    pose proof (_op_annotation_to_fact_error "remove" triple key value model_id
                  w Hpresent) as Hremove.
    unfold add_fact, remove_fact, add_annotation_to_fact,
      remove_annotation_from_fact, mbind, M_bind, lift_outcome.
    rewrite Hpresent. repeat split; try done.
    + destruct (_op_annotation_to_target uuid "add" "edge" triple key value
                  model_id w) as [[u|e] w']; [done|].
      cbn in *. congruence.
    + destruct (_op_annotation_to_target uuid "remove" "edge" triple key value
                  model_id w) as [[u|e] w']; [done|].
      cbn in *. congruence.
Qed.

End Facts.

Lemma malformed_fact_raises_witness :
  let broken := Some (JArr [JStr "i1"; JNull; JStr "part_of"]) in
  let proper := Some (JArr [JStr "i1"; JStr "i2"; JStr "part_of"]) in
  fst (add_fact sample_uuid broken None sample_world) = Throw malformed_fact
  /\ fst (add_fact sample_uuid proper None sample_world) = Ret proper.
Proof.
  intros broken proper. split.
  - apply (proj1 (malformed_fact_raises sample_uuid broken
                    None (str "k") (str "v") sample_world)).
    exists 1. split; [lia | reflexivity].
  - apply (proj2 (malformed_fact_raises sample_uuid proper
                    None (str "k") (str "v") sample_world)).
    intros [|[|[|i]]] Hi; [reflexivity | reflexivity | reflexivity | lia].
Defined.

(** ** Lists of annotations and expressions on a request *)

Lemma prop_set_set {A : Type} (k : string) (v v' : A) (o : list (string * A)) :
  prop_set k v (prop_set k v' o) = prop_set k v o.
Proof.
  induction o as [|[k0 v0] o IH]; cbn.
  - by rewrite String.eqb_refl.
  - destruct (String.eqb k0 k) eqn:Hk; cbn.
    + by rewrite String.eqb_refl.
    + by rewrite Hk, IH.
Qed.

Lemma prop_set_same {A : Type} (k : string) (v : A) (o : list (string * A)) :
  prop_get k o = Some v -> prop_set k v o = o.
Proof.
  induction o as [|[k0 v0] o IH]; cbn; [done|].
  destruct (String.eqb_spec k0 k) as [->|_].
  - by intros [= ->].
  - intros H. by rewrite IH.
Qed.

Lemma push_annotations_array (key : jsval) (vals : list jsval) :
  forall (req : request) (l : list jsval),
    prop_get "values" (_arguments req) = Some (JArr l) ->
    push_annotations key vals req
    = (Ret tt,
       with_arguments
         (prop_set "values" (JArr (l ++ map (annotation_pair key) vals))
            (_arguments req)) req).
Proof.
  induction vals as [|val vals IH]; intros [e o v args] l Hl; cbn in *.
  - rewrite app_nil_r. unfold with_arguments. cbn.
    by rewrite prop_set_same.
  - unfold push_onto. cbn. rewrite Hl.
    rewrite (IH _ (l ++ [annotation_pair key val])).
    + unfold with_arguments. cbn. by rewrite prop_set_set, <- app_assoc.
    + cbn. apply prop_get_set_eq.
Qed.

(** On a request without annotations yet, [add_annotation] with a string
    or a list succeeds and stores one pair per value. *)
Lemma add_annotation_fresh (key : jsval) (vals : arg) (req : request) :
  (what_is_eq vals "string" || what_is_eq vals "array") = true ->
  to_bool (prop_get "values" (_arguments req)) = false ->
  add_annotation key vals req
  = (Ret (Some (length (annotation_items vals))),
     with_arguments
       (prop_set "values" (JArr (map (annotation_pair key)
                                   (annotation_items vals)))
          (_arguments req)) req).
Proof.
  intros Hkind Hnone. unfold add_annotation, annotation_items, _ensure_list.
  rewrite Hnone.
  destruct (what_is_eq vals "string") eqn:Hstr.
  - destruct vals as [v|]; [|done].
    change (what_is_eq (Some (JArr [v])) "array") with true. cbn [negb].
    rewrite (push_annotations_array key [v] _ []) by apply prop_get_set_eq.
    unfold with_arguments, list_length. cbn.
    by rewrite !prop_set_set, prop_get_set_eq.
  - cbn in Hkind. rewrite Hkind. cbn [negb].
    match goal with
    | |- context [push_annotations key ?items ?r] =>
        rewrite (push_annotations_array key items r []) by apply prop_get_set_eq
    end.
    unfold with_arguments, list_length. cbn.
    by rewrite !prop_set_set, prop_get_set_eq, length_map.
Qed.

Section Expressions.

Variable class_structure : arg -> jsval.

Lemma add_class_expression_fresh (class_expr : arg) (req : request) :
  to_bool (prop_get "expressions" (_arguments req)) = false ->
  add_class_expression class_structure class_expr req
  = (Ret (Some 1),
     with_arguments
       (prop_set "expressions" (JArr [class_structure class_expr])
          (_arguments req)) req).
Proof.
  intros Hnone. unfold add_class_expression, _ensure_list, push_onto.
  rewrite Hnone. cbn. rewrite prop_get_set_eq.
  unfold with_arguments, list_length. cbn.
  by rewrite !prop_set_set, prop_get_set_eq.
Qed.

End Expressions.

Lemma model_if_given_frame (k : string) (model_id : arg) (req : request) :
  "model-id" <> k ->
  prop_get k (_arguments (model_if_given model_id req))
  = prop_get k (_arguments req).
Proof.
  intros Hne. unfold model_if_given. destruct (to_bool model_id); [|done].
  by apply _get_set_frame.
Qed.

Lemma model_if_given_entity (model_id : arg) (req : request) :
  _entity (model_if_given model_id req) = _entity req
  /\ _operation (model_if_given model_id req) = _operation req
  /\ _individual_id (model_if_given model_id req) = _individual_id req.
Proof.
  unfold model_if_given, model, _get_set.
  destruct (to_bool model_id); [|done]. by destruct (given model_id).
Qed.

Lemma add_annotation_unknown (key : jsval) (vals : arg) (req : request) :
  (what_is_eq vals "string" || what_is_eq vals "array") = false ->
  add_annotation key vals req = (Throw (Error "unknown argument"), req).
Proof.
  intros Hkind. apply orb_false_elim in Hkind as [Hstr Harr].
  unfold add_annotation. by rewrite Hstr, Harr.
Qed.

(** ** Evidence and type macros *)

Section Evidence.

Variable class_structure : arg -> jsval.
Variable uuid : nat -> string.

Lemma bind_fresh {B : Type} (entity operation : string) (f : request -> M B)
      (w : world) :
  (fresh_request uuid entity operation ≫= f) w
  = f (new_request (uuid (uuid_calls w)) entity operation)
      {| uuid_calls := S (uuid_calls w); the_set := the_set w |}.
Proof. reflexivity. Qed.

Lemma bind_add {B : Type} (req : request) (intention : option string)
      (f : request_set -> M B) (w : world) :
  (add req intention ≫= f) w
  = f (pushed req intention (the_set w))
      {| uuid_calls := uuid_calls w;
         the_set := pushed req intention (the_set w) |}.
Proof. unfold mbind, M_bind. by rewrite add_spec. Qed.

Lemma bind_on_request {A B : Type} (a : A) (r : request)
      (x : outcome A * request) (f : request -> M B) (w : world) :
  x = (Ret a, r) -> (on_request x ≫= f) w = f r w.
Proof. by intros ->. Qed.

Lemma bind_on_request_throw {A B : Type} (e : js_error) (r : request)
      (x : outcome A * request) (f : request -> M B) (w : world) :
  x = (Throw e, r) -> (on_request x ≫= f) w = (Throw e, w).
Proof. by intros ->. Qed.

(** C10: when the class expression or the individual id is absent,
    add_type_to_individual and remove_type_from_individual append nothing,
    leave the intention (and the rest of the world) as it is, throw nothing
    and return the request set. *)
Theorem type_macros_ignore_missing
        (class_expr individual_id model_id : arg) (w : world) :
  to_bool class_expr = false \/ to_bool individual_id = false ->
  add_type_to_individual class_structure uuid class_expr individual_id
    model_id w = (Ret (the_set w), w)
  /\ remove_type_from_individual class_structure uuid class_expr individual_id
       model_id w = (Ret (the_set w), w).
Proof.
  intros Hmissing.
  unfold add_type_to_individual, remove_type_from_individual,
    _op_type_to_individual.
  assert (to_bool class_expr && to_bool individual_id = false) as Hcond
    by (destruct Hmissing as [-> | ->]; by rewrite ?andb_false_r).
  cbn [String.eqb Ascii.eqb Bool.eqb negb andb].
  change (negb (String.eqb "add" "")) with true.
  change (negb (String.eqb "remove" "")) with true.
  cbn [andb]. by rewrite Hcond.
Qed.

Lemma floating_evidence_added (evidence_id model_id : arg) (primo : string) :
  add_class_expression class_structure evidence_id
    (model_if_given model_id (new_request primo "individual" "add"))
  = (Ret (Some 1),
     floating_evidence class_structure evidence_id model_id primo).
Proof.
  apply add_class_expression_fresh. by rewrite model_if_given_frame by done.
Qed.

Lemma floating_evidence_id (evidence_id model_id : arg) (primo : string) :
  fst (individual None
         (floating_evidence class_structure evidence_id model_id primo))
  = JStr primo.
Proof.
  unfold floating_evidence. rewrite individual_get.
  unfold with_arguments. cbn [_individual_id fst].
  by rewrite (proj2 (proj2 (model_if_given_entity _ _))).
Qed.

Lemma floating_evidence_kind (evidence_id model_id : arg) (primo : string) :
  _entity (floating_evidence class_structure evidence_id model_id primo)
  = "individual"
  /\ _operation (floating_evidence class_structure evidence_id model_id primo)
     = "add".
Proof.
  unfold floating_evidence, with_arguments. cbn [_entity _operation].
  by rewrite (proj1 (model_if_given_entity _ _)),
    (proj1 (proj2 (model_if_given_entity _ _))).
Qed.

(** A request made by [new request(entity, operation)], given a model id
    if there is one and then an individual id, still has that entity and
    operation. *)
Lemma identified_request_kind (ind_id model_id : arg)
      (primo entity operation : string) :
  let req :=
    snd (individual ind_id
           (model_if_given model_id (new_request primo entity operation))) in
  _entity req = entity /\ _operation req = operation.
Proof.
  unfold individual. destruct (given ind_id);
    cbn [snd _add with_arguments with_individual_id _entity _operation];
    by rewrite (proj1 (model_if_given_entity _ _)),
      (proj1 (proj2 (model_if_given_entity _ _))).
Qed.

(** Unfold the outermost bind of a method applied to a world. *)
Ltac enter_bind := unfold mbind at 1; unfold M_bind at 1.

(** Run [add_evidence] up to the point where it looks at the target. *)
Ltac run_floating_evidence :=
  rewrite bind_fresh; cbv zeta;
  erewrite bind_on_request; [|apply floating_evidence_added];
  rewrite bind_add, bind_fresh; cbv zeta;
  rewrite floating_evidence_id;
  cbn [uuid_calls].

(** C9: with an evidence id and source ids but no target, add_evidence
    throws "no target identified for evidence add" only after it has
    appended the floating evidence individual and its source annotation:
    the list is two requests longer and the intention is action. *)
Theorem add_evidence_without_target
        (evidence_id source_ids target_identifier model_id : arg) (w : world) :
  to_bool evidence_id = true ->
  to_bool source_ids = true ->
  (what_is_eq source_ids "string" || what_is_eq source_ids "array") = true ->
  to_bool target_identifier = false ->
  exists ev_ind_req ev_ind_ann_req w',
    add_evidence class_structure uuid evidence_id source_ids
      target_identifier model_id w
    = (Throw (Error "no target identified for evidence add"), w')
    /\ _requests (the_set w')
       = _requests (the_set w) ++ [ev_ind_req; ev_ind_ann_req]
    /\ length (_requests (the_set w')) = length (_requests (the_set w)) + 2
    /\ _intention (the_set w') = "action"
    /\ (_entity ev_ind_req, _operation ev_ind_req) = ("individual", "add")
    /\ (_entity ev_ind_ann_req, _operation ev_ind_ann_req)
       = ("individual", "add-annotation").
Proof.
  intros Hev Hsrc Hkind Htarget. unfold add_evidence.
  rewrite Hev, Hsrc, Htarget. cbn [andb negb].
  eexists _, _, _.
  enter_bind. run_floating_evidence.
  erewrite bind_on_request; cycle 1.
  { apply add_annotation_fresh; [done|].
    by rewrite individual_frame, model_if_given_frame by done. }
  rewrite bind_add. unfold throw.
  split; [reflexivity|]. cbn [the_set pushed _requests _intention snd].
  rewrite <- app_assoc, !length_app. cbn [app length].
  split; [reflexivity|]. split; [lia|]. split; [done|].
  unfold with_arguments at 1 2. cbn [_entity _operation].
  pose proof (floating_evidence_kind evidence_id model_id
                (uuid (uuid_calls w))) as [-> ->].
  pose proof (identified_request_kind (Some (JStr (uuid (uuid_calls w))))
                model_id (uuid (S (uuid_calls w)))
                "individual" "add-annotation") as [-> ->].
  done.
Qed.

Lemma bind_lift_outcome {A B : Type} (o : outcome A) (f : A -> M B)
      (w : world) :
  (lift_outcome o ≫= f) w
  = match o with
    | Ret a => f a w
    | Throw e => (Throw e, w)
    end.
Proof. by destruct o. Qed.

(** What [add_evidence] does when it has an evidence id and source ids:
    it throws, or it returns after appending exactly three requests, the
    last of which carries the target. *)
Lemma add_evidence_cases
      (evidence_id source_ids target_identifier model_id : arg) (w : world) :
  to_bool evidence_id = true ->
  to_bool source_ids = true ->
  exists o w',
    add_evidence class_structure uuid evidence_id source_ids
      target_identifier model_id w = (o, w')
    /\ match o with
       | Throw _ => True
       | Ret anchor =>
           anchor = the_set w'
           /\ exists ev_ind_ann_req tie_req,
               _requests (the_set w')
               = _requests (the_set w)
                 ++ [floating_evidence class_structure evidence_id model_id
                       (uuid (uuid_calls w));
                     ev_ind_ann_req; tie_req]
               /\ (what_is_eq target_identifier "string" = true ->
                   _entity tie_req = "individual"
                   /\ _operation tie_req = "add-annotation"
                   /\ tie_req
                      = snd (add_annotation (JStr "evidence")
                               (Some (JStr (uuid (uuid_calls w))))
                               (snd (individual target_identifier
                                       (model_if_given model_id
                                          (new_request
                                             (uuid (S (S (uuid_calls w))))
                                             "individual"
                                             "add-annotation"))))))
       end.
Proof.
  intros Hev Hsrc. unfold add_evidence.
  rewrite Hev, Hsrc. cbn [andb]. enter_bind. run_floating_evidence.
  destruct (what_is_eq source_ids "string" || what_is_eq source_ids "array")
    eqn:Hkind; cycle 1.
  { erewrite bind_on_request_throw by by apply add_annotation_unknown.
    by eexists _, _. }
  erewrite bind_on_request; cycle 1.
  { apply add_annotation_fresh; [done|].
    by rewrite individual_frame, model_if_given_frame by done. }
  rewrite bind_add.
  destruct (to_bool target_identifier) eqn:Htarget; cbn [negb]; cycle 1.
  { by eexists _, _. }
  destruct (what_is_eq target_identifier "string") eqn:Hstring.
  - rewrite bind_fresh. cbv zeta. cbn [uuid_calls].
    erewrite bind_on_request; cycle 1.
    { apply add_annotation_fresh; [done|].
      by rewrite individual_frame, model_if_given_frame by done. }
    rewrite bind_add. eexists _, _.
    split; [reflexivity|]. split; [reflexivity|]. eexists _, _.
    cbn [the_set pushed _requests snd].
    split; [by rewrite <- !app_assoc|]. intros _.
    pose proof (identified_request_kind target_identifier model_id
                  (uuid (S (S (uuid_calls w)))) "individual" "add-annotation")
      as [Hentity Hoperation].
    unfold with_arguments at 1 2. cbn [_entity _operation].
    rewrite add_annotation_fresh;
      [|done|by rewrite individual_frame, model_if_given_frame by done].
    by rewrite Hentity, Hoperation.
  - rewrite bind_lift_outcome.
    destruct (_ensure_fact target_identifier) as [[]|e]; cycle 1.
    { by eexists _, _. }
    rewrite bind_fresh. cbv zeta.
    erewrite bind_on_request; cycle 1.
    { apply add_annotation_fresh; [done|].
      by rewrite fact_frame, model_if_given_frame by done. }
    rewrite bind_add. eexists _, _.
    split; [reflexivity|]. split; [reflexivity|]. eexists _, _.
    cbn [the_set pushed _requests snd].
    split; [by rewrite <- !app_assoc | done].
Qed.

(** C3, as the code has it: a successful add_evidence call with an
    evidence id and source ids appends exactly three requests, whether the
    target is an individual id or a fact triple.  So add_individual followed
    by add_evidence_to_last_individual appends 1 + 3 = 4 requests, and the
    individual id of the last one, the evidence annotation, is the id
    add_individual returned. *)
Theorem add_evidence_appends_three :
  (forall (evidence_id source_ids target_identifier model_id : arg)
          (w : world),
     to_bool evidence_id = true ->
     to_bool source_ids = true ->
     returned (fst (add_evidence class_structure uuid evidence_id source_ids
                      target_identifier model_id w)) = true ->
     length (_requests (the_set (snd (add_evidence class_structure uuid
                evidence_id source_ids target_identifier model_id w))))
     = length (_requests (the_set w)) + 3)
  /\ (forall (class_expr evidence_id source_ids model_id model_id' : arg)
             (w : world),
        (forall n, uuid n <> "") ->
        to_bool class_expr = true ->
        to_bool evidence_id = true ->
        to_bool source_ids = true ->
        (what_is_eq source_ids "string" || what_is_eq source_ids "array")
        = true ->
        exists id w1 w2 r1 r2 r3 r4,
          add_individual class_structure uuid class_expr model_id w
          = (Ret id, w1)
          /\ add_evidence_to_last_individual class_structure uuid
               evidence_id source_ids model_id' w1 = (Ret (the_set w2), w2)
          /\ _requests (the_set w2) = _requests (the_set w) ++ [r1; r2; r3; r4]
          /\ _entity r4 = "individual"
          /\ _operation r4 = "add-annotation"
          /\ fst (individual None r4) = id
          /\ prop_get "individual" (_arguments r4) = Some id).
Proof.
  split.
  - intros evidence_id source_ids target_identifier model_id w Hev Hsrc.
    destruct (add_evidence_cases evidence_id source_ids target_identifier
                model_id w Hev Hsrc) as (o & w' & -> & Hcases).
    destruct o as [anchor|e]; [|done].
    destruct Hcases as (_ & r2 & r3 & Hreqs & _).
    intros _. cbn [snd]. rewrite Hreqs, length_app. cbn. lia.
  - intros class_expr evidence_id source_ids model_id model_id' w
      Huuid Hclass Hev Hsrc Hkind.
    unfold add_individual. rewrite Hclass.
    rewrite bind_fresh. cbv zeta.
    erewrite bind_on_request by apply floating_evidence_added.
    rewrite bind_add. unfold mret at 1, M_ret at 1.
    rewrite floating_evidence_id.
    set (r1 := floating_evidence class_structure class_expr model_id
                 (uuid (uuid_calls w))).
    set (w1 := {| uuid_calls := S (uuid_calls w);
                  the_set := pushed r1 (Some "action") (the_set w) |}).
    assert (last_individual_id None (the_set w1) = JStr (uuid (uuid_calls w)))
      as Hlast.
    { subst w1 r1. unfold last_individual_id.
      rewrite (last_individual_loop_spec _ _ 0) by done.
      rewrite firstn_all. cbn [the_set pushed _requests].
      rewrite rev_unit. cbn [List.filter]. unfold is_kind, entity.
      rewrite (proj1 (floating_evidence_kind _ _ _)).
      change (String.eqb "individual" "individual") with true.
      cbn [lookup list_lookup]. apply floating_evidence_id. }
    assert (truthy (JStr (uuid (uuid_calls w))) = true) as Htruthy.
    { cbn. by destruct (String.eqb_spec (uuid (uuid_calls w)) "");
        [destruct (Huuid (uuid_calls w))|]. }
    assert (returned (fst (add_evidence class_structure uuid evidence_id
                             source_ids (Some (JStr (uuid (uuid_calls w))))
                             model_id' w1)) = true) as Hreturned.
    { unfold add_evidence. rewrite Hev, Hsrc.
      cbn [andb]. enter_bind. run_floating_evidence.
      erewrite bind_on_request; cycle 1.
      { apply add_annotation_fresh; [done|].
        by rewrite individual_frame, model_if_given_frame by done. }
      rewrite bind_add. unfold to_bool. rewrite given_truthy by done.
      cbn [negb]. change (what_is_eq (Some (JStr ?s)) "string") with true.
      cbv iota. rewrite bind_fresh. cbv zeta.
      erewrite bind_on_request; cycle 1.
      { apply add_annotation_fresh; [done|].
        by rewrite individual_frame, model_if_given_frame by done. }
      by rewrite bind_add. }
    destruct (add_evidence_cases evidence_id source_ids
                (Some (JStr (uuid (uuid_calls w)))) model_id' w1 Hev Hsrc)
      as (o & w2 & Hrun & Hcases).
    rewrite Hrun in Hreturned. destruct o as [anchor|e]; [|done].
    destruct Hcases as (-> & r3 & r4 & Hreqs & Htie).
    destruct (Htie eq_refl) as (Hentity & Hoperation & Hr4).
    eexists (JStr (uuid (uuid_calls w))), w1, w2, r1, _, r3, r4.
    split; [reflexivity|]. split; [|split; [|repeat split]].
    + unfold add_evidence_to_last_individual. enter_bind.
      cbn [get_anchor]. rewrite Hlast, Htruthy.
      enter_bind. enter_bind. by rewrite Hrun.
    + rewrite Hreqs. cbn [the_set w1 pushed _requests].
      by rewrite <- app_assoc.
    + exact Hentity.
    + exact Hoperation.
    + rewrite Hr4, individual_get.
      rewrite add_annotation_fresh;
        [|done|by rewrite individual_frame, model_if_given_frame by done].
      unfold with_arguments. cbn [_individual_id snd].
      by rewrite individual_set.
    + rewrite Hr4, add_annotation_frame by done.
      rewrite individual_set by done. cbn. apply prop_get_set_eq.
Qed.

End Evidence.

Lemma type_macros_ignore_missing_witness :
  add_type_to_individual sample_structure sample_uuid
    (str "GO:0008150") None None sample_world
  = (Ret (the_set sample_world), sample_world).
Proof.
  apply (type_macros_ignore_missing sample_structure sample_uuid
           (str "GO:0008150") None None sample_world).
  right. reflexivity.
Defined.

Lemma add_evidence_without_target_witness :
  exists ev_ind_req ev_ind_ann_req w',
    add_evidence sample_structure sample_uuid
      (str "ECO:0000000") (str "PMID:123") None None sample_world
    = (Throw (Error "no target identified for evidence add"), w')
    /\ _requests (the_set w')
       = _requests (the_set sample_world) ++ [ev_ind_req; ev_ind_ann_req]
    /\ length (_requests (the_set w'))
       = length (_requests (the_set sample_world)) + 2
    /\ _intention (the_set w') = "action"
    /\ (_entity ev_ind_req, _operation ev_ind_req) = ("individual", "add")
    /\ (_entity ev_ind_ann_req, _operation ev_ind_ann_req)
       = ("individual", "add-annotation").
Proof.
  apply (add_evidence_without_target sample_structure sample_uuid
           (str "ECO:0000000") (str "PMID:123") None None sample_world);
    reflexivity.
Defined.

Lemma add_evidence_appends_three_witness :
  length (_requests (the_set (snd (add_evidence sample_structure sample_uuid
            (str "ECO:0000000") (str "PMID:123") (str "gomodel:01/ind1") None
            sample_world))))
  = length (_requests (the_set sample_world)) + 3
  /\ exists id w1 w2 r1 r2 r3 r4,
       add_individual sample_structure sample_uuid (str "GO:0008150") None
         sample_world = (Ret id, w1)
       /\ add_evidence_to_last_individual sample_structure sample_uuid
            (str "ECO:0000000") (str "PMID:123") None w1
          = (Ret (the_set w2), w2)
       /\ _requests (the_set w2)
          = _requests (the_set sample_world) ++ [r1; r2; r3; r4]
       /\ _entity r4 = "individual"
       /\ _operation r4 = "add-annotation"
       /\ fst (individual None r4) = id
       /\ prop_get "individual" (_arguments r4) = Some id.
Proof.
  split.
  - apply (proj1 (add_evidence_appends_three sample_structure sample_uuid));
      reflexivity.
  - apply (proj2 (add_evidence_appends_three sample_structure sample_uuid)
             (str "GO:0008150") (str "ECO:0000000") (str "PMID:123") None None
             sample_world);
      [intros n; discriminate | reflexivity ..].
Defined.

(** C3, counterexample: add_evidence with an individual id as its target
    appends three requests, not two, and add_individual followed by
    add_evidence_to_last_individual leaves four requests in the batch, not
    three. *)
Lemma add_evidence_to_individual_not_two :
  let w1 :=
    snd (add_evidence sample_structure sample_uuid
           (str "ECO:0000000") (str "PMID:123") (str "gomodel:01/ind1") None
           sample_world) in
  let w2 :=
    snd (add_evidence_to_last_individual sample_structure sample_uuid
           (str "ECO:0000000") (str "PMID:123") None
           (snd (add_individual sample_structure sample_uuid
                   (str "GO:0008150") None sample_world))) in
  length (_requests (the_set sample_world)) = 0
  /\ length (_requests (the_set w1)) = 3
  /\ length (_requests (the_set w1))
     <> length (_requests (the_set sample_world)) + 2
  /\ length (_requests (the_set w2)) = 4
  /\ length (_requests (the_set w2)) <> 3.
Proof. vm_compute. repeat split; discriminate. Qed.

(** ** The transport encoding can be undone *)


Lemma decode_encode_unit (c : ascii) (rest : string) :
  decodeURIComponent (uri_encode_unit c rest)
  = match decodeURIComponent rest with
    | Some t => Some (String c t)
    | None => None
    end.
Proof.
  destruct c as [[|] [|] [|] [|] [|] [|] [|] [|]]; reflexivity.
Qed.

Lemma decode_encode (s : string) :
  decodeURIComponent (encodeURIComponent s) = Some s.
Proof.
  induction s as [|c s IH]; [reflexivity|].
  cbn [encodeURIComponent]. rewrite decode_encode_unit, IH. reflexivity.
Qed.

Lemma parse_escape (c : ascii) (t : string) :
  parse_chars (json_escape c +:+ t)
  = match parse_chars t with
    | Some (u, r) => Some (String c u, r)
    | None => None
    end.
Proof.
  destruct c as [[|] [|] [|] [|] [|] [|] [|] [|]]; reflexivity.
Qed.

Lemma parse_print_chars (s rest : string) :
  parse_chars (print_chars s (String dquote rest)) = Some (s, rest).
Proof.
  induction s as [|c s IH]; [reflexivity|].
  cbn [print_chars]. rewrite parse_escape, IH. reflexivity.
Qed.

Lemma print_starts_value (v : jsval) (rest : string) :
  starts_value (print v rest) = true.
Proof.
  destruct v as [|[|]|s|[|x l]|[|kx o]]; reflexivity.
Qed.

Lemma starts_value_inv (s : string) :
  starts_value s = true ->
  exists c s', s = String c s' /\ is_ws c = false
               /\ Ascii.eqb c "]" = false /\ Ascii.eqb c "}" = false.
Proof.
  destruct s as [|c s]; [discriminate|].
  unfold starts_value. intros Hc. exists c, s.
  repeat (apply orb_prop in Hc; destruct Hc as [Hc|Hc]);
    apply Ascii.eqb_eq in Hc; subst c; repeat split; reflexivity.
Qed.

#[local] Arguments print : simpl never.
#[local] Arguments print_chars : simpl never.
#[local] Arguments parse_chars : simpl never.
#[local] Arguments parse_items : simpl never.
#[local] Arguments parse_members : simpl never.
#[local] Arguments parse_value : simpl never.

(** Decide the tests on a character that is known. *)
Ltac known_chars_step :=
  repeat match goal with
    | |- context [is_ws ?c] =>
        let r := eval vm_compute in (is_ws c) in
        match r with
        | true => idtac
        | false => idtac
        end;
        change (is_ws c) with r
    | |- context [Ascii.eqb ?c ?d] =>
        let r := eval vm_compute in (Ascii.eqb c d) in
        match r with
        | true => idtac
        | false => idtac
        end;
        change (Ascii.eqb c d) with r
    end;
  cbv iota.

Ltac known_chars := repeat (progress (cbn [skip_ws]; known_chars_step)).

Lemma parse_items_step (pv : string -> option (jsval * string)) (fuel : nat)
      (x : jsval) (s s1 : string) :
  pv s = Some (x, s1) ->
  parse_items pv (S fuel) s
  = match skip_ws s1 with
    | String c s2 =>
        if Ascii.eqb c "," then
          match parse_items pv fuel s2 with
          | Some (l, s3) => Some (x :: l, s3)
          | None => None
          end
        else if Ascii.eqb c "]" then Some ([x], s2)
        else None
    | EmptyString => None
    end.
Proof. intros H. unfold parse_items at 1. rewrite H. reflexivity. Qed.

Lemma parse_print_items (pv : string -> option (jsval * string))
      (l : list jsval) :
  forall (x : jsval) (fuel : nat) (rest : string),
    Forall (fun y => forall r, pv (print y r) = Some (y, r)) (x :: l) ->
    length (x :: l) <= fuel ->
    parse_items pv fuel (print x (print_more print "]" rest l))
    = Some (x :: l, rest).
Proof.
  induction l as [|y l IH]; intros x fuel rest Hall Hlen;
    (destruct fuel as [|fuel]; [cbn in Hlen; lia|]);
    inversion Hall as [|? ? Hx Hl]; subst;
    rewrite (parse_items_step _ _ _ _ _ (Hx _)).
  - reflexivity.
  - cbn [print_more skip_ws]. known_chars.
    rewrite (IH y fuel rest Hl); [reflexivity|]. cbn in *. lia.
Qed.

Lemma parse_members_step (pv : string -> option (jsval * string)) (fuel : nat)
      (k : string) (x : jsval) (s s3 : string) :
  pv s = Some (x, s3) ->
  parse_members pv (S fuel) (print_string k (String ":" s))
  = match skip_ws s3 with
    | String d s4 =>
        if Ascii.eqb d "," then
          match parse_members pv fuel s4 with
          | Some (o, s5) => Some ((k, x) :: o, s5)
          | None => None
          end
        else if Ascii.eqb d "}" then Some ([(k, x)], s4)
        else None
    | EmptyString => None
    end.
Proof.
  intros H. unfold parse_members at 1. unfold print_string.
  fold parse_members. cbn [skip_ws]. known_chars. unfold parse_string.
  rewrite parse_print_chars. cbn [skip_ws]. known_chars. rewrite H.
  reflexivity.
Qed.

Lemma parse_print_members (pv : string -> option (jsval * string))
      (o : list (string * jsval)) :
  forall (kx : string * jsval) (fuel : nat) (rest : string),
    Forall (fun kv => forall r, pv (print (snd kv) r) = Some (snd kv, r))
      (kx :: o) ->
    length (kx :: o) <= fuel ->
    parse_members pv fuel
      (print_member kx (print_more print_member "}" rest o))
    = Some (kx :: o, rest).
Proof.
  induction o as [|ky o IH]; intros [k x] fuel rest Hall Hlen;
    (destruct fuel as [|fuel]; [cbn in Hlen; lia|]);
    inversion Hall as [|? ? Hx Hl]; subst; cbn [snd] in Hx;
    unfold print_member at 1; cbn [fst snd];
    rewrite (parse_members_step _ _ _ _ _ _ (Hx _)).
  - reflexivity.
  - cbn [print_more skip_ws]. known_chars.
    rewrite (IH ky fuel rest Hl); [reflexivity|]. cbn in *. lia.
Qed.

Lemma distinct_NoDup (ks : list string) : distinct ks = true <-> NoDup ks.
Proof.
  induction ks as [|k ks IH]; cbn.
  - split; [constructor | reflexivity].
  - rewrite andb_true_iff, negb_true_iff, NoDup_cons, IH.
    assert (existsb (String.eqb k) ks = false <-> k ∉ ks) as ->; [|tauto].
    rewrite <- not_true_iff_false, existsb_exists.
    split.
    + intros H Hin. apply H. exists k. split.
      * by apply list_elem_of_In.
      * apply String.eqb_refl.
    + intros H (k' & Hin & Heq). apply String.eqb_eq in Heq. subst k'.
      by apply H, list_elem_of_In.
Qed.

Lemma prop_set_fresh {A : Type} (k : string) (v : A) (o : list (string * A)) :
  k ∉ map fst o -> prop_set k v o = o ++ [(k, v)].
Proof.
  induction o as [|[k' v'] o IH]; cbn; [reflexivity|].
  intros Hk. apply not_elem_of_cons in Hk as [Hne Hk].
  destruct (String.eqb_spec k' k) as [->|_]; [done|].
  by rewrite IH.
Qed.

Lemma props_of_members_distinct (o : list (string * jsval)) :
  distinct (map fst o) = true -> props_of_members o = o.
Proof.
  intros Hd. apply distinct_NoDup in Hd. unfold props_of_members.
  enough (forall acc, NoDup (map fst (acc ++ o)) ->
            fold_left (fun o kv => prop_set (fst kv) (snd kv) o) o acc
            = acc ++ o) as H by exact (H [] Hd).
  clear Hd. induction o as [|[k v] o IH]; intros acc Hnd; cbn.
  - by rewrite app_nil_r.
  - rewrite prop_set_fresh.
    + rewrite IH; rewrite <- app_assoc; [reflexivity | exact Hnd].
    + rewrite map_app in Hnd. apply NoDup_app in Hnd as (_ & Hdisj & _).
      intros Hin. apply (Hdisj k Hin). cbn. left.
Qed.

Lemma jsize_pos (v : jsval) : 1 <= jsize v.
Proof. destruct v; cbn; lia. Qed.

Lemma length_le_list_sum {A : Type} (f : A -> nat) (l : list A) :
  (forall x, 1 <= f x) -> length l <= list_sum (map f l).
Proof.
  intros Hf. induction l as [|x l IH]; [cbn; lia|].
  change (S (length l) <= f x + list_sum (map f l)). specialize (Hf x). lia.
Qed.

Lemma elem_le_list_sum {A : Type} (f : A -> nat) (l : list A) (x : A) :
  x ∈ l -> f x <= list_sum (map f l).
Proof.
  induction 1 as [x l|x y l _ IH].
  - change (f x <= f x + list_sum (map f l)). lia.
  - change (f x <= f y + list_sum (map f l)). lia.
Qed.

Lemma parse_value_print (v : jsval) :
  well_formed v = true ->
  forall (fuel : nat) (rest : string),
    jsize v <= fuel -> parse_value fuel (print v rest) = Some (v, rest).
Proof.
  induction v as [|b|s|l IH|o IH] using jsval_ind; intros Hwf fuel rest Hfuel;
    (destruct fuel as [|fuel]; [cbn in Hfuel; lia|]).
  - reflexivity.
  - destruct b; reflexivity.
  - unfold print, print_string, parse_value. known_chars.
    rewrite parse_print_chars. reflexivity.
  - destruct l as [|x l]; [reflexivity|].
    cbn [well_formed] in Hwf. cbn [jsize] in Hfuel.
    change (print (JArr (x :: l)) rest)
      with (String "[" (print x (print_more print "]" rest l))).
    unfold parse_value; fold parse_value. known_chars.
    destruct (starts_value_inv _ (print_starts_value x
                (print_more print "]" rest l))) as (c & s' & Hs & Hws & Hc & _).
    rewrite Hs. cbn [skip_ws]. rewrite Hws, Hc, <- Hs. clear c s' Hs Hws Hc.
    rewrite parse_print_items; [reflexivity| |].
    + apply Forall_forall. intros y Hy r.
      rewrite Forall_forall in IH. apply IH; [exact Hy| |].
      * rewrite forallb_forall in Hwf. apply Hwf. by apply list_elem_of_In.
      * pose proof (elem_le_list_sum jsize _ _ Hy). lia.
    + pose proof (length_le_list_sum jsize (x :: l) jsize_pos). lia.
  - destruct o as [|kx o]; [reflexivity|].
    cbn [well_formed] in Hwf. apply andb_true_iff in Hwf as [Hd Hwf].
    cbn [jsize] in Hfuel.
    change (print (JObj (kx :: o)) rest)
      with (String "{" (print_member kx (print_more print_member "}" rest o))).
    unfold parse_value; fold parse_value. known_chars.
    assert (starts_value
              (print_member kx (print_more print_member "}" rest o)) = true)
      as Hstart by reflexivity.
    destruct (starts_value_inv _ Hstart) as (c & s' & Hs & Hws & _ & Hc).
    rewrite Hs. cbn [skip_ws]. rewrite Hws, Hc, <- Hs.
    clear c s' Hs Hws Hc Hstart.
    rewrite parse_print_members.
    + by rewrite props_of_members_distinct.
    + apply Forall_forall. intros kv Hkv r.
      rewrite Forall_forall in IH. apply IH; [exact Hkv| |].
      * rewrite forallb_forall in Hwf. apply Hwf. by apply list_elem_of_In.
      * pose proof (elem_le_list_sum (fun kv => jsize (snd kv)) _ _ Hkv).
        cbn beta in *. lia.
    + pose proof (length_le_list_sum (fun kv => jsize (snd kv)) (kx :: o)
                    (fun kv => jsize_pos (snd kv))). lia.
Qed.

Lemma length_append (a b : string) :
  String.length (a +:+ b) = String.length a + String.length b.
Proof.
  induction a as [|c a IH]; [reflexivity|].
  change (S (String.length (a +:+ b))
          = S (String.length a + String.length b)).
  by rewrite IH.
Qed.

Lemma print_chars_length (s rest : string) :
  String.length rest <= String.length (print_chars s rest).
Proof.
  induction s as [|c s IH]; [reflexivity|].
  change (String.length rest
          <= String.length (json_escape c +:+ print_chars s rest)).
  rewrite length_append. lia.
Qed.

Lemma print_more_length {A : Type} (pr : A -> string -> string)
      (size : A -> nat) (close : ascii) (rest : string) (l : list A) :
  Forall (fun x => forall r, size x + String.length r
                             <= String.length (pr x r)) l ->
  list_sum (map size l) + String.length rest
  <= String.length (print_more pr close rest l).
Proof.
  induction 1 as [|x l Hx _ IH]; [cbn; lia|].
  change (size x + list_sum (map size l) + String.length rest
          <= S (String.length (pr x (print_more pr close rest l)))).
  specialize (Hx (print_more pr close rest l)). lia.
Qed.

Lemma print_length (v : jsval) :
  forall rest, jsize v + String.length rest <= String.length (print v rest).
Proof.
  induction v as [|b|s|l IH|o IH] using jsval_ind; intros rest.
  - unfold print. rewrite length_append. simpl. lia.
  - destruct b; unfold print; rewrite length_append; simpl; lia.
  - unfold print, print_string. cbn [String.length jsize].
    pose proof (print_chars_length s (String dquote rest)) as H.
    cbn [String.length] in H. lia.
  - destruct l as [|x l]; [unfold print; rewrite length_append; simpl; lia|].
    change (print (JArr (x :: l)) rest)
      with (String "[" (print x (print_more print "]" rest l))).
    inversion IH as [|? ? Hx Hl]; subst.
    pose proof (print_more_length print jsize "]" rest l Hl).
    specialize (Hx (print_more print "]" rest l)).
    change (jsize (JArr (x :: l))) with (S (jsize x + list_sum (map jsize l))).
    cbn [String.length]. lia.
  - destruct o as [|[k x] o];
      [unfold print; rewrite length_append; simpl; lia|].
    change (print (JObj ((k, x) :: o)) rest)
      with (String "{" (print_string k (String ":"
              (print x (print_more print_member "}" rest o))))).
    inversion IH as [|? ? Hx Hl]; subst. cbn [snd] in Hx.
    assert (list_sum (map (fun kv => jsize (snd kv)) o) + String.length rest
            <= String.length (print_more print_member "}" rest o)) as Hmore.
    { apply print_more_length. eapply Forall_impl; [exact Hl|].
      intros [k' y] Hy r. cbn [snd] in *. unfold print_member, print_string.
      cbn [fst snd String.length].
      pose proof (print_chars_length k'
                    (String dquote (String ":" (print y r)))).
      specialize (Hy r). cbn [String.length] in *. lia. }
    specialize (Hx (print_more print_member "}" rest o)).
    change (jsize (JObj ((k, x) :: o)))
      with (S (jsize x + list_sum (map (fun kv => jsize (snd kv)) o))).
    unfold print_string. cbn [String.length].
    pose proof (print_chars_length k (String dquote (String ":"
                  (print x (print_more print_member "}" rest o))))) as Hk.
    cbn [String.length] in Hk. lia.
Qed.

Lemma JSON_parse_stringify (v : jsval) :
  well_formed v = true -> JSON_parse (JSON_stringify v) = Some v.
Proof.
  intros Hwf. unfold JSON_parse, JSON_stringify.
  rewrite (parse_value_print v Hwf); [reflexivity|].
  pose proof (print_length v ""). lia.
Qed.

Lemma decode_callable_text (v : jsval) :
  well_formed v = true ->
  decodeURIComponent (encodeURIComponent (JSON_stringify v)) ≫= JSON_parse
  = Some v.
Proof.
  intros Hwf. rewrite decode_encode. cbn. by apply JSON_parse_stringify.
Qed.

(** ** callable *)

Lemma distinct_prop_set {A : Type} (k : string) (v : A)
      (o : list (string * A)) :
  distinct (map fst o) = true -> distinct (map fst (prop_set k v o)) = true.
Proof.
  rewrite !distinct_NoDup. induction o as [|[k0 v0] o IH]; cbn.
  - intros _. apply NoDup_singleton.
  - rewrite NoDup_cons. intros [Hk0 Hnd].
    destruct (String.eqb_spec k0 k) as [->|Hne]; cbn.
    + by apply NoDup_cons.
    + apply NoDup_cons. split; [|by apply IH].
      rewrite prop_set_keys. intros [->|Hin]; done.
Qed.

Lemma well_formed_prop_set (k : string) (v : jsval)
      (o : list (string * jsval)) :
  well_formed (JObj o) = true -> well_formed v = true ->
  well_formed (JObj (prop_set k v o)) = true.
Proof.
  cbn [well_formed]. rewrite !andb_true_iff. intros [Hd Hall] Hv. split.
  - by apply distinct_prop_set.
  - clear Hd. induction o as [|[k0 v0] o IH]; cbn in *.
    + by rewrite Hv.
    + apply andb_true_iff in Hall as [Hv0 Hall].
      destruct (String.eqb k0 k); cbn; rewrite ?Hv, ?Hv0; cbn; auto.
Qed.

Lemma well_formed_structure_request (anchor : request_set) (req : request) :
  well_formed (_model_id anchor) = true ->
  wf_request req = true ->
  well_formed (objectified_value (fst (structure_request anchor req))) = true.
Proof.
  intros Hdefault Hreq. apply andb_true_iff in Hreq as [Hargs Hvar].
  assert (well_formed (JObj (base_arguments
                               (fst (structure_request anchor req)))) = true)
    as Hbase.
  { unfold structure_request, objectify, model, _get_set.
    cbn [given fst snd].
    destruct (negb (truthy (_get "model-id" req)) && truthy (_model_id anchor))
      eqn:Hfill.
    - apply andb_true_iff in Hfill as [_ Htruthy]. rewrite Htruthy.
      cbn [snd _add with_arguments _entity _individual_id _arguments].
      destruct (String.eqb (_entity req) "individual"
                && negb (set_p (_individual_id req)));
        cbn [fst base_arguments with_arguments _arguments value _value given];
        repeat apply well_formed_prop_set; done.
    - destruct (String.eqb (_entity req) "individual"
                && negb (set_p (_individual_id req)));
        cbn [fst base_arguments with_arguments _arguments value _value given];
        repeat apply well_formed_prop_set; done. }
  unfold objectified_value.
  change (well_formed
            (JObj (base_arguments (fst (structure_request anchor req))))
          && true = true).
  by rewrite Hbase.
Qed.

Lemma structure_request_idempotent (anchor : request_set) (req : request) :
  structure_request anchor (snd (structure_request anchor req))
  = structure_request anchor req.
Proof.
  unfold structure_request, model, _get_set. cbn [given fst snd].
  assert (forall r, objectify (snd (objectify r)) = objectify r) as Hobj.
  { intros r. unfold objectify.
    destruct (String.eqb (_entity r) "individual"
              && negb (set_p (_individual_id r))) eqn:Hr; cbn; rewrite Hr;
      [|done].
    unfold with_arguments. cbn. by rewrite prop_set_set. }
  assert (forall r, _get "model-id" (snd (objectify r)) = _get "model-id" r)
    as Hget.
  { intros r. apply model_get. unfold objectify.
    destruct (String.eqb (_entity r) "individual"
              && negb (set_p (_individual_id r))); cbn; [|done].
    by apply prop_get_set_ne. }
  destruct (truthy (_model_id anchor)) eqn:Hdefault; rewrite ?andb_false_r;
    [|apply Hobj].
  rewrite !andb_true_r.
  destruct (truthy (_get "model-id" req)) eqn:Hown; cbn [negb].
  - rewrite Hget, Hown. cbn [negb]. apply Hobj.
  - cbn [snd _add].
    rewrite Hget. unfold _get at 1. cbn [with_arguments _arguments].
    rewrite prop_get_set_eq.
    assert (truthy match _model_id anchor with
                   | JNull => JNull
                   | _ => _model_id anchor
                   end = true) as -> by by destruct (_model_id anchor).
    cbn [negb]. apply Hobj.
Qed.

Lemma structure_request_set (reqs : list request) (anchor : request_set)
      (req : request) :
  structure_request (with_requests reqs anchor) req
  = structure_request anchor req.
Proof. reflexivity. Qed.

(** Serializing again, with nothing done in between, gives the same. *)
Lemma structure_twice (w : world) :
  structure (snd (structure w)) = structure w.
Proof.
  rewrite (structure_spec w). cbn [snd]. rewrite structure_spec.
  cbn [the_set with_requests _requests _user_token _intention _model_id
         uuid_calls].
  assert (map (structure_request
                 (with_requests
                    (map snd (map (structure_request (the_set w))
                                (_requests (the_set w))))
                    (the_set w)))
            (map snd (map (structure_request (the_set w))
                        (_requests (the_set w))))
          = map (structure_request (the_set w)) (_requests (the_set w)))
    as ->; [|reflexivity].
  rewrite !map_map. apply map_ext. intros req.
  by rewrite structure_request_set, structure_request_idempotent.
Qed.

(** C8: on a request set whose values are proper JavaScript objects
    (distinct property names), the requests field of callable,
    percent-decoded and parsed as JSON, is exactly the requests list that
    structure returns for the same set, and the token and the intention of
    the two are the same.  Both leave the set in the same state, on which
    structure returns the same again. *)
Theorem callable_round_trip (w : world) :
  wf_world w = true ->
  exists c r w',
    callable w = (Ret c, w')
    /\ structure w = (Ret r, w')
    /\ decodeURIComponent (callable_requests c) ≫= JSON_parse
       = Some (requests_value (requests r))
    /\ callable_token c = token r
    /\ callable_intention c = intention r
    /\ structure w' = (Ret r, w').
Proof.
  intros Hwf. apply andb_true_iff in Hwf as [Hdefault Hreqs].
  rewrite callable_spec, structure_spec. eexists _, _, _.
  split; [reflexivity|]. split; [reflexivity|].
  cbn [callable_requests callable_token callable_intention token intention
         requests].
  split; [|split; [done|split; [done|]]].
  - apply decode_callable_text. unfold requests_value. cbn [well_formed].
    rewrite !forallb_forall. intros v Hv.
    apply in_map_iff in Hv as (base & <- & Hbase).
    apply in_map_iff in Hbase as ([base' req'] & <- & Hpair).
    apply in_map_iff in Hpair as (req & Hreq & Hin).
    rewrite <- Hreq. apply well_formed_structure_request; [done|].
    rewrite forallb_forall in Hreqs. by apply Hreqs.
  - apply structure_twice.
Qed.

Lemma callable_round_trip_witness :
  let w :=
    run_calls sample_structure sample_uuid
      [AddIndividual (str "GO:0008150") None;
       AddEvidenceToLastIndividual (str "ECO:0000000") (str "PMID:123") None;
       AddFact (Some (JArr [JStr "i1"; JStr "i2"; JStr "part_of"])) None]
      sample_world in
  exists c r w',
    callable w = (Ret c, w')
    /\ structure w = (Ret r, w')
    /\ decodeURIComponent (callable_requests c) ≫= JSON_parse
       = Some (requests_value (requests r))
    /\ callable_token c = token r
    /\ callable_intention c = intention r
    /\ structure w' = (Ret r, w').
Proof. apply callable_round_trip. vm_compute. reflexivity. Defined.

(** ** The sets the library builds are proper objects *)

Lemma well_formed_prop_get (k : string) (v : jsval)
      (o : list (string * jsval)) :
  well_formed (JObj o) = true -> prop_get k o = Some v -> well_formed v = true.
Proof.
  cbn [well_formed]. rewrite andb_true_iff. intros [_ Hall].
  induction o as [|[k0 v0] o IH]; cbn in *; [done|].
  apply andb_true_iff in Hall as [Hv0 Hall].
  destruct (String.eqb k0 k); [by intros [= <-] | by apply IH].
Qed.

Lemma wf_request_set (k : string) (v : jsval) (req : request) :
  well_formed v = true -> wf_request req = true ->
  wf_request (with_arguments (prop_set k v (_arguments req)) req) = true.
Proof.
  unfold wf_request. rewrite !andb_true_iff. intros Hv [Hargs Hvar].
  split; [|done]. by apply well_formed_prop_set.
Qed.

Lemma wf_given (a : arg) (v : jsval) :
  wf_arg a -> given a = Some v -> wf_arg (Some v).
Proof.
  unfold given. destruct a as [v'|]; [|done].
  destruct (truthy v'); [by intros ? [= <-] | done].
Qed.

Lemma wf__get_set (key : string) (variable : arg) (req : request) :
  wf_arg variable -> wf_request req = true ->
  wf_request (snd (_get_set key variable req)) = true.
Proof.
  intros Hvar Hreq. unfold _get_set. cbn [snd].
  destruct (given variable) as [v|] eqn:Hv; [|done].
  apply wf_request_set; [|done]. exact (wf_given _ _ Hvar Hv).
Qed.

Lemma wf_model_if_given (model_id : arg) (req : request) :
  wf_arg model_id -> wf_request req = true ->
  wf_request (model_if_given model_id req) = true.
Proof.
  intros Hm Hreq. unfold model_if_given.
  destruct (to_bool model_id); [|done]. by apply wf__get_set.
Qed.

Lemma wf_individual (ind_id : arg) (req : request) :
  wf_arg ind_id -> wf_request req = true ->
  wf_request (snd (individual ind_id req)) = true.
Proof.
  intros Hid Hreq. unfold individual. cbn [snd].
  destruct (given ind_id) as [v|] eqn:Hv; [|done].
  pose proof (wf_given _ _ Hid Hv) as Hwf. cbn in Hwf.
  unfold value, _value. rewrite (given_truthy v); cycle 1.
  { unfold given in Hv. destruct ind_id as [v'|]; [|done].
    by destruct (truthy v') eqn:Ht; [injection Hv as <-|]. }
  unfold wf_request in *. cbn. apply andb_true_iff in Hreq as [Hargs _].
  rewrite Hwf, andb_true_r. by apply well_formed_prop_set.
Qed.

Lemma wf_fact (sub obj pred : arg) (req : request) :
  wf_arg sub -> wf_arg obj -> wf_arg pred -> wf_request req = true ->
  wf_request (fact sub obj pred req) = true.
Proof.
  intros Hs Ho Hp Hreq. unfold fact, subject, object, predicate.
  by repeat apply wf__get_set.
Qed.

Lemma wf_push_onto (key : string) (item : jsval) (req : request) :
  well_formed item = true -> wf_request req = true ->
  wf_request (snd (push_onto key item req)) = true.
Proof.
  intros Hitem Hreq. unfold push_onto.
  destruct (prop_get key (_arguments req)) as [[| | |l|]|] eqn:Hl; try done.
  cbn [snd]. apply wf_request_set; [|done].
  apply andb_true_iff in Hreq as [Hargs _].
  pose proof (well_formed_prop_get _ _ _ Hargs Hl) as Hwf. cbn in *.
  by rewrite forallb_app, Hwf; cbn; rewrite Hitem.
Qed.

Lemma wf_push_annotations (key : jsval) (vals : list jsval) :
  well_formed key = true -> forallb well_formed vals = true ->
  forall req, wf_request req = true ->
              wf_request (snd (push_annotations key vals req)) = true.
Proof.
  intros Hkey. induction vals as [|val vals IH]; intros Hvals req Hreq;
    [done|].
  cbn in Hvals. apply andb_true_iff in Hvals as [Hval Hvals].
  cbn [push_annotations].
  pose proof (wf_push_onto "values" (annotation_pair key val) req) as Hpush.
  destruct (push_onto "values" (annotation_pair key val) req)
    as [[n|e] req']; cbn [snd] in *.
  - apply IH; [done|]. apply Hpush; [|done]. cbn. by rewrite Hkey, Hval.
  - apply Hpush; [|done]. cbn. by rewrite Hkey, Hval.
Qed.

Lemma wf__ensure_list (key : string) (req : request) :
  wf_request req = true -> wf_request (_ensure_list key req) = true.
Proof.
  intros Hreq. unfold _ensure_list.
  destruct (to_bool (prop_get key (_arguments req))); [done|].
  by apply wf_request_set.
Qed.

Lemma wf_add_annotation (key : jsval) (vals : arg) (req : request) :
  wf_arg (Some key) -> wf_arg vals -> wf_request req = true ->
  wf_request (snd (add_annotation key vals req)) = true.
Proof.
  intros Hkey Hvals Hreq. unfold add_annotation.
  destruct (negb (what_is_eq _ "array")); [done|].
  match goal with
  | |- context [push_annotations key ?l ?r] => set (items := l)
  end.
  assert (forallb well_formed items = true) as Hitems.
  { subst items.
    destruct (what_is_eq vals "string"); destruct vals as [[| | |l|o]|];
      cbn in *; rewrite ?andb_true_r; try done.
    apply andb_true_iff in Hvals as [_ Hall].
    clear -Hall. induction o as [|[k v] o IH]; cbn in *; [done|].
    apply andb_true_iff in Hall as [-> Hall]. by apply IH. }
  pose proof (wf_push_annotations key items Hkey Hitems _
                (wf__ensure_list "values" req Hreq)) as Hpush.
  by destruct (push_annotations key items (_ensure_list "values" req))
    as [[u|e] req'].
Qed.

Lemma wf_index (triple : arg) (i : nat) :
  wf_arg triple -> wf_arg (arg_index triple i).
Proof.
  destruct triple as [[| |s|l|o]|]; cbn; try done.
  - by destruct (String.get i s).
  - intros Hl. destruct (l !! i) as [v|] eqn:Hv; [|done].
    rewrite forallb_forall in Hl. apply Hl.
    apply list_elem_of_In. by eapply list_elem_of_lookup_2.
  - intros Ho. destruct (prop_get (pretty i) o) as [v|] eqn:Hv; [|done].
    by eapply (well_formed_prop_get _ _ o).
Qed.

Lemma wf_prop (hash : arg) (k : string) :
  wf_arg hash -> wf_arg (arg_prop hash k).
Proof.
  destruct hash as [[| | | |o]|]; cbn; try done.
  intros Ho. destruct (prop_get k o) as [v|] eqn:Hv; [|done].
  by eapply (well_formed_prop_get _ _ o).
Qed.

Lemma wf__get (k : string) (req : request) :
  wf_request req = true -> well_formed (_get k req) = true.
Proof.
  intros Hreq. apply andb_true_iff in Hreq as [Hargs _]. unfold _get.
  destruct (prop_get k (_arguments req)) as [v|] eqn:Hv; [|done].
  pose proof (well_formed_prop_get _ _ _ Hargs Hv). by destruct v.
Qed.

Section Last.

Variable reqs : list request.
Hypothesis Hreqs : forallb wf_request reqs = true.

Lemma wf_lookup (i : nat) (req : request) :
  reqs !! i = Some req -> wf_request req = true.
Proof.
  intros Hi. rewrite forallb_forall in Hreqs. apply Hreqs.
  apply list_elem_of_In. by eapply list_elem_of_lookup_2.
Qed.

Lemma wf_last_individual_loop (ugh : nat) (number_to_skip : Z) :
  well_formed (last_individual_loop reqs ugh number_to_skip) = true.
Proof.
  revert number_to_skip. induction ugh as [|ugh IH]; intros n; [done|].
  cbn [last_individual_loop].
  destruct (reqs !! ugh) as [req|] eqn:Hreq; [|done].
  destruct (String.eqb (entity req) "individual"); [|apply IH].
  destruct (n >? 0)%Z; [apply IH|].
  pose proof (wf_lookup _ _ Hreq) as Hwf.
  by apply andb_true_iff in Hwf as [_ Hvar].
Qed.

Lemma wf_last_fact_loop (ugh : nat) (number_to_skip : Z) :
  well_formed (last_fact_loop reqs ugh number_to_skip) = true.
Proof.
  revert number_to_skip. induction ugh as [|ugh IH]; intros n; [done|].
  cbn [last_fact_loop].
  destruct (reqs !! ugh) as [req|] eqn:Hreq; [|done].
  destruct (String.eqb (entity req) "edge"); [|apply IH].
  destruct (n >? 0)%Z; [apply IH|].
  pose proof (wf_lookup _ _ Hreq) as Hwf.
  unfold subject, object, predicate, _get_set. cbn.
  by rewrite !wf__get.
Qed.

End Last.

Lemma wf_pushed (req : request) (intention : option string)
      (anchor : request_set) :
  wf_request req = true -> wf_set anchor = true ->
  wf_set (pushed req intention anchor) = true.
Proof.
  unfold wf_set, pushed. cbn. rewrite !andb_true_iff, forallb_app.
  intros Hreq [Hm Hreqs]. cbn. by rewrite Hm, Hreqs, Hreq.
Qed.

Lemma wf_structure_request (anchor : request_set) (req : request) :
  well_formed (_model_id anchor) = true -> wf_request req = true ->
  wf_request (snd (structure_request anchor req)) = true.
Proof.
  intros Hm Hreq.
  assert (forall r, wf_request r = true ->
                    wf_request (snd (objectify r)) = true) as Hobj.
  { intros r Hr. unfold objectify.
    destruct (String.eqb (_entity r) "individual"
              && negb (set_p (_individual_id r))); cbn [snd]; [|done].
    apply wf_request_set; [|done]. by apply andb_true_iff in Hr as [_ ?]. }
  unfold structure_request.
  destruct (negb (truthy (fst (model None req))) && truthy (_model_id anchor));
    apply Hobj; [|done].
  by apply wf__get_set.
Qed.

Section WellFormed.

Variable class_structure : arg -> jsval.
Variable uuid : nat -> string.

Hypothesis class_structure_wf :
  forall a, wf_arg a -> well_formed (class_structure a) = true.

Lemma wf_add_class_expression (class_expr : arg) (req : request) :
  wf_arg class_expr -> wf_request req = true ->
  wf_request (snd (add_class_expression class_structure class_expr req)) = true.
Proof.
  intros Hce Hreq. unfold add_class_expression.
  match goal with
  | |- context [push_onto ?key ?item ?r] =>
      pose proof (wf_push_onto key item r) as Hpush;
      destruct (push_onto key item r) as [[n|e] req']
  end; cbn [snd] in *;
    apply Hpush; auto using wf__ensure_list.
Qed.

Lemma do_call_wf (c : call) (w : world) :
  call_wf c -> wf_world w = true ->
  wf_world (snd (do_call class_structure uuid c w)) = true.
Proof.
  intros Hfit Hw. destruct (serializes c) eqn:Hc.
  - assert (wf_world (snd (structure w)) = true) as Hs.
    { rewrite structure_spec. unfold wf_world, wf_set in *. cbn.
      apply andb_true_iff in Hw as [Hm Hreqs]. rewrite Hm. cbn.
      rewrite forallb_forall in *. intros req Hin.
      apply in_map_iff in Hin as ([base req'] & <- & Hin).
      apply in_map_iff in Hin as (req0 & Hreq0 & Hin).
      rewrite <- Hreq0. apply wf_structure_request; auto. }
    by destruct c.
  - refine (proj1 (sat_do_call class_structure uuid
              (fun anchor => wf_set anchor = true) (fun _ _ => True)
              (fun req => wf_request req = true) wf_arg wf_arg
              _ _ _ _ _ _ _ _ _ _ _ _ _ _ _ _ _ _ _ c Hc Hfit w Hw));
      try done.
    + intros. by apply wf_pushed.
    + apply wf_model_if_given.
    + apply wf_individual.
    + apply wf_fact.
    + apply wf_add_annotation.
    + apply wf_add_class_expression.
    + intros name val req _. apply wf__get_set.
    + apply wf_given.
    + apply wf_index.
    + apply wf_prop.
    + intros req Hreq. by apply andb_true_iff in Hreq as [_ ?].
    + intros anchor Hanchor. apply andb_true_iff in Hanchor as [_ Hreqs].
      split; [by apply wf_last_individual_loop | by apply wf_last_fact_loop].
Qed.

(** A request set made by the constructor and built up by calls whose
    arguments are proper values is a proper value itself. *)
Lemma built_sets_well_formed (user_token model_id : arg) (n : nat)
      (calls : list call) :
  wf_arg model_id ->
  Forall call_wf calls ->
  wf_world (run_calls class_structure uuid calls
              {| uuid_calls := n;
                 the_set := new_request_set user_token model_id |}) = true.
Proof.
  intros Hm Hcalls.
  assert (wf_world {| uuid_calls := n;
                      the_set := new_request_set user_token model_id |} = true)
    as Hw.
  { unfold wf_world, wf_set, new_request_set, or_null. cbn.
    rewrite andb_true_r.
    destruct (given model_id) as [v|] eqn:Hv; [|done].
    exact (wf_given _ _ Hm Hv). }
  revert Hw. generalize {| uuid_calls := n;
                           the_set := new_request_set user_token model_id |}.
  induction Hcalls as [|c calls Hc _ IH]; intros w Hw; [done|].
  cbn [run_calls]. by apply IH, do_call_wf.
Qed.

End WellFormed.

(** * The rest of the library

    ** The getter/setters of a request *)

Lemma _get_set_given (key : string) (v : jsval) (req : request) :
  truthy v = true ->
  _get_set key (Some v) req
  = (v, with_arguments (prop_set key v (_arguments req)) req).
Proof.
  intros Hv. unfold _get_set. rewrite given_truthy by done.
  cbn [_add snd]. unfold _get. cbn [with_arguments _arguments].
  rewrite prop_get_set_eq. by destruct v.
Qed.

Lemma _get_set_omitted (key : string) (variable : arg) (req : request) :
  to_bool variable = false -> _get_set key variable req = (_get key req, req).
Proof. intros Hv. unfold _get_set. by rewrite (to_bool_false_given _ Hv). Qed.

(** X1: special(name, val), and with it subject, object, predicate and
    model, which are special at a fixed name.  For a name that is not one
    every object inherits: a truthy val is stored and returned, and a later
    call without a value returns it; with no val, or a falsy one, the call
    only reads, so a stored value cannot be cleared through it; a name
    never set reads as null; the arguments under other names are left as
    they are. *)
Theorem special_round_trip (name : string) (val : arg) (req : request) :
  inherited name = false ->
  (forall v, val = Some v -> truthy v = true ->
     fst (special name val req) = v
     /\ special name None (snd (special name val req))
        = (v, snd (special name val req)))
  /\ (to_bool val = false ->
        special name val req = (fst (special name None req), req))
  /\ (prop_get name (_arguments req) = None ->
        fst (special name None req) = JNull)
  /\ (forall k, k <> name ->
        prop_get k (_arguments (snd (special name val req)))
        = prop_get k (_arguments req))
  /\ (subject = special "subject" /\ object = special "object"
      /\ predicate = special "predicate" /\ model = special "model-id").
Proof.
  intros _. unfold special. split; [|split; [|split; [|split]]].
  - intros v -> Hv. rewrite _get_set_given by done. cbn [fst snd].
    split; [done|]. unfold _get_set. cbn [given]. unfold _get.
    cbn [with_arguments _arguments]. rewrite prop_get_set_eq.
    by destruct v.
  - intros Hval. by rewrite _get_set_omitted.
  - intros Hnone. cbn. unfold _get. by rewrite Hnone.
  - intros k Hk. by apply _get_set_frame.
  - done.
Qed.

Lemma special_round_trip_witness :
  let req := new_request "uuid-0" "model" "add" in
  let req' := snd (special "taxon-id" (str "NCBITaxon:9606") req) in
  (fst (special "taxon-id" (str "NCBITaxon:9606") req) = JStr "NCBITaxon:9606"
   /\ special "taxon-id" None req' = (JStr "NCBITaxon:9606", req'))
  /\ special "taxon-id" (str "") req'
     = (fst (special "taxon-id" None req'), req')
  /\ fst (special "class-id" None req') = JNull
  /\ prop_get "class-id" (_arguments req')
     = prop_get "class-id" (_arguments req).
Proof.
  intros req req'. split; [|split; [|split]].
  - apply (proj1 (special_round_trip "taxon-id" (str "NCBITaxon:9606") req
                    eq_refl)
             (JStr "NCBITaxon:9606")); reflexivity.
  - apply (proj1 (proj2 (special_round_trip "taxon-id" (str "") req'
                           eq_refl))).
    reflexivity.
  - apply (proj1 (proj2 (proj2 (special_round_trip "class-id" None req'
                                  eq_refl)))).
    reflexivity.
  - apply (proj1 (proj2 (proj2 (proj2
             (special_round_trip "taxon-id" (str "NCBITaxon:9606") req
                eq_refl))))).
    discriminate.
Defined.

Lemma _get_set_read (key k : string) (variable : arg) (req : request) :
  _get k (snd (_get_set key variable req))
  = if String.eqb key k then default (_get k req) (given variable)
    else _get k req.
Proof.
  destruct (String.eqb_spec key k) as [->|Hne].
  - unfold _get_set. destruct (given variable) as [v|] eqn:Hv; [|done].
    cbn. unfold _get. cbn. rewrite prop_get_set_eq.
    destruct variable as [v'|]; [|done]. cbn in Hv.
    destruct (truthy v') eqn:Ht; [|done]. injection Hv as <-. by destruct v'.
  - apply model_get. by apply _get_set_frame.
Qed.

Lemma _get_set_kind (key : string) (variable : arg) (req : request) :
  _entity (snd (_get_set key variable req)) = _entity req
  /\ _operation (snd (_get_set key variable req)) = _operation req
  /\ _individual_id (snd (_get_set key variable req)) = _individual_id req.
Proof. unfold _get_set. by destruct (given variable). Qed.

Lemma fact_kind (sub obj pred : arg) (req : request) :
  _entity (fact sub obj pred req) = _entity req
  /\ _operation (fact sub obj pred req) = _operation req
  /\ _individual_id (fact sub obj pred req) = _individual_id req.
Proof.
  unfold fact, subject, object, predicate.
  repeat split.
  - by rewrite !(proj1 (_get_set_kind _ _ _)).
  - by rewrite !(proj1 (proj2 (_get_set_kind _ _ _))).
  - by rewrite !(proj2 (proj2 (_get_set_kind _ _ _))).
Qed.

Lemma fact_read (sub obj pred : arg) (req : request) :
  fst (subject None (fact sub obj pred req))
  = default (fst (subject None req)) (given sub)
  /\ fst (object None (fact sub obj pred req))
     = default (fst (object None req)) (given obj)
  /\ fst (predicate None (fact sub obj pred req))
     = default (fst (predicate None req)) (given pred).
Proof.
  unfold fact, subject, object, predicate.
  change (fst (_get_set ?k None ?r)) with (_get k r).
  rewrite !_get_set_read. done.
Qed.

(** X2: fact(sub, obj, pred) stores each truthy field, and what subject(),
    object() and predicate() then return is the field given, or, for a
    field that was falsy or omitted, what they returned before.  Nothing
    else of the request changes. *)
Theorem fact_sets_triple (sub obj pred : arg) (req : request) :
  let req' := fact sub obj pred req in
  fst (subject None req') = default (fst (subject None req)) (given sub)
  /\ fst (object None req') = default (fst (object None req)) (given obj)
  /\ fst (predicate None req')
     = default (fst (predicate None req)) (given pred)
  /\ (forall k, k <> "subject" -> k <> "object" -> k <> "predicate" ->
        prop_get k (_arguments req') = prop_get k (_arguments req))
  /\ _entity req' = _entity req
  /\ _operation req' = _operation req
  /\ _individual_id req' = _individual_id req.
Proof.
  intros req'. subst req'.
  destruct (fact_read sub obj pred req) as (Hs & Ho & Hp).
  destruct (fact_kind sub obj pred req) as (He & Hop & Hid).
  repeat split; try done.
  intros k Hs' Ho' Hp'. by apply fact_frame.
Qed.

(** ** Annotations and expressions of a request *)

(** The list a request holds under [key] once [_ensure_list] has run. *)
Lemma _ensure_list_array (key : string) (req : request) (old : list jsval) :
  (to_bool (prop_get key (_arguments req)) = false /\ old = [])
  \/ prop_get key (_arguments req) = Some (JArr old) ->
  prop_get key (_arguments (_ensure_list key req)) = Some (JArr old)
  /\ forall v,
       prop_set key v (_arguments (_ensure_list key req))
       = prop_set key v (_arguments req).
Proof.
  unfold _ensure_list. intros [[Hnone ->] | Hold].
  - rewrite Hnone. cbn. rewrite prop_get_set_eq. split; [done|].
    intros v. by rewrite prop_set_set.
  - by rewrite Hold.
Qed.

Lemma _ensure_list_kind (key : string) (req : request) :
  _entity (_ensure_list key req) = _entity req
  /\ _operation (_ensure_list key req) = _operation req
  /\ _individual_id (_ensure_list key req) = _individual_id req.
Proof.
  unfold _ensure_list. by destruct (to_bool (prop_get key (_arguments req))).
Qed.

Lemma add_annotation_array (key : jsval) (vals : arg) (items old : list jsval)
      (req : request) :
  (exists s, vals = Some (JStr s) /\ items = [JStr s])
  \/ vals = Some (JArr items) ->
  (to_bool (annotations req) = false /\ old = [])
  \/ annotations req = Some (JArr old) ->
  add_annotation key vals req
  = (Ret (Some (length old + length items)),
     with_arguments
       (prop_set "values" (JArr (old ++ map (annotation_pair key) items))
          (_arguments req)) req).
Proof.
  intros Hvals Hold.
  destruct (_ensure_list_array "values" req old Hold) as [Hlist Hset].
  pose proof (_ensure_list_kind "values" req) as (He & Ho & Hi).
  assert (add_annotation key vals req
          = match push_annotations key items (_ensure_list "values" req) with
            | (Ret _, anchor) => (Ret (list_length "values" anchor), anchor)
            | (Throw e, anchor) => (Throw e, anchor)
            end) as ->.
  { by destruct Hvals as [(s & -> & ->) | ->]. }
  rewrite (push_annotations_array key items _ old Hlist).
  unfold list_length, with_arguments. cbn [_arguments].
  rewrite prop_get_set_eq, Hset, He, Ho, Hi, length_app, length_map. done.
Qed.

(** X3: add_annotation(key, vals) with a string, or with a list of values,
    on a request whose annotations are not there yet or are a list: it
    appends one key/value pair per value, in order, after the pairs already
    there (a string counts as one value), returns the new number of pairs,
    and leaves the rest of the request as it is; annotations() then returns
    the extended list. *)
Theorem add_annotation_appends (key : jsval) (vals : arg)
        (items old : list jsval) (req : request) :
  (exists s, vals = Some (JStr s) /\ items = [JStr s])
  \/ vals = Some (JArr items) ->
  (to_bool (annotations req) = false /\ old = [])
  \/ annotations req = Some (JArr old) ->
  exists req',
    add_annotation key vals req
    = (Ret (Some (length old + length items)), req')
    /\ annotations req'
       = Some (JArr (old ++ map (annotation_pair key) items))
    /\ (forall k, k <> "values" ->
          prop_get k (_arguments req') = prop_get k (_arguments req))
    /\ _entity req' = _entity req
    /\ _operation req' = _operation req
    /\ _individual_id req' = _individual_id req.
Proof.
  intros Hvals Hold. eexists. split; [by apply add_annotation_array|].
  unfold annotations, with_arguments. cbn [_arguments _entity _operation
                                             _individual_id].
  rewrite prop_get_set_eq. repeat split.
  intros k Hk. by apply prop_get_set_ne.
Qed.

Lemma add_annotation_appends_witness :
  let req := new_request "uuid-0" "individual" "add-annotation" in
  exists req1 req2,
    add_annotation (JStr "source") (str "PMID:1") req = (Ret (Some 1), req1)
    /\ add_annotation (JStr "comment")
         (Some (JArr [JStr "a"; JStr "b"])) req1 = (Ret (Some 3), req2)
    /\ annotations req2
       = Some (JArr [annotation_pair (JStr "source") (JStr "PMID:1");
                     annotation_pair (JStr "comment") (JStr "a");
                     annotation_pair (JStr "comment") (JStr "b")]).
Proof.
  intros req.
  destruct (add_annotation_appends (JStr "source") (str "PMID:1")
              [JStr "PMID:1"] [] req)
    as (req1 & Hrun1 & Hann1 & _);
    [left; by exists "PMID:1" | left; split; reflexivity |].
  destruct (add_annotation_appends (JStr "comment")
              (Some (JArr [JStr "a"; JStr "b"])) [JStr "a"; JStr "b"]
              (map (annotation_pair (JStr "source")) [JStr "PMID:1"]) req1)
    as (req2 & Hrun2 & Hann2 & _);
    [right; reflexivity | right; exact Hann1 |].
  exists req1, req2. split; [exact Hrun1|]. split; [exact Hrun2|exact Hann2].
Defined.

(** X4: add_annotation with anything but a string or a list (no value,
    null, a boolean, a plain object) throws "unknown argument" before it
    touches the request; and when the request holds something truthy that
    is not a list under "values", adding a value is a TypeError. *)
Theorem add_annotation_rejects (key : jsval) (vals : arg) (req : request) :
  (match vals with
   | None | Some JNull | Some (JBool _) => True
   | Some (JObj o) => prop_get "_is_a" o = None
   | Some (JStr _) | Some (JArr _) => False
   end ->
   add_annotation key vals req = (Throw (Error "unknown argument"), req))
  /\ (forall (s : string) (held : jsval),
        vals = Some (JStr s) ->
        annotations req = Some held -> truthy held = true ->
        (forall l, held <> JArr l) ->
        add_annotation key vals req = (Throw TypeError, req)).
Proof.
  split.
  - intros Hvals. apply add_annotation_unknown.
    destruct vals as [[| | | |o]|]; try done.
    unfold what_is_eq, what_is. by rewrite Hvals.
  - intros s held -> Hheld Htruthy Hnot. unfold annotations in Hheld.
    unfold add_annotation, _ensure_list, to_bool, given.
    rewrite Hheld, Htruthy. cbn. unfold push_onto. rewrite Hheld.
    destruct held; try done. by destruct (Hnot items).
Qed.

Lemma add_annotation_rejects_witness :
  let req := new_request "uuid-0" "model" "add-annotation" in
  let req' := snd (special "values" (str "x") req) in
  add_annotation (JStr "title") (Some (JObj [("a", JStr "b")])) req
  = (Throw (Error "unknown argument"), req)
  /\ add_annotation (JStr "title") (str "t") req' = (Throw TypeError, req').
Proof.
  intros req req'. split.
  - apply (proj1 (add_annotation_rejects (JStr "title")
                    (Some (JObj [("a", JStr "b")])) req)).
    reflexivity.
  - apply (proj2 (add_annotation_rejects (JStr "title") (str "t") req')
             "t" (JStr "x")); [reflexivity..|discriminate].
Defined.

Section Expression_lists.

Variable class_structure : arg -> jsval.
Variable svf_structure : arg -> arg -> outcome jsval.
Variable set_structure : arg -> arg -> outcome jsval.

Lemma push_expression_array (expr : outcome jsval) (req : request)
      (old : list jsval) :
  (to_bool (expressions req) = false /\ old = [])
  \/ expressions req = Some (JArr old) ->
  push_expression expr (_ensure_list "expressions" req)
  = match expr with
    | Ret e =>
        (Ret (Some (length old + 1)),
         with_arguments
           (prop_set "expressions" (JArr (old ++ [e])) (_arguments req)) req)
    | Throw err => (Throw err, _ensure_list "expressions" req)
    end.
Proof.
  intros Hold.
  destruct (_ensure_list_array "expressions" req old Hold) as [Hlist Hset].
  pose proof (_ensure_list_kind "expressions" req) as (He & Ho & Hi).
  unfold push_expression. destruct expr as [e|err]; [|done].
  unfold push_onto. rewrite Hlist.
  unfold list_length, with_arguments. cbn [_arguments].
  by rewrite prop_get_set_eq, Hset, He, Ho, Hi, length_app.
Qed.

Lemma add_class_expression_push (class_expr : arg) (req : request) :
  add_class_expression class_structure class_expr req
  = push_expression (Ret (class_structure class_expr))
      (_ensure_list "expressions" req).
Proof. reflexivity. Qed.

(** X5: on a request whose expressions are not there yet or are a list,
    add_class_expression, add_svf_expression and add_set_class_expression
    append the structure of their expression after the ones already there
    and return the new number of expressions; expressions() then returns
    the extended list.  When the expression cannot be built, the error is
    passed on and the expressions are the ones that were there (an empty
    list if there were none). *)
Theorem expressions_append (req : request) (old : list jsval) :
  (to_bool (expressions req) = false /\ old = [])
  \/ expressions req = Some (JArr old) ->
  let added (expr : outcome jsval) (r : outcome (option nat) * request) :=
    (forall k, k <> "expressions" ->
       prop_get k (_arguments (snd r)) = prop_get k (_arguments req))
    /\ match expr with
       | Ret e =>
           fst r = Ret (Some (length old + 1))
           /\ expressions (snd r) = Some (JArr (old ++ [e]))
       | Throw err =>
           fst r = Throw err /\ expressions (snd r) = Some (JArr old)
       end in
  (forall class_expr,
     added (Ret (class_structure class_expr))
       (add_class_expression class_structure class_expr req))
  /\ (forall class_expr property_id,
        added (svf_structure class_expr property_id)
          (add_svf_expression svf_structure class_expr property_id req))
  /\ (forall type class_expr_list,
        added (set_structure type class_expr_list)
          (add_set_class_expression set_structure type class_expr_list req)).
Proof.
  intros Hold added.
  assert (forall expr,
            added expr (push_expression expr (_ensure_list "expressions" req)))
    as Hadded.
  { intros expr. subst added. cbv beta.
    rewrite (push_expression_array expr req old Hold).
    destruct expr as [e|err]; cbn [fst snd]; unfold expressions.
    - cbn [with_arguments _arguments]. rewrite prop_get_set_eq.
      repeat split. intros k Hk. by apply prop_get_set_ne.
    - split; [|split; [done|]].
      + intros k Hk. by apply _ensure_list_frame.
      + by destruct (_ensure_list_array "expressions" req old Hold). }
  split; [|split]; intros; apply Hadded.
Qed.

End Expression_lists.

Lemma expressions_append_witness :
  let svf (class_expr property_id : arg) : outcome jsval :=
    match class_expr, property_id with
    | Some c, Some p =>
        Ret (JObj [("type", JStr "svf"); ("filler", c); ("property", p)])
    | _, _ => Throw (Error "bad svf")
    end in
  let req :=
    snd (add_class_expression sample_structure (str "GO:0008150")
           (new_request "uuid-0" "individual" "add")) in
  fst (add_svf_expression svf (str "GO:0005634") (str "RO:0002333") req)
  = Ret (Some 2)
  /\ fst (add_svf_expression svf (str "GO:0005634") None req)
     = Throw (Error "bad svf").
Proof.
  intros svf req.
  pose proof (proj1 (proj2 (expressions_append sample_structure svf svf req
                              [sample_structure (str "GO:0008150")]
                              ltac:(right; reflexivity)))) as Hsvf.
  split.
  - exact (proj1 (proj2 (Hsvf (str "GO:0005634") (str "RO:0002333")))).
  - exact (proj1 (proj2 (Hsvf (str "GO:0005634") None))).
Defined.

(** ** Backward lookup at its edges *)

Lemma last_individual_loop_nonpositive (reqs : list request) (ugh : nat)
      (skip : Z) :
  (skip <= 0)%Z ->
  last_individual_loop reqs ugh skip = last_individual_loop reqs ugh 0.
Proof.
  intros Hskip. induction ugh as [|ugh IH]; [done|].
  cbn [last_individual_loop]. destruct (reqs !! ugh) as [req|]; [|done].
  destruct (String.eqb (entity req) "individual"); [|done].
  assert ((skip >? 0)%Z = false) as -> by lia. done.
Qed.

Lemma last_fact_loop_nonpositive (reqs : list request) (ugh : nat)
      (skip : Z) :
  (skip <= 0)%Z ->
  last_fact_loop reqs ugh skip = last_fact_loop reqs ugh 0.
Proof.
  intros Hskip. induction ugh as [|ugh IH]; [done|].
  cbn [last_fact_loop]. destruct (reqs !! ugh) as [req|]; [|done].
  destruct (String.eqb (entity req) "edge"); [|done].
  assert ((skip >? 0)%Z = false) as -> by lia. done.
Qed.

Lemma last_individual_loop_none (reqs : list request) (ugh : nat) (skip : Z) :
  Forall (fun req => is_kind "individual" req = false) reqs ->
  last_individual_loop reqs ugh skip = JNull.
Proof.
  intros Hnone. induction ugh as [|ugh IH]; [done|].
  cbn [last_individual_loop].
  destruct (reqs !! ugh) as [req|] eqn:Hreq; [|done].
  rewrite Forall_lookup in Hnone. specialize (Hnone _ _ Hreq).
  unfold is_kind in Hnone. by rewrite Hnone.
Qed.

Lemma last_fact_loop_none (reqs : list request) (ugh : nat) (skip : Z) :
  Forall (fun req => is_kind "edge" req = false) reqs ->
  last_fact_loop reqs ugh skip = JNull.
Proof.
  intros Hnone. induction ugh as [|ugh IH]; [done|].
  cbn [last_fact_loop]. destruct (reqs !! ugh) as [req|] eqn:Hreq; [|done].
  rewrite Forall_lookup in Hnone. specialize (Hnone _ _ Hreq).
  unfold is_kind in Hnone. by rewrite Hnone.
Qed.

(** X6: a skip count that is zero or negative is the same as none: both
    lookups return the most recent match.  And whatever the skip count, a
    lookup returns null when the set holds no request of its kind, as on a
    set that is still empty. *)
Theorem last_lookup_edges (anchor : request_set) (skip : option Z) :
  ((default 0 skip <= 0)%Z ->
     last_individual_id skip anchor = last_individual_id None anchor
     /\ last_fact_triple skip anchor = last_fact_triple None anchor)
  /\ (Forall (fun req => is_kind "individual" req = false) (_requests anchor) ->
        last_individual_id skip anchor = JNull)
  /\ (Forall (fun req => is_kind "edge" req = false) (_requests anchor) ->
        last_fact_triple skip anchor = JNull)
  /\ (_requests anchor = [] ->
        last_individual_id skip anchor = JNull
        /\ last_fact_triple skip anchor = JNull).
Proof.
  unfold last_individual_id, last_fact_triple. split; [|split; [|split]].
  - intros Hskip. split.
    + by apply last_individual_loop_nonpositive.
    + by apply last_fact_loop_nonpositive.
  - apply last_individual_loop_none.
  - apply last_fact_loop_none.
  - by intros ->.
Qed.

Lemma last_lookup_edges_witness :
  let anchor :=
    pushed (new_request "uuid-1" "edge" "add") None
      (pushed (snd (individual (str "gomodel:01/ind1")
                      (new_request "uuid-0" "individual" "remove")))
         None (new_request_set None None)) in
  (last_individual_id (Some (-2)%Z) anchor = last_individual_id None anchor
   /\ last_fact_triple (Some (-2)%Z) anchor = last_fact_triple None anchor)
  /\ last_individual_id (Some 1%Z) (new_request_set None None) = JNull
  /\ last_fact_triple None
       (pushed (new_request "uuid-0" "model" "get") None
          (new_request_set None None)) = JNull.
Proof.
  intros anchor. split; [|split].
  - apply (proj1 (last_lookup_edges anchor (Some (-2)%Z))). cbn. lia.
  - apply (proj1 (proj2 (last_lookup_edges (new_request_set None None)
                           (Some 1%Z)))).
    constructor.
  - apply (proj1 (proj2 (proj2 (last_lookup_edges _ None)))).
    repeat constructor.
Defined.

(** ** What the macros of a request set queue *)

Lemma model_if_given_model (model_id : arg) (req : request) :
  prop_get "model-id" (_arguments (model_if_given model_id req))
  = match given model_id with
    | Some v => Some v
    | None => prop_get "model-id" (_arguments req)
    end.
Proof.
  unfold model_if_given, to_bool, model, _get_set.
  destruct (given model_id) as [v|]; [|done]. cbn. apply prop_get_set_eq.
Qed.

Lemma last_individual_id_pushed (req : request) (intention : option string)
      (anchor : request_set) :
  _entity req = "individual" ->
  last_individual_id None (pushed req intention anchor)
  = fst (individual None req).
Proof.
  intros Hkind. unfold last_individual_id.
  rewrite (last_individual_loop_spec _ _ 0) by done.
  rewrite firstn_all. cbn [pushed _requests]. rewrite rev_unit.
  cbn [List.filter]. unfold is_kind, entity. by rewrite Hkind.
Qed.

Lemma last_fact_triple_pushed (req : request) (intention : option string)
      (anchor : request_set) :
  _entity req = "edge" ->
  last_fact_triple None (pushed req intention anchor) = fact_triple req.
Proof.
  intros Hkind. unfold last_fact_triple.
  rewrite (last_fact_loop_spec _ _ 0) by done.
  rewrite firstn_all. cbn [pushed _requests]. rewrite rev_unit.
  cbn [List.filter]. unfold is_kind, entity. by rewrite Hkind.
Qed.

Lemma individual_kind (ind_id : arg) (req : request) :
  _entity (snd (individual ind_id req)) = _entity req
  /\ _operation (snd (individual ind_id req)) = _operation req.
Proof. unfold individual. by destruct (given ind_id). Qed.

(** Unfold the outermost bind of a method applied to a world. *)
Ltac open_bind := unfold mbind at 1; unfold M_bind at 1.

Section Macros_add_individual.

Variable class_structure : arg -> jsval.
Variable uuid : nat -> string.

Lemma add_individual_run (class_expr model_id : arg) (w : world) :
  to_bool class_expr = true ->
  let ind_req :=
    floating_evidence class_structure class_expr model_id
      (uuid (uuid_calls w)) in
  add_individual class_structure uuid class_expr model_id w
  = (Ret (JStr (uuid (uuid_calls w))),
     {| uuid_calls := S (uuid_calls w);
        the_set := pushed ind_req (Some "action") (the_set w) |}).
Proof.
  intros Hclass. cbv zeta. unfold add_individual. rewrite Hclass.
  rewrite bind_fresh. cbv zeta.
  erewrite bind_on_request by apply floating_evidence_added.
  rewrite bind_add. unfold mret at 1, M_ret at 1.
  by rewrite floating_evidence_id.
Qed.

(** X7: add_individual with a class expression queues one request, of
    entity individual and operation add, holding the expression and the
    model id if one was given, and makes the batch an action.  The
    request's id stays implicit: the method returns the generated id, which
    is what last_individual_id then finds and what the request will be
    serialized with as assign-to-variable.  Without a class expression the
    method returns null and changes nothing. *)
Theorem add_individual_queues (class_expr model_id : arg) (w : world) :
  (to_bool class_expr = false ->
     add_individual class_structure uuid class_expr model_id w = (Ret JNull, w))
  /\ (to_bool class_expr = true ->
        exists ind_req w',
          add_individual class_structure uuid class_expr model_id w
          = (Ret (JStr (uuid (uuid_calls w))), w')
          /\ _requests (the_set w') = _requests (the_set w) ++ [ind_req]
          /\ _intention (the_set w') = "action"
          /\ (_entity ind_req, _operation ind_req) = ("individual", "add")
          /\ expressions ind_req = Some (JArr [class_structure class_expr])
          /\ prop_get "model-id" (_arguments ind_req) = given model_id
          /\ prop_get "individual" (_arguments ind_req) = None
          /\ set_p (_individual_id ind_req) = false
          /\ last_individual_id None (the_set w') = JStr (uuid (uuid_calls w))
          /\ prop_get "assign-to-variable"
               (base_arguments (fst (objectify ind_req)))
             = Some (JStr (uuid (uuid_calls w)))).
Proof.
  split; [unfold add_individual; by intros ->|]. intros Hclass.
  rewrite add_individual_run by done.
  set (primo := uuid (uuid_calls w)).
  pose proof (floating_evidence_kind class_structure class_expr model_id primo)
    as [Hentity Hoperation].
  pose proof (floating_evidence_id class_structure class_expr model_id primo)
    as Hid.
  eexists _, _. split; [reflexivity|].
  cbn [the_set pushed _requests _intention].
  split; [done|]. split; [done|]. split; [by rewrite Hentity, Hoperation|].
  assert (set_p (_individual_id
                   (floating_evidence class_structure class_expr model_id
                      primo)) = false) as Himplicit.
  { unfold floating_evidence, with_arguments. cbn [_individual_id].
    by rewrite (proj2 (proj2 (model_if_given_entity _ _))). }
  split; [|split; [|split; [|split; [|split]]]].
  - unfold expressions, floating_evidence. cbn. apply prop_get_set_eq.
  - unfold floating_evidence. cbn [with_arguments _arguments].
    rewrite prop_get_set_ne by done. rewrite model_if_given_model.
    by destruct (given model_id).
  - unfold floating_evidence. cbn [with_arguments _arguments].
    rewrite prop_get_set_ne by done. by rewrite model_if_given_frame.
  - exact Himplicit.
  - by rewrite last_individual_id_pushed.
  - unfold objectify. rewrite Hentity, Himplicit. cbn.
    rewrite prop_get_set_eq. f_equal. exact Hid.
Qed.

End Macros_add_individual.

Lemma add_individual_queues_witness :
  (add_individual sample_structure sample_uuid (str "") None sample_world
   = (Ret JNull, sample_world))
  /\ exists ind_req w',
      add_individual sample_structure sample_uuid (str "GO:0008150") None
        sample_world = (Ret (JStr "uuid-0"), w')
      /\ _requests (the_set w') = [ind_req]
      /\ last_individual_id None (the_set w') = JStr "uuid-0".
Proof.
  split.
  - apply (proj1 (add_individual_queues sample_structure sample_uuid
                    (str "") None sample_world)).
    reflexivity.
  - destruct (proj2 (add_individual_queues sample_structure sample_uuid
                       (str "GO:0008150") None sample_world) eq_refl)
      as (ind_req & w' & Hrun & Hreqs & _ & _ & _ & _ & _ & _ & Hlast & _).
    exists ind_req, w'. repeat split; assumption.
Defined.

Section Macros_individual.

Variable class_structure : arg -> jsval.
Variable uuid : nat -> string.

(** The request [remove_individual] and the type macros start from: fresh,
    identified, with its model id. *)
Lemma identified_request_arguments (id : jsval) (model_id : arg)
      (primo entity operation : string) :
  truthy id = true ->
  let req :=
    snd (individual (Some id)
           (model_if_given model_id (new_request primo entity operation))) in
  prop_get "individual" (_arguments req) = Some id
  /\ prop_get "model-id" (_arguments req) = given model_id
  /\ fst (individual None req) = id
  /\ set_p (_individual_id req) = true
  /\ forall k, k <> "individual" -> k <> "model-id" ->
       prop_get k (_arguments req) = None.
Proof.
  intros Hid req. subst req. rewrite individual_set by done.
  cbn [snd _arguments individual fst value _value given _individual_id _var
         set_p _use_var_p].
  repeat split.
  - apply prop_get_set_eq.
  - rewrite prop_get_set_ne by done. rewrite model_if_given_model.
    by destruct (given model_id).
  - intros k Hk Hk'. rewrite prop_get_set_ne by done.
    by rewrite model_if_given_frame.
Qed.

(** X8: remove_individual with an individual id queues one request, of
    entity individual and operation remove, that names the individual (and
    the model, if one was given) and nothing else, makes the batch an
    action and returns the set; the request is serialized as it is, with no
    assign-to-variable.  Without an id it changes nothing.  remove_evidence
    is remove_individual under another name: on the same arguments the two
    do the same. *)
Theorem remove_individual_queues (individual_id model_id : arg) (w : world) :
  remove_evidence uuid individual_id model_id w
  = remove_individual uuid individual_id model_id w
  /\ (to_bool individual_id = false ->
        remove_individual uuid individual_id model_id w = (Ret (the_set w), w))
  /\ (forall id, individual_id = Some id -> truthy id = true ->
        exists ind_req w',
          remove_individual uuid individual_id model_id w
          = (Ret (the_set w'), w')
          /\ _requests (the_set w') = _requests (the_set w) ++ [ind_req]
          /\ _intention (the_set w') = "action"
          /\ (_entity ind_req, _operation ind_req) = ("individual", "remove")
          /\ prop_get "individual" (_arguments ind_req) = Some id
          /\ prop_get "model-id" (_arguments ind_req) = given model_id
          /\ (forall k, k <> "individual" -> k <> "model-id" ->
                prop_get k (_arguments ind_req) = None)
          /\ base_arguments (fst (objectify ind_req)) = _arguments ind_req
          /\ last_individual_id None (the_set w') = id).
Proof.
  split; [|split].
  - unfold remove_evidence, remove_individual.
    destruct (to_bool individual_id); [|done].
    do 3 open_bind. rewrite bind_fresh. cbv zeta. by rewrite bind_add.
  - intros Hnone. unfold remove_individual. by rewrite Hnone.
  - intros id -> Hid. unfold remove_individual, to_bool.
    rewrite given_truthy by done. open_bind. rewrite bind_fresh. cbv zeta.
    rewrite bind_add. cbn [mret M_ret get_anchor the_set].
    pose proof (identified_request_kind (Some id) model_id
                  (uuid (uuid_calls w)) "individual" "remove")
      as [Hentity Hoperation].
    pose proof (identified_request_arguments id model_id
                  (uuid (uuid_calls w)) "individual" "remove" Hid)
      as (Hind & Hmodel & Hget & Hset & Hother).
    eexists _, _. split; [reflexivity|].
    cbn [the_set pushed _requests _intention].
    split; [done|]. split; [done|]. split; [by rewrite Hentity, Hoperation|].
    split; [done|]. split; [done|]. split; [done|]. split.
    + unfold objectify. rewrite Hset. by rewrite andb_false_r.
    + by rewrite last_individual_id_pushed.
Qed.

Lemma _op_type_to_individual_run (op : string) (class_expr model_id : arg)
      (id : jsval) (w : world) :
  op = "add" \/ op = "remove" ->
  to_bool class_expr = true -> truthy id = true ->
  let base :=
    model_if_given model_id
      (snd (individual (Some id)
              (new_request (uuid (uuid_calls w)) "individual"
                 (op +:+ "-type")))) in
  let type_req :=
    with_arguments
      (prop_set "expressions" (JArr [class_structure class_expr])
         (_arguments base)) base in
  _op_type_to_individual class_structure uuid op class_expr (Some id)
    model_id w
  = (Ret (pushed type_req (Some "action") (the_set w)),
     {| uuid_calls := S (uuid_calls w);
        the_set := pushed type_req (Some "action") (the_set w) |}).
Proof.
  intros Hop Hclass Hid base type_req. subst type_req base.
  unfold _op_type_to_individual. rewrite Hclass. unfold to_bool.
  rewrite given_truthy by done.
  assert (negb (String.eqb op "") = true) as ->
    by by destruct Hop as [-> | ->].
  assert (negb (String.eqb op "add") && negb (String.eqb op "remove") = false)
    as -> by by destruct Hop as [-> | ->].
  cbn [andb]. open_bind. rewrite bind_fresh. cbv zeta.
  erewrite bind_on_request; cycle 1.
  { apply add_class_expression_fresh.
    rewrite model_if_given_frame by done.
    by rewrite individual_frame by done. }
  by rewrite bind_add.
Qed.

(** X9: add_type_to_individual and remove_type_from_individual, given a
    class expression and an individual id, queue one request of entity
    individual and operation add-type (remove-type) that names the
    individual, holds the expression and the model id if one was given;
    they make the batch an action and return the set. *)
Theorem type_macros_queue (class_expr individual_id model_id : arg)
        (id : jsval) (w : world) :
  to_bool class_expr = true ->
  individual_id = Some id -> truthy id = true ->
  let queued (operation : string) (r : outcome request_set * world) :=
    exists type_req,
      r = (Ret (the_set (snd r)), snd r)
      /\ _requests (the_set (snd r)) = _requests (the_set w) ++ [type_req]
      /\ _intention (the_set (snd r)) = "action"
      /\ (_entity type_req, _operation type_req) = ("individual", operation)
      /\ prop_get "individual" (_arguments type_req) = Some id
      /\ expressions type_req = Some (JArr [class_structure class_expr])
      /\ prop_get "model-id" (_arguments type_req) = given model_id in
  queued "add-type"
    (add_type_to_individual class_structure uuid class_expr individual_id
       model_id w)
  /\ queued "remove-type"
       (remove_type_from_individual class_structure uuid class_expr
          individual_id model_id w).
Proof.
  intros Hclass -> Hid queued.
  assert (forall op, op = "add" \/ op = "remove" ->
            queued (op +:+ "-type")
              (_op_type_to_individual class_structure uuid op class_expr
                 (Some id) model_id w)) as Hop.
  { intros op Hop. subst queued. cbv beta.
    rewrite (_op_type_to_individual_run op class_expr model_id id w)
      by done.
    pose proof (identified_request_arguments id None
                  (uuid (uuid_calls w)) "individual" (op +:+ "-type") Hid)
      as (Hind & Hmodel & _).
    pose proof (identified_request_kind (Some id) None
                  (uuid (uuid_calls w)) "individual" (op +:+ "-type"))
      as [Hentity Hoperation].
    cbn zeta in Hind, Hmodel, Hentity, Hoperation.
    change (model_if_given None ?r) with r in Hind, Hmodel, Hentity, Hoperation.
    eexists. split; [reflexivity|].
    cbn [the_set pushed _requests _intention fst snd].
    split; [done|]. split; [done|].
    unfold expressions, with_arguments. cbn [_entity _operation _arguments].
    rewrite (proj1 (model_if_given_entity _ _)),
      (proj1 (proj2 (model_if_given_entity _ _))), Hentity, Hoperation.
    split; [done|]. rewrite prop_get_set_eq.
    rewrite !prop_get_set_ne by done.
    rewrite model_if_given_frame by done. rewrite model_if_given_model.
    split; [exact Hind|]. split; [done|].
    by destruct (given model_id). }
  split.
  - apply (Hop "add"). by left.
  - apply (Hop "remove"). by right.
Qed.

(** X10: the helper behind the two type macros throws "unknown type
    operation", before it touches the set, when its operation is neither
    add nor remove; but only when it has a class expression and an
    individual id to work with: with one of them missing it returns the
    set without a word, whatever the operation. *)
Theorem unknown_type_operation (op : string)
        (class_expr individual_id model_id : arg) (w : world) :
  (op <> "" -> op <> "add" -> op <> "remove" ->
   to_bool class_expr = true -> to_bool individual_id = true ->
   _op_type_to_individual class_structure uuid op class_expr individual_id
     model_id w = (Throw (Error "unknown type operation"), w))
  /\ (to_bool class_expr = false \/ to_bool individual_id = false ->
      _op_type_to_individual class_structure uuid op class_expr individual_id
        model_id w = (Ret (the_set w), w)).
Proof.
  unfold _op_type_to_individual. split.
  - intros Hne Hadd Hremove -> ->.
    apply String.eqb_neq in Hne as ->, Hadd as ->, Hremove as ->. done.
  - intros Hmissing.
    assert (negb (String.eqb op "") && to_bool class_expr
            && to_bool individual_id = false) as ->; [|done].
    destruct Hmissing as [-> | ->]; by rewrite ?andb_false_r.
Qed.

End Macros_individual.

Lemma remove_individual_queues_witness :
  remove_individual sample_uuid (str "") None sample_world
  = (Ret (the_set sample_world), sample_world)
  /\ exists ind_req w',
      remove_individual sample_uuid (str "gomodel:01/ind1") None sample_world
      = (Ret (the_set w'), w')
      /\ _requests (the_set w') = [ind_req]
      /\ prop_get "individual" (_arguments ind_req)
         = Some (JStr "gomodel:01/ind1").
Proof.
  split.
  - apply (proj1 (proj2 (remove_individual_queues sample_uuid
                           (str "") None sample_world))).
    reflexivity.
  - destruct (proj2 (proj2 (remove_individual_queues sample_uuid
                              (str "gomodel:01/ind1") None sample_world))
                (JStr "gomodel:01/ind1") eq_refl eq_refl)
      as (ind_req & w' & Hrun & Hreqs & _ & _ & Hind & _).
    exists ind_req, w'. repeat split; assumption.
Defined.

Lemma type_macros_queue_witness :
  exists type_req w',
    add_type_to_individual sample_structure sample_uuid (str "GO:0008150")
      (str "gomodel:01/ind1") (str "gomodel:02") sample_world
    = (Ret (the_set w'), w')
    /\ _requests (the_set w') = [type_req]
    /\ (_entity type_req, _operation type_req) = ("individual", "add-type")
    /\ prop_get "model-id" (_arguments type_req) = Some (JStr "gomodel:02").
Proof.
  destruct (proj1 (type_macros_queue sample_structure sample_uuid
                     (str "GO:0008150") (str "gomodel:01/ind1")
                     (str "gomodel:02") (JStr "gomodel:01/ind1") sample_world
                     eq_refl eq_refl eq_refl))
    as (type_req & Hrun & Hreqs & _ & Hkind & _ & _ & Hmodel).
  eexists type_req, _. split; [exact Hrun|]. repeat split; assumption.
Defined.

Lemma unknown_type_operation_witness :
  _op_type_to_individual sample_structure sample_uuid "replace"
    (str "GO:0008150") (str "gomodel:01/ind1") None sample_world
  = (Throw (Error "unknown type operation"), sample_world)
  /\ _op_type_to_individual sample_structure sample_uuid "replace"
       (str "GO:0008150") None None sample_world
     = (Ret (the_set sample_world), sample_world).
Proof.
  split.
  - apply (proj1 (unknown_type_operation sample_structure sample_uuid
                    "replace" (str "GO:0008150") (str "gomodel:01/ind1")
                    None sample_world));
      [discriminate..|reflexivity|reflexivity].
  - apply (proj2 (unknown_type_operation sample_structure sample_uuid
                    "replace" (str "GO:0008150") None None sample_world)).
    right. reflexivity.
Defined.

Section Macros_fact.

Variable class_structure : arg -> jsval.
Variable uuid : nat -> string.

Lemma _ensure_fact_fields (triple : arg) (sub obj pred : jsval) :
  arg_index triple 0 = Some sub -> arg_index triple 1 = Some obj ->
  arg_index triple 2 = Some pred ->
  truthy sub = true -> truthy obj = true -> truthy pred = true ->
  _ensure_fact triple = Ret tt.
Proof.
  intros Hs Ho Hp Hsub Hobj Hpred. apply _ensure_fact_returns.
  intros [|[|[|i]]] Hi; [| | |lia]; unfold to_bool;
    rewrite ?Hs, ?Ho, ?Hp, given_truthy; done.
Qed.

(** The edge request of a fact macro: fresh, with its model id and the
    three fields of the triple. *)
Lemma edge_request_arguments (sub obj pred : jsval) (model_id : arg)
      (primo entity operation : string) :
  truthy sub = true -> truthy obj = true -> truthy pred = true ->
  let req :=
    fact (Some sub) (Some obj) (Some pred)
      (model_if_given model_id (new_request primo entity operation)) in
  _entity req = entity
  /\ _operation req = operation
  /\ fst (subject None req) = sub
  /\ fst (object None req) = obj
  /\ fst (predicate None req) = pred
  /\ prop_get "model-id" (_arguments req) = given model_id
  /\ (forall k, k <> "subject" -> k <> "object" -> k <> "predicate" ->
        k <> "model-id" -> prop_get k (_arguments req) = None).
Proof.
  intros Hsub Hobj Hpred req. subst req.
  destruct (fact_kind (Some sub) (Some obj) (Some pred)
              (model_if_given model_id (new_request primo entity operation)))
    as (-> & -> & _).
  destruct (fact_read (Some sub) (Some obj) (Some pred)
              (model_if_given model_id (new_request primo entity operation)))
    as (Hs & Ho & Hp).
  rewrite given_truthy in Hs, Ho, Hp by done.
  rewrite Hs, Ho, Hp.
  rewrite (proj1 (model_if_given_entity _ _)),
    (proj1 (proj2 (model_if_given_entity _ _))).
  repeat split.
  - rewrite fact_frame by done. rewrite model_if_given_model.
    by destruct (given model_id).
  - intros k ? ? ? ?. rewrite fact_frame by done.
    by rewrite model_if_given_frame.
Qed.

(** X11: add_fact and remove_fact, given a triple whose three fields are
    all truthy, queue one request of entity edge and operation add
    (remove) whose subject, object and predicate are the fields, with the
    model id if one was given and nothing else, and make the batch an
    action.  add_fact returns the triple it was given, remove_fact the set;
    last_fact_triple then returns the three fields. *)
Theorem fact_macros_queue (triple model_id : arg) (sub obj pred : jsval)
        (w : world) :
  arg_index triple 0 = Some sub -> arg_index triple 1 = Some obj ->
  arg_index triple 2 = Some pred ->
  truthy sub = true -> truthy obj = true -> truthy pred = true ->
  let queued (operation : string) (w' : world) :=
    exists edge_req,
      _requests (the_set w') = _requests (the_set w) ++ [edge_req]
      /\ _intention (the_set w') = "action"
      /\ (_entity edge_req, _operation edge_req) = ("edge", operation)
      /\ fst (subject None edge_req) = sub
      /\ fst (object None edge_req) = obj
      /\ fst (predicate None edge_req) = pred
      /\ prop_get "model-id" (_arguments edge_req) = given model_id
      /\ (forall k, k <> "subject" -> k <> "object" -> k <> "predicate" ->
            k <> "model-id" -> prop_get k (_arguments edge_req) = None)
      /\ last_fact_triple None (the_set w') = JArr [sub; obj; pred] in
  (exists w', add_fact uuid triple model_id w = (Ret triple, w')
              /\ queued "add" w')
  /\ (exists w', remove_fact uuid triple model_id w = (Ret (the_set w'), w')
                 /\ queued "remove" w').
Proof.
  intros Hs Ho Hp Hsub Hobj Hpred queued.
  pose proof (_ensure_fact_fields triple sub obj pred Hs Ho Hp Hsub Hobj Hpred)
    as Hfact.
  assert (forall operation,
            queued operation
              {| uuid_calls := S (uuid_calls w);
                 the_set :=
                   pushed
                     (fact (Some sub) (Some obj) (Some pred)
                        (model_if_given model_id
                           (new_request (uuid (uuid_calls w)) "edge"
                              operation)))
                     (Some "action") (the_set w) |}) as Hqueued.
  { intros operation. subst queued. cbv beta.
    destruct (edge_request_arguments sub obj pred model_id
                (uuid (uuid_calls w)) "edge" operation Hsub Hobj Hpred)
      as (Hentity & Hoperation & Hs' & Ho' & Hp' & Hmodel & Hother).
    eexists. cbn [the_set pushed _requests _intention].
    split; [done|]. split; [done|]. split; [by rewrite Hentity, Hoperation|].
    repeat split; try done.
    rewrite last_fact_triple_pushed by done. unfold fact_triple.
    by rewrite Hs', Ho', Hp'. }
  split.
  - eexists. unfold add_fact. rewrite Hfact, bind_lift_outcome.
    rewrite bind_fresh. cbv zeta. rewrite bind_add, Hs, Ho, Hp.
    split; [reflexivity|]. apply Hqueued.
  - eexists. unfold remove_fact. rewrite Hfact, bind_lift_outcome.
    rewrite bind_fresh. cbv zeta. rewrite bind_add, Hs, Ho, Hp.
    split; [reflexivity|]. apply Hqueued.
Qed.

End Macros_fact.

Lemma fact_macros_queue_witness :
  let triple := Some (JArr [JStr "i1"; JStr "i2"; JStr "part_of"]) in
  exists w' edge_req,
    add_fact sample_uuid triple None sample_world = (Ret triple, w')
    /\ _requests (the_set w') = [edge_req]
    /\ (_entity edge_req, _operation edge_req) = ("edge", "add")
    /\ last_fact_triple None (the_set w')
       = JArr [JStr "i1"; JStr "i2"; JStr "part_of"].
Proof.
  intros triple.
  destruct (proj1 (fact_macros_queue sample_uuid triple None
                     (JStr "i1") (JStr "i2") (JStr "part_of") sample_world
                     eq_refl eq_refl eq_refl eq_refl eq_refl eq_refl))
    as (w' & Hrun & edge_req & Hreqs & _ & Hkind & _ & _ & _ & _ & _ & Hlast).
  exists w', edge_req. repeat split; assumption.
Defined.

Section Macros_evidence.

Variable class_structure : arg -> jsval.
Variable uuid : nat -> string.

(** X12: add_evidence without an evidence id or without source ids does
    nothing and returns the set, and so do the two macros built on it.
    add_evidence_to_last_individual also does nothing when the set holds no
    request of entity individual, add_evidence_to_last_fact when it holds
    none of entity edge. *)
Theorem evidence_macros_ignore_missing
        (evidence_id source_ids target_identifier model_id : arg) (w : world) :
  (to_bool evidence_id = false \/ to_bool source_ids = false ->
   add_evidence class_structure uuid evidence_id source_ids
     target_identifier model_id w = (Ret (the_set w), w)
   /\ add_evidence_to_last_individual class_structure uuid evidence_id
        source_ids model_id w = (Ret (the_set w), w)
   /\ add_evidence_to_last_fact class_structure uuid evidence_id
        source_ids model_id w = (Ret (the_set w), w))
  /\ (Forall (fun req => is_kind "individual" req = false)
        (_requests (the_set w)) ->
      add_evidence_to_last_individual class_structure uuid evidence_id
        source_ids model_id w = (Ret (the_set w), w))
  /\ (Forall (fun req => is_kind "edge" req = false)
        (_requests (the_set w)) ->
      add_evidence_to_last_fact class_structure uuid evidence_id
        source_ids model_id w = (Ret (the_set w), w)).
Proof.
  split; [|split].
  - intros Hmissing.
    assert (to_bool evidence_id && to_bool source_ids = false) as Hcond
      by (destruct Hmissing as [-> | ->]; by rewrite ?andb_false_r).
    assert (forall target,
              add_evidence class_structure uuid evidence_id source_ids
                target model_id w = (Ret (the_set w), w)) as Hnothing.
    { intros target. unfold add_evidence. by rewrite Hcond. }
    split; [apply Hnothing|].
    unfold add_evidence_to_last_individual, add_evidence_to_last_fact.
    split; open_bind; cbn [get_anchor]; cbv zeta.
    + destruct (truthy (last_individual_id None (the_set w))); [|done].
      do 2 open_bind. by rewrite Hnothing.
    + destruct (truthy (last_fact_triple None (the_set w))); [|done].
      do 2 open_bind. by rewrite Hnothing.
  - intros Hnone. unfold add_evidence_to_last_individual.
    open_bind. cbn [get_anchor]. cbv zeta.
    unfold last_individual_id. by rewrite last_individual_loop_none.
  - intros Hnone. unfold add_evidence_to_last_fact.
    open_bind. cbn [get_anchor]. cbv zeta.
    unfold last_fact_triple. by rewrite last_fact_loop_none.
Qed.

(** [add_evidence] up to the point where it looks at its target: the
    floating evidence individual and its sources are queued. *)
Lemma add_evidence_run (evidence_id source_ids target_identifier
                          model_id : arg) (w : world) :
  to_bool evidence_id = true ->
  to_bool source_ids = true ->
  (what_is_eq source_ids "string" || what_is_eq source_ids "array") = true ->
  let primo := uuid (uuid_calls w) in
  let ev_ind_req :=
    floating_evidence class_structure evidence_id model_id primo in
  let base :=
    snd (individual (Some (JStr primo))
           (model_if_given model_id
              (new_request (uuid (S (uuid_calls w))) "individual"
                 "add-annotation"))) in
  let ev_ind_ann_req :=
    with_arguments
      (prop_set "values"
         (JArr (map (annotation_pair (JStr "source"))
                  (annotation_items source_ids)))
         (_arguments base)) base in
  let w2 :=
    {| uuid_calls := S (S (uuid_calls w));
       the_set :=
         pushed ev_ind_ann_req (Some "action")
           (pushed ev_ind_req (Some "action") (the_set w)) |} in
  add_evidence class_structure uuid evidence_id source_ids
    target_identifier model_id w
  = ((if negb (to_bool target_identifier) then
        throw (Error "no target identified for evidence add")
      else if what_is_eq target_identifier "string" then
        ind_ann_req ← fresh_request uuid "individual" "add-annotation";
        let ind_ann_req := model_if_given model_id ind_ann_req in
        let ind_ann_req := snd (individual target_identifier ind_ann_req) in
        ind_ann_req ←
          on_request
            (add_annotation (JStr "evidence") (Some (JStr primo))
               ind_ann_req);
        add ind_ann_req (Some "action");;
        mret tt
      else
        lift_outcome (_ensure_fact target_identifier);;
        ed_ann_req ← fresh_request uuid "edge" "add-annotation";
        let ed_ann_req := model_if_given model_id ed_ann_req in
        let t := target_identifier in
        let ed_ann_req :=
          fact (arg_index t 0) (arg_index t 1) (arg_index t 2) ed_ann_req in
        ed_ann_req ←
          on_request
            (add_annotation (JStr "evidence") (Some (JStr primo))
               ed_ann_req);
        add ed_ann_req (Some "action");;
        mret tt);;
     get_anchor) w2.
Proof.
  intros Hev Hsrc Hkind primo ev_ind_req base ev_ind_ann_req w2.
  subst w2 ev_ind_ann_req base ev_ind_req primo.
  unfold add_evidence. rewrite Hev, Hsrc. cbn [andb].
  open_bind. rewrite bind_fresh. cbv zeta.
  erewrite bind_on_request by apply floating_evidence_added.
  rewrite bind_add, bind_fresh. cbv zeta.
  rewrite floating_evidence_id. cbn [uuid_calls].
  erewrite bind_on_request; cycle 1.
  { apply add_annotation_fresh; [done|].
    by rewrite individual_frame, model_if_given_frame by done. }
  rewrite bind_add. by open_bind.
Qed.

(** X13: add_evidence with an evidence id, source ids and a target that
    is neither a string nor a triple with three truthy fields throws
    "triple did not look like a proper fact", and, as with no target at
    all, only after it has queued the floating evidence individual and its
    source annotation: the set is two requests longer and an action. *)
Theorem add_evidence_malformed_target
        (evidence_id source_ids target_identifier model_id : arg) (w : world) :
  to_bool evidence_id = true ->
  to_bool source_ids = true ->
  (what_is_eq source_ids "string" || what_is_eq source_ids "array") = true ->
  to_bool target_identifier = true ->
  what_is_eq target_identifier "string" = false ->
  (exists i, i < 3 /\ to_bool (arg_index target_identifier i) = false) ->
  exists ev_ind_req ev_ind_ann_req w',
    add_evidence class_structure uuid evidence_id source_ids
      target_identifier model_id w = (Throw malformed_fact, w')
    /\ _requests (the_set w')
       = _requests (the_set w) ++ [ev_ind_req; ev_ind_ann_req]
    /\ _intention (the_set w') = "action".
Proof.
  intros Hev Hsrc Hkind Htarget Hstring Hfields.
  rewrite add_evidence_run by done. rewrite Htarget, Hstring. cbn [negb].
  open_bind. rewrite bind_lift_outcome.
  rewrite (_ensure_fact_throws _ Hfields).
  eexists _, _, _. split; [reflexivity|].
  cbn [the_set pushed _requests _intention]. split; [|done].
  by rewrite <- app_assoc.
Qed.

End Macros_evidence.

Lemma evidence_macros_ignore_missing_witness :
  add_evidence sample_structure sample_uuid (str "ECO:0000000") None
    (str "gomodel:01/ind1") None sample_world
  = (Ret (the_set sample_world), sample_world)
  /\ add_evidence_to_last_individual sample_structure sample_uuid
       (str "ECO:0000000") (str "PMID:123") None sample_world
     = (Ret (the_set sample_world), sample_world).
Proof.
  split.
  - apply (proj1 (evidence_macros_ignore_missing sample_structure sample_uuid
                    (str "ECO:0000000") None (str "gomodel:01/ind1") None
                    sample_world)).
    right. reflexivity.
  - apply (proj1 (proj2 (evidence_macros_ignore_missing sample_structure
                           sample_uuid (str "ECO:0000000") (str "PMID:123")
                           None None sample_world))).
    constructor.
Defined.

Lemma add_evidence_malformed_target_witness :
  exists ev_ind_req ev_ind_ann_req w',
    add_evidence sample_structure sample_uuid (str "ECO:0000000")
      (str "PMID:123") (Some (JArr [JStr "i1"; JStr "i2"])) None sample_world
    = (Throw malformed_fact, w')
    /\ _requests (the_set w')
       = _requests (the_set sample_world) ++ [ev_ind_req; ev_ind_ann_req]
    /\ _intention (the_set w') = "action".
Proof.
  apply (add_evidence_malformed_target sample_structure sample_uuid
           (str "ECO:0000000") (str "PMID:123")
           (Some (JArr [JStr "i1"; JStr "i2"])) None sample_world);
    try reflexivity.
  exists 2. split; [lia | reflexivity].
Defined.

Lemma with_values_get (k : string) (vals : jsval) (req : request) :
  k <> "values" ->
  _get k (with_arguments (prop_set "values" vals (_arguments req)) req)
  = _get k req.
Proof. intros Hk. apply model_get. cbn. by apply prop_get_set_ne. Qed.

Section Evidence_wiring.

Variable class_structure : arg -> jsval.
Variable uuid : nat -> string.

(** X14: what a successful add_evidence queues.  Its first request adds
    the floating evidence individual, typed by the evidence id, under a
    generated id; the second names that individual by this id and holds one
    source annotation per source; the third holds one evidence annotation,
    whose value is the same generated id, and names the target: the
    individual when the target is a string, and the subject, object and
    predicate of the fact, on an edge request, when it is a triple.  All
    three carry the model id if one was given. *)
Theorem add_evidence_wiring
        (evidence_id source_ids target_identifier model_id : arg)
        (sources : list jsval) (w : world) :
  let ev_id := JStr (uuid (uuid_calls w)) in
  truthy ev_id = true ->
  to_bool evidence_id = true ->
  to_bool source_ids = true ->
  (exists s, source_ids = Some (JStr s) /\ sources = [JStr s])
  \/ source_ids = Some (JArr sources) ->
  (exists t, target_identifier = Some (JStr t) /\ t <> "")
  \/ (exists l, target_identifier = Some (JArr l)
                /\ forall i, i < 3 -> to_bool (l !! i) = true) ->
  exists ev_ind_req ev_ind_ann_req tie_req w',
    add_evidence class_structure uuid evidence_id source_ids
      target_identifier model_id w = (Ret (the_set w'), w')
    /\ _requests (the_set w')
       = _requests (the_set w) ++ [ev_ind_req; ev_ind_ann_req; tie_req]
    /\ ((_entity ev_ind_req, _operation ev_ind_req) = ("individual", "add")
        /\ expressions ev_ind_req
           = Some (JArr [class_structure evidence_id])
        /\ fst (individual None ev_ind_req) = ev_id
        /\ set_p (_individual_id ev_ind_req) = false)
    /\ ((_entity ev_ind_ann_req, _operation ev_ind_ann_req)
        = ("individual", "add-annotation")
        /\ prop_get "individual" (_arguments ev_ind_ann_req) = Some ev_id
        /\ annotations ev_ind_ann_req
           = Some (JArr (map (annotation_pair (JStr "source")) sources)))
    /\ (_operation tie_req = "add-annotation"
        /\ annotations tie_req
           = Some (JArr [annotation_pair (JStr "evidence") ev_id])
        /\ (forall t, target_identifier = Some (JStr t) ->
              _entity tie_req = "individual"
              /\ prop_get "individual" (_arguments tie_req) = Some (JStr t))
        /\ (forall l, target_identifier = Some (JArr l) ->
              _entity tie_req = "edge"
              /\ Some (fst (subject None tie_req)) = l !! 0
              /\ Some (fst (object None tie_req)) = l !! 1
              /\ Some (fst (predicate None tie_req)) = l !! 2))
    /\ Forall (fun req => prop_get "model-id" (_arguments req)
                          = given model_id)
         [ev_ind_req; ev_ind_ann_req; tie_req].
Proof.
  intros ev_id Hid Hev Hsrc Hsources Htarget. subst ev_id.
  assert ((what_is_eq source_ids "string" || what_is_eq source_ids "array")
          = true) as Hkind
    by by destruct Hsources as [(s & -> & _) | ->].
  assert (annotation_items source_ids = sources) as Hitems
    by by destruct Hsources as [(s & -> & ->) | ->].
  rewrite add_evidence_run by done. rewrite Hitems.
  set (primo := uuid (uuid_calls w)) in *.
  pose proof (floating_evidence_kind class_structure evidence_id model_id
                primo) as [Hentity1 Hoperation1].
  pose proof (identified_request_kind (Some (JStr primo)) model_id
                (uuid (S (uuid_calls w))) "individual" "add-annotation")
    as [Hentity2 Hoperation2].
  pose proof (identified_request_arguments (JStr primo) model_id
                (uuid (S (uuid_calls w))) "individual" "add-annotation" Hid)
    as (Hind2 & Hmodel2 & _).
  cbv zeta in Hentity2, Hoperation2, Hind2, Hmodel2.
  assert (prop_get "model-id"
            (_arguments (floating_evidence class_structure evidence_id
                           model_id primo)) = given model_id) as Hmodel1.
  { unfold floating_evidence. cbn [with_arguments _arguments].
    rewrite prop_get_set_ne by done. rewrite model_if_given_model.
    by destruct (given model_id). }
  assert (set_p (_individual_id
                   (floating_evidence class_structure evidence_id model_id
                      primo)) = false) as Himplicit.
  { unfold floating_evidence, with_arguments. cbn [_individual_id].
    by rewrite (proj2 (proj2 (model_if_given_entity _ _))). }
  destruct Htarget as [(t & -> & Ht) | (l & -> & Hl)].
  - assert (truthy (JStr t) = true) as Htruthy
      by (cbn; by apply String.eqb_neq in Ht as ->).
    unfold to_bool at 1. rewrite given_truthy by done. cbn [negb].
    change (what_is_eq (Some (JStr t)) "string") with true. cbv iota.
    open_bind. rewrite bind_fresh. cbv zeta. cbn [uuid_calls].
    erewrite bind_on_request; cycle 1.
    { apply add_annotation_fresh; [done|].
      by rewrite individual_frame, model_if_given_frame by done. }
    rewrite bind_add. cbn [mret M_ret get_anchor the_set].
    pose proof (identified_request_kind (Some (JStr t)) model_id
                  (uuid (S (S (uuid_calls w)))) "individual" "add-annotation")
      as [Hentity3 Hoperation3].
    pose proof (identified_request_arguments (JStr t) model_id
                  (uuid (S (S (uuid_calls w)))) "individual" "add-annotation"
                  Htruthy) as (Hind3 & Hmodel3 & _).
    cbv zeta in Hentity3, Hoperation3, Hind3, Hmodel3.
    eexists _, _, _, _. split; [reflexivity|].
    cbn [the_set pushed _requests].
    split; [by rewrite <- !app_assoc|].
    unfold annotations, expressions, with_arguments.
    cbn [_entity _operation _arguments].
    rewrite !prop_get_set_eq, !prop_get_set_ne by done.
    rewrite Hentity1, Hoperation1, Hentity2, Hoperation2, Hentity3,
      Hoperation3, Hind2.
    split; [|split; [done|split]].
    + repeat split; try done.
      * unfold floating_evidence. cbn. apply prop_get_set_eq.
      * apply floating_evidence_id.
    + split; [done|]. split; [done|]. split; [|by intros l' [=]].
      intros t' [= <-]. by split.
    + repeat constructor; try done;
        cbn [with_arguments _arguments]; by rewrite prop_get_set_ne by done.
  - assert (forall i, i < 3 ->
              to_bool (arg_index (Some (JArr l)) i) = true) as Hfields
      by exact Hl.
    cbn [to_bool given truthy negb].
    change (what_is_eq (Some (JArr l)) "string") with false. cbv iota.
    open_bind. rewrite bind_lift_outcome.
    rewrite (_ensure_fact_returns _ Hfields).
    rewrite bind_fresh. cbv zeta. cbn [uuid_calls].
    erewrite bind_on_request; cycle 1.
    { apply add_annotation_fresh; [done|].
      by rewrite fact_frame, model_if_given_frame by done. }
    rewrite bind_add. cbn [mret M_ret get_anchor the_set].
    set (edge := fact (arg_index (Some (JArr l)) 0)
                   (arg_index (Some (JArr l)) 1)
                   (arg_index (Some (JArr l)) 2)
                   (model_if_given model_id
                      (new_request (uuid (S (S (uuid_calls w)))) "edge"
                         "add-annotation"))).
    destruct (fact_kind (arg_index (Some (JArr l)) 0)
                (arg_index (Some (JArr l)) 1) (arg_index (Some (JArr l)) 2)
                (model_if_given model_id
                   (new_request (uuid (S (S (uuid_calls w)))) "edge"
                      "add-annotation"))) as (Hentity3 & Hoperation3 & _).
    destruct (fact_read (arg_index (Some (JArr l)) 0)
                (arg_index (Some (JArr l)) 1) (arg_index (Some (JArr l)) 2)
                (model_if_given model_id
                   (new_request (uuid (S (S (uuid_calls w)))) "edge"
                      "add-annotation"))) as (Hs & Ho & Hp).
    fold edge in Hentity3, Hoperation3, Hs, Ho, Hp.
    rewrite (proj1 (model_if_given_entity _ _)) in Hentity3.
    rewrite (proj1 (proj2 (model_if_given_entity _ _))) in Hoperation3.
    cbn [_entity _operation new_request] in Hentity3, Hoperation3.
    assert (prop_get "model-id" (_arguments edge) = given model_id)
      as Hmodel3.
    { subst edge. rewrite fact_frame by done. rewrite model_if_given_model.
      by destruct (given model_id). }
    assert (forall i old, i < 3 ->
              Some (default old (given (l !! i))) = l !! i) as Hdefault.
    { intros i old Hi. specialize (Hl i Hi). unfold to_bool in Hl.
      destruct (l !! i) as [v|]; [|done]. cbn in *.
      by destruct (truthy v). }
    eexists _, _, _, _. split; [reflexivity|].
    cbn [the_set pushed _requests].
    split; [by rewrite <- !app_assoc|].
    unfold subject, object, predicate in *.
    change (fst (_get_set ?k None ?r)) with (_get k r) in *.
    rewrite !with_values_get by done. rewrite Hs, Ho, Hp.
    cbn [arg_index js_index]. rewrite !Hdefault by lia.
    unfold annotations, expressions, with_arguments.
    cbn [_entity _operation _arguments].
    rewrite !prop_get_set_eq, !prop_get_set_ne by done.
    rewrite Hentity1, Hoperation1, Hentity2, Hoperation2, Hentity3,
      Hoperation3, Hind2.
    split; [|split; [done|split]].
    + repeat split; try done.
      * unfold floating_evidence. cbn. apply prop_get_set_eq.
      * apply floating_evidence_id.
    + split; [done|]. split; [done|]. split; [by intros t' [=]|].
      by intros l' [= <-].
    + repeat constructor; try done;
        cbn [with_arguments _arguments]; by rewrite prop_get_set_ne by done.
Qed.

End Evidence_wiring.
Lemma add_evidence_wiring_witness :
  let triple := [JStr "i1"; JStr "i2"; JStr "part_of"] in
  exists ev_ind_req ev_ind_ann_req tie_req w',
    add_evidence sample_structure sample_uuid (str "ECO:0000000")
      (Some (JArr [JStr "PMID:1"; JStr "PMID:2"])) (Some (JArr triple))
      None sample_world = (Ret (the_set w'), w')
    /\ _requests (the_set w') = [ev_ind_req; ev_ind_ann_req; tie_req]
    /\ prop_get "individual" (_arguments ev_ind_ann_req)
       = Some (JStr "uuid-0")
    /\ annotations tie_req
       = Some (JArr [annotation_pair (JStr "evidence") (JStr "uuid-0")])
    /\ _entity tie_req = "edge"
    /\ Some (fst (predicate None tie_req)) = Some (JStr "part_of").
Proof.
  intros triple.
  destruct (add_evidence_wiring sample_structure sample_uuid
              (str "ECO:0000000") (Some (JArr [JStr "PMID:1"; JStr "PMID:2"]))
              (Some (JArr triple)) None [JStr "PMID:1"; JStr "PMID:2"]
              sample_world)
    as (r1 & r2 & r3 & w' & Hrun & Hreqs & _ & (_ & Hind & _)
        & (_ & Hann & _ & Hedge) & _).
  - reflexivity.
  - reflexivity.
  - reflexivity.
  - right. reflexivity.
  - right. exists triple. split; [reflexivity|].
    intros [|[|[|i]]] Hi; [reflexivity..|lia].
  - destruct (Hedge triple eq_refl) as (Hentity & _ & _ & Hpred).
    exists r1, r2, r3, w'. repeat split; assumption.
Defined.

(** ** The annotation macros *)

Section Annotation_helper.

Variable uuid : nat -> string.

Lemma _op_annotation_to_target_run (op target : string)
      (target_identifier key value model_id : arg) (w : world) :
  op = "add" \/ op = "remove" ->
  target = "model" \/ target = "individual"
  \/ (target = "edge" /\ _ensure_fact target_identifier = Ret tt) ->
  _op_annotation_to_target uuid op target target_identifier key value
    model_id w
  = match given key, given value with
    | Some k, Some _ =>
        match add_annotation k value
                (annotation_target op target target_identifier model_id
                   (uuid (uuid_calls w)))
        with
        | (Ret _, req) =>
            (Ret tt,
             {| uuid_calls := S (uuid_calls w);
                the_set := pushed req (Some "action") (the_set w) |})
        | (Throw e, _) => (Throw e, fresh_world w)
        end
    | _, _ => (Ret tt, fresh_world w)
    end.
Proof.
  intros Hop Htarget. unfold _op_annotation_to_target, annotation_target.
  assert (String.eqb op "add" || String.eqb op "remove" = true) as ->
    by by destruct Hop as [-> | ->].
  open_bind. rewrite bind_fresh. cbv zeta.
  cbn [mret M_ret]. open_bind.
  set (base := model_if_given model_id _).
  assert (forall (req : request) (w0 : world),
            (match given key, given value with
             | Some k, Some _ =>
                 req ← on_request (add_annotation k value req);
                 add req (Some "action");; mret tt
             | _, _ => mret tt
             end : M unit) w0
            = match given key, given value with
              | Some k, Some _ =>
                  match add_annotation k value req with
                  | (Ret _, req) =>
                      (Ret tt,
                       {| uuid_calls := uuid_calls w0;
                          the_set := pushed req (Some "action") (the_set w0) |})
                  | (Throw e, _) => (Throw e, w0)
                  end
              | _, _ => (Ret tt, w0)
              end) as Hlast.
  { intros req w0. destruct (given key) as [k|]; [|done].
    destruct (given value) as [v|]; [|done].
    destruct (add_annotation k value req) as [[n|e] req'] eqn:Hadd.
    - erewrite bind_on_request by reflexivity. by rewrite bind_add.
    - by erewrite bind_on_request_throw by reflexivity. }
  destruct Htarget as [-> | [-> | [-> Hfact]]].
  - cbn [String.eqb Ascii.eqb Bool.eqb]. cbv iota.
    exact (Hlast _ (fresh_world w)).
  - cbn [String.eqb Ascii.eqb Bool.eqb]. cbv iota.
    exact (Hlast _ (fresh_world w)).
  - cbn [String.eqb Ascii.eqb Bool.eqb]. cbv iota.
    rewrite bind_lift_outcome, Hfact. exact (Hlast _ (fresh_world w)).
Qed.

End Annotation_helper.

Lemma annotation_target_kind (op target : string)
      (target_identifier model_id : arg) (primo : string) :
  let req := annotation_target op target target_identifier model_id primo in
  _entity req = target
  /\ _operation req = op +:+ "-annotation"
  /\ prop_get "model-id" (_arguments req) = given model_id
  /\ prop_get "values" (_arguments req) = None.
Proof.
  cbv zeta. unfold annotation_target.
  set (base := model_if_given model_id _).
  assert (_entity base = target /\ _operation base = op +:+ "-annotation"
          /\ prop_get "model-id" (_arguments base) = given model_id
          /\ prop_get "values" (_arguments base) = None)
    as (Hentity & Hoperation & Hmodel & Hvalues).
  { subst base. rewrite (proj1 (model_if_given_entity _ _)),
      (proj1 (proj2 (model_if_given_entity _ _))), model_if_given_model,
      model_if_given_frame by done.
    by destruct (given model_id). }
  destruct (String.eqb_spec target "individual") as [Hind|Hind].
  - destruct (individual_kind target_identifier base) as [-> ->].
    by rewrite !individual_frame by done.
  - destruct (String.eqb_spec target "edge") as [Hedge|Hedge]; [|done].
    destruct (fact_kind (arg_index target_identifier 0)
                (arg_index target_identifier 1)
                (arg_index target_identifier 2) base) as (-> & -> & _).
    by rewrite !fact_frame by done.
Qed.

Lemma annotation_target_individual (op : string)
      (individual_id model_id : arg) (primo : string) :
  let req := annotation_target op "individual" individual_id model_id primo in
  prop_get "individual" (_arguments req) = given individual_id
  /\ set_p (_individual_id req) = to_bool individual_id
  /\ (to_bool individual_id = false ->
      fst (individual None req) = JStr primo).
Proof.
  cbv zeta. unfold annotation_target.
  change (String.eqb "individual" "individual") with true. cbv iota.
  unfold individual, to_bool.
  destruct (given individual_id) as [v|] eqn:Hv.
  - assert (truthy v = true) as Htruthy.
    { destruct individual_id as [v'|]; [|done]. cbn in Hv.
      destruct (truthy v') eqn:Ht; [|done]. by injection Hv as <-. }
    rewrite value_set by done. cbn. by rewrite prop_get_set_eq.
  - cbn. rewrite model_if_given_frame by done.
    by rewrite (proj2 (proj2 (model_if_given_entity _ _))).
Qed.

Lemma annotation_target_fact (op : string) (triple model_id : arg)
      (primo : string) :
  (forall i, i < 3 -> to_bool (arg_index triple i) = true) ->
  let req := annotation_target op "edge" triple model_id primo in
  Some (fst (subject None req)) = arg_index triple 0
  /\ Some (fst (object None req)) = arg_index triple 1
  /\ Some (fst (predicate None req)) = arg_index triple 2.
Proof.
  intros Hfields. cbv zeta. unfold annotation_target.
  change (String.eqb "edge" "individual") with false.
  change (String.eqb "edge" "edge") with true. cbv iota.
  destruct (fact_read (arg_index triple 0) (arg_index triple 1)
              (arg_index triple 2)
              (model_if_given model_id
                 (new_request primo "edge" (op +:+ "-annotation"))))
    as (-> & -> & ->).
  assert (forall i old, i < 3 ->
            Some (default old (given (arg_index triple i)))
            = arg_index triple i) as Hdefault.
  { intros i old Hi. specialize (Hfields i Hi). unfold to_bool in Hfields.
    destruct (arg_index triple i) as [v|]; [|done]. cbn in *.
    by destruct (truthy v). }
  by rewrite !Hdefault by lia.
Qed.

Section Annotation_macros.

Variable uuid : nat -> string.

(** What a public annotation macro returns, from what its helper did. *)
Lemma annotation_macro_returns (m : M unit) (w : world) :
  (m ≫= λ _, get_anchor) w
  = match m w with
    | (Ret _, w') => (Ret (the_set w'), w')
    | (Throw e, w') => (Throw e, w')
    end.
Proof. open_bind. by destruct (m w) as [[[]|e] w']. Qed.

Lemma annotation_fact_macro_returns (triple : arg) (m : M unit) (w : world) :
  _ensure_fact triple = Ret tt ->
  (lift_outcome (_ensure_fact triple) ≫= λ _, m ≫= λ _, get_anchor) w
  = match m w with
    | (Ret _, w') => (Ret (the_set w'), w')
    | (Throw e, w') => (Throw e, w')
    end.
Proof.
  intros Hfact. rewrite bind_lift_outcome, Hfact.
  apply annotation_macro_returns.
Qed.

(** X15: an annotation macro called without a key or without a value
    returns the set and leaves it as it is: nothing is queued and the
    intention is not touched.  For the two macros on facts this is so when
    the triple is a proper fact. *)
Theorem annotation_macros_ignore_missing
        (key value individual_id triple model_id : arg) (w : world) :
  to_bool key = false \/ to_bool value = false ->
  let ignored (r : outcome request_set * world) :=
    fst r = Ret (the_set w) /\ the_set (snd r) = the_set w in
  ignored (add_annotation_to_model uuid key value model_id w)
  /\ ignored (remove_annotation_from_model uuid key value model_id w)
  /\ ignored (add_annotation_to_individual uuid key value individual_id
                model_id w)
  /\ ignored (remove_annotation_from_individual uuid key value individual_id
                model_id w)
  /\ ((forall i, i < 3 -> to_bool (arg_index triple i) = true) ->
      ignored (add_annotation_to_fact uuid key value triple model_id w)
      /\ ignored (remove_annotation_from_fact uuid key value triple
                    model_id w)).
Proof.
  intros Hmissing ignored.
  assert (forall op target target_identifier,
            op = "add" \/ op = "remove" ->
            target = "model" \/ target = "individual"
            \/ (target = "edge" /\ _ensure_fact target_identifier = Ret tt) ->
            _op_annotation_to_target uuid op target target_identifier key
              value model_id w = (Ret tt, fresh_world w)) as Hrun.
  { intros op target target_identifier Hop Htarget.
    rewrite _op_annotation_to_target_run by done.
    destruct Hmissing as [Hkey | Hvalue].
    - by rewrite (to_bool_false_given _ Hkey).
    - rewrite (to_bool_false_given _ Hvalue). by destruct (given key). }
  unfold add_annotation_to_model, remove_annotation_from_model,
    add_annotation_to_individual, remove_annotation_from_individual,
    add_annotation_to_fact, remove_annotation_from_fact.
  rewrite !annotation_macro_returns, !Hrun by auto.
  do 4 (split; [done|]). intros Hfields.
  pose proof (_ensure_fact_returns _ Hfields) as Hfact.
  rewrite !annotation_fact_macro_returns, !Hrun by auto. done.
Qed.

(** X16: an annotation macro called with a key and a value that is a
    string or a list queues one request, of the entity it is about (model,
    individual or edge) and of operation add-annotation or
    remove-annotation, that holds one key/value pair per value and the
    model id if one was given; it makes the batch an action and returns the
    set.  The request of a macro on individuals names the individual, that
    of a macro on facts, given a proper fact, has its subject, object and
    predicate. *)
Theorem annotation_macros_queue
        (key value individual_id triple model_id : arg)
        (k : jsval) (items : list jsval) (w : world) :
  key = Some k -> truthy k = true ->
  to_bool value = true ->
  (exists s, value = Some (JStr s) /\ items = [JStr s])
  \/ value = Some (JArr items) ->
  let queued (entity operation : string) (identified : request -> Prop)
             (r : outcome request_set * world) :=
    exists req,
      r = (Ret (the_set (snd r)), snd r)
      /\ _requests (the_set (snd r)) = _requests (the_set w) ++ [req]
      /\ _intention (the_set (snd r)) = "action"
      /\ (_entity req, _operation req) = (entity, operation)
      /\ annotations req = Some (JArr (map (annotation_pair k) items))
      /\ prop_get "model-id" (_arguments req) = given model_id
      /\ identified req in
  let of_individual (req : request) :=
    prop_get "individual" (_arguments req) = given individual_id in
  let of_fact (req : request) :=
    Some (fst (subject None req)) = arg_index triple 0
    /\ Some (fst (object None req)) = arg_index triple 1
    /\ Some (fst (predicate None req)) = arg_index triple 2 in
  queued "model" "add-annotation" (fun _ => True)
    (add_annotation_to_model uuid key value model_id w)
  /\ queued "model" "remove-annotation" (fun _ => True)
       (remove_annotation_from_model uuid key value model_id w)
  /\ queued "individual" "add-annotation" of_individual
       (add_annotation_to_individual uuid key value individual_id model_id w)
  /\ queued "individual" "remove-annotation" of_individual
       (remove_annotation_from_individual uuid key value individual_id
          model_id w)
  /\ ((forall i, i < 3 -> to_bool (arg_index triple i) = true) ->
      queued "edge" "add-annotation" of_fact
        (add_annotation_to_fact uuid key value triple model_id w)
      /\ queued "edge" "remove-annotation" of_fact
           (remove_annotation_from_fact uuid key value triple model_id w)).
Proof.
  intros -> Hk Hvalue Hitems queued of_individual of_fact.
  assert ((what_is_eq value "string" || what_is_eq value "array") = true)
    as Hkind by by destruct Hitems as [(s & -> & _) | ->].
  assert (annotation_items value = items) as Hannotation
    by by destruct Hitems as [(s & -> & ->) | ->].
  assert (forall op target target_identifier (identified : request -> Prop),
            op = "add" \/ op = "remove" ->
            target = "model" \/ target = "individual"
            \/ (target = "edge" /\ _ensure_fact target_identifier = Ret tt) ->
            (forall vals,
               identified
                 (with_arguments
                    (prop_set "values" vals
                       (_arguments
                          (annotation_target op target target_identifier
                             model_id (uuid (uuid_calls w)))))
                    (annotation_target op target target_identifier
                       model_id (uuid (uuid_calls w))))) ->
            queued target (op +:+ "-annotation") identified
              (match
                  _op_annotation_to_target uuid op target target_identifier
                    (Some k) value model_id w
                with
                | (Ret _, w') => (Ret (the_set w'), w')
                | (Throw e, w') => (Throw e, w')
                end)) as Hrun.
  { intros op target target_identifier identified Hop Htarget Hidentified.
    rewrite _op_annotation_to_target_run by done.
    rewrite given_truthy by done. unfold to_bool in Hvalue.
    destruct (given value) as [v|]; [|done].
    destruct (annotation_target_kind op target target_identifier model_id
                (uuid (uuid_calls w)))
      as (Hentity & Hoperation & Hmodel & Hvalues).
    rewrite add_annotation_fresh by (by rewrite ?Hvalues).
    rewrite Hannotation. subst queued. cbv beta. eexists.
    cbn [fst snd the_set pushed _requests _intention].
    split; [reflexivity|]. split; [reflexivity|]. split; [done|].
    unfold annotations. cbn [with_arguments _entity _operation _arguments].
    rewrite prop_get_set_eq, prop_get_set_ne by done.
    rewrite Hentity, Hoperation.
    repeat split; first [done | apply Hidentified]. }
  unfold add_annotation_to_model, remove_annotation_from_model,
    add_annotation_to_individual, remove_annotation_from_individual,
    add_annotation_to_fact, remove_annotation_from_fact.
  rewrite !annotation_macro_returns.
  assert (forall op vals,
            of_individual
              (with_arguments
                 (prop_set "values" vals
                    (_arguments
                       (annotation_target op "individual" individual_id
                          model_id (uuid (uuid_calls w)))))
                 (annotation_target op "individual" individual_id
                    model_id (uuid (uuid_calls w))))) as Hindividual.
  { intros op vals. subst of_individual. cbv beta.
    cbn [with_arguments _arguments]. rewrite prop_get_set_ne by done.
    apply annotation_target_individual. }
  split; [by apply (Hrun "add" "model"); auto|].
  split; [by apply (Hrun "remove" "model"); auto|].
  split; [by apply (Hrun "add" "individual"); auto|].
  split; [by apply (Hrun "remove" "individual"); auto|].
  intros Hfields.
  pose proof (_ensure_fact_returns _ Hfields) as Hfact.
  rewrite !annotation_fact_macro_returns by done.
  assert (forall op vals,
            of_fact
              (with_arguments
                 (prop_set "values" vals
                    (_arguments
                       (annotation_target op "edge" triple
                          model_id (uuid (uuid_calls w)))))
                 (annotation_target op "edge" triple
                    model_id (uuid (uuid_calls w))))) as Hedge.
  { intros op vals. subst of_fact. cbv beta.
    unfold subject, object, predicate.
    change (fst (_get_set ?k None ?r)) with (_get k r).
    rewrite !with_values_get by done.
    by apply annotation_target_fact. }
  split.
  - apply (Hrun "add" "edge"); auto.
  - apply (Hrun "remove" "edge"); auto.
Qed.

(** X17: a macro that annotates an individual does not ask for the
    individual: called without an individual id, it queues its request all
    the same.  The request then names no individual, its id is still the
    generated one, and it is serialized with that id as
    assign-to-variable. *)
Theorem annotation_without_individual
        (key value individual_id model_id : arg) (k : jsval) (s : string)
        (w : world) :
  key = Some k -> truthy k = true ->
  value = Some (JStr s) -> s <> "" ->
  to_bool individual_id = false ->
  exists req w',
    add_annotation_to_individual uuid key value individual_id model_id w
    = (Ret (the_set w'), w')
    /\ _requests (the_set w') = _requests (the_set w) ++ [req]
    /\ (_entity req, _operation req) = ("individual", "add-annotation")
    /\ prop_get "individual" (_arguments req) = None
    /\ set_p (_individual_id req) = false
    /\ prop_get "assign-to-variable" (base_arguments (fst (objectify req)))
       = Some (JStr (uuid (uuid_calls w))).
Proof.
  intros -> Hk -> Hs Hnone.
  assert (truthy (JStr s) = true) as Hvalue
    by (cbn; by apply String.eqb_neq in Hs as ->).
  unfold add_annotation_to_individual. rewrite annotation_macro_returns.
  rewrite _op_annotation_to_target_run by auto.
  rewrite !given_truthy by done.
  destruct (annotation_target_kind "add" "individual" individual_id model_id
              (uuid (uuid_calls w)))
    as (Hentity & Hoperation & Hmodel & Hvalues).
  destruct (annotation_target_individual "add" individual_id model_id
              (uuid (uuid_calls w))) as (Hind & Hset & Hid).
  rewrite add_annotation_fresh by (by rewrite ?Hvalues).
  eexists _, _. split; [reflexivity|].
  cbn [the_set pushed _requests]. split; [done|].
  cbn [with_arguments _entity _operation _arguments _individual_id].
  rewrite Hentity, Hoperation. split; [done|].
  rewrite prop_get_set_ne by done. rewrite Hind, Hset, Hnone.
  split; [by apply to_bool_false_given|]. split; [done|].
  unfold objectify. cbn [with_arguments _entity _individual_id _arguments].
  rewrite Hentity, Hset, Hnone. cbn [String.eqb Ascii.eqb Bool.eqb negb andb].
  cbn [fst base_arguments _arguments with_arguments].
  rewrite prop_get_set_eq. f_equal. by apply Hid.
Qed.

(** X18: the errors of the helper behind the annotation macros.  An
    operation that is neither add nor remove is "unknown annotation
    operation", thrown before anything is done; a target that is none of
    model, individual and edge is "unknown annotation target"; and a value
    that is truthy but neither a string nor a list makes a macro throw
    "unknown argument".  None of them changes the set. *)
Theorem annotation_errors (op target : string)
        (target_identifier key value individual_id model_id : arg)
        (w : world) :
  (op <> "add" -> op <> "remove" ->
   _op_annotation_to_target uuid op target target_identifier key value
     model_id w = (Throw (Error "unknown annotation operation"), w))
  /\ (op = "add" \/ op = "remove" ->
      target <> "model" -> target <> "individual" -> target <> "edge" ->
      exists w',
        _op_annotation_to_target uuid op target target_identifier key value
          model_id w = (Throw (Error "unknown annotation target"), w')
        /\ the_set w' = the_set w)
  /\ (to_bool key = true ->
      match value with
      | Some (JBool true) => True
      | Some (JObj o) => prop_get "_is_a" o = None
      | _ => False
      end ->
      let rejected (r : outcome request_set * world) :=
        fst r = Throw (Error "unknown argument")
        /\ the_set (snd r) = the_set w in
      rejected (add_annotation_to_model uuid key value model_id w)
      /\ rejected (remove_annotation_from_model uuid key value model_id w)
      /\ rejected (add_annotation_to_individual uuid key value individual_id
                     model_id w)
      /\ rejected (remove_annotation_from_individual uuid key value
                     individual_id model_id w)).
Proof.
  split; [|split].
  - intros Hadd Hremove. unfold _op_annotation_to_target.
    apply String.eqb_neq in Hadd as ->, Hremove as ->. done.
  - intros Hop Hmodel Hindividual Hedge. unfold _op_annotation_to_target.
    assert (String.eqb op "add" || String.eqb op "remove" = true) as ->
      by by destruct Hop as [-> | ->].
    apply String.eqb_neq in Hmodel as ->, Hindividual as ->, Hedge as ->.
    open_bind. rewrite bind_fresh. cbv zeta. by eexists.
  - intros Hkey Hvalue rejected.
    assert (to_bool value = true
            /\ (what_is_eq value "string" || what_is_eq value "array") = false)
      as [Htruthy Hkind].
    { destruct value as [[|[|]| | |o]|]; try done.
      unfold what_is_eq, what_is. by rewrite Hvalue. }
    assert (forall op target target_identifier,
              op = "add" \/ op = "remove" ->
              target = "model" \/ target = "individual" ->
              _op_annotation_to_target uuid op target target_identifier key
                value model_id w
              = (Throw (Error "unknown argument"), fresh_world w)) as Hrun.
    { intros op' target' target_identifier' Hop Htarget.
      rewrite _op_annotation_to_target_run by tauto.
      unfold to_bool in Hkey, Htruthy.
      destruct (given key) as [k|]; [|done].
      destruct (given value) as [v|]; [|done].
      by rewrite add_annotation_unknown. }
    unfold add_annotation_to_model, remove_annotation_from_model,
      add_annotation_to_individual, remove_annotation_from_individual.
    rewrite !annotation_macro_returns, !Hrun by auto. done.
Qed.

End Annotation_macros.

Lemma annotation_macros_ignore_missing_witness :
  fst (add_annotation_to_model sample_uuid (str "title") (str "")
         None sample_world) = Ret (the_set sample_world)
  /\ the_set (snd (add_annotation_to_model sample_uuid (str "title") (str "")
                     None sample_world)) = the_set sample_world.
Proof.
  apply (annotation_macros_ignore_missing sample_uuid (str "title") (str "")
           None None None sample_world).
  right. reflexivity.
Defined.

Lemma annotation_macros_queue_witness :
  exists req w',
    add_annotation_to_individual sample_uuid (str "comment")
      (Some (JArr [JStr "a"; JStr "b"])) (str "gomodel:01/ind1") None
      sample_world = (Ret (the_set w'), w')
    /\ _requests (the_set w') = [req]
    /\ (_entity req, _operation req) = ("individual", "add-annotation")
    /\ annotations req
       = Some (JArr [annotation_pair (JStr "comment") (JStr "a");
                     annotation_pair (JStr "comment") (JStr "b")])
    /\ prop_get "individual" (_arguments req)
       = Some (JStr "gomodel:01/ind1").
Proof.
  destruct (proj1 (proj2 (proj2
              (annotation_macros_queue sample_uuid (str "comment")
                 (Some (JArr [JStr "a"; JStr "b"])) (str "gomodel:01/ind1")
                 None None (JStr "comment") [JStr "a"; JStr "b"] sample_world
                 eq_refl eq_refl eq_refl ltac:(right; reflexivity)))))
    as (req & Hrun & Hreqs & _ & Hkind & Hann & _ & Hind).
  eexists req, _. split; [exact Hrun|]. repeat split; assumption.
Defined.

Lemma annotation_without_individual_witness :
  exists req w',
    add_annotation_to_individual sample_uuid (str "comment") (str "a")
      None None sample_world = (Ret (the_set w'), w')
    /\ _requests (the_set w') = [req]
    /\ prop_get "individual" (_arguments req) = None
    /\ prop_get "assign-to-variable" (base_arguments (fst (objectify req)))
       = Some (JStr "uuid-0").
Proof.
  destruct (annotation_without_individual sample_uuid (str "comment")
              (str "a") None None (JStr "comment") "a" sample_world
              eq_refl eq_refl eq_refl ltac:(discriminate) eq_refl)
    as (req & w' & Hrun & Hreqs & _ & Hind & _ & Hvar).
  exists req, w'. repeat split; assumption.
Defined.

Lemma annotation_errors_witness :
  _op_annotation_to_target sample_uuid "replace" "model" None
    (str "title") (str "t") None sample_world
  = (Throw (Error "unknown annotation operation"), sample_world)
  /\ (exists w',
        _op_annotation_to_target sample_uuid "add" "fact" None
          (str "title") (str "t") None sample_world
        = (Throw (Error "unknown annotation target"), w')
        /\ the_set w' = the_set sample_world)
  /\ fst (add_annotation_to_model sample_uuid (str "title")
            (Some (JBool true)) None sample_world)
     = Throw (Error "unknown argument").
Proof.
  split; [|split].
  - apply (proj1 (annotation_errors sample_uuid "replace" "model" None
                    (str "title") (str "t") None None sample_world));
      discriminate.
  - apply (proj1 (proj2 (annotation_errors sample_uuid "add" "fact" None
                           (str "title") (str "t") None None sample_world)));
      [by left | discriminate..].
  - apply (proj2 (proj2 (annotation_errors sample_uuid "add" "model" None
                           (str "title") (Some (JBool true)) None None
                           sample_world)));
      [reflexivity | exact I].
Defined.

(** ** The macros on models, and batches that only ask *)

Section Macros_model.

Variable class_structure : arg -> jsval.
Variable uuid : nat -> string.

Lemma model_request_run (model_id : arg) (entity operation : string)
      (intention : option string) (w : world) :
  (req ← fresh_request uuid entity operation;
   let req := model_if_given model_id req in
   add req intention;;
   get_anchor) w
  = (Ret (pushed (model_if_given model_id
                    (new_request (uuid (uuid_calls w)) entity operation))
            intention (the_set w)),
     {| uuid_calls := S (uuid_calls w);
        the_set :=
          pushed (model_if_given model_id
                    (new_request (uuid (uuid_calls w)) entity operation))
            intention (the_set w) |}).
Proof. rewrite bind_fresh. cbv zeta. by rewrite bind_add. Qed.

Lemma model_if_given_new (model_id : arg) (primo entity operation : string) :
  let req := model_if_given model_id (new_request primo entity operation) in
  _entity req = entity
  /\ _operation req = operation
  /\ _arguments req
     = match given model_id with
       | Some v => [("model-id", v)]
       | None => []
       end.
Proof.
  cbv zeta. unfold model_if_given, to_bool, model, _get_set.
  by destruct (given model_id).
Qed.

(** X19: each of the macros undo_last_model_batch, redo_last_model_batch,
    get_model, get_undo_redo and store_model queues one request of entity
    model, with the operation undo, redo, get, get-undo-redo or store, whose
    only argument is the model id, if one was given; get_meta queues one
    request of entity meta and operation get, with no argument.  undo and
    redo make the batch an action; the others leave the intention as it
    is.  All return the set. *)
Theorem model_macros_queue (model_id : arg) (w : world) :
  let queued (entity operation : string) (args : list (string * jsval))
             (intention : string) (r : outcome request_set * world) :=
    exists req,
      r = (Ret (the_set (snd r)), snd r)
      /\ _requests (the_set (snd r)) = _requests (the_set w) ++ [req]
      /\ (_entity req, _operation req) = (entity, operation)
      /\ _arguments req = args
      /\ _intention (the_set (snd r)) = intention in
  let model_args :=
    match given model_id with
    | Some v => [("model-id", v)]
    | None => []
    end in
  queued "model" "undo" model_args "action"
    (undo_last_model_batch uuid model_id w)
  /\ queued "model" "redo" model_args "action"
       (redo_last_model_batch uuid model_id w)
  /\ queued "model" "get" model_args (_intention (the_set w))
       (get_model uuid model_id w)
  /\ queued "model" "get-undo-redo" model_args (_intention (the_set w))
       (get_undo_redo uuid model_id w)
  /\ queued "model" "store" model_args (_intention (the_set w))
       (store_model uuid model_id w)
  /\ queued "meta" "get" [] (_intention (the_set w)) (get_meta uuid w).
Proof.
  intros queued model_args.
  unfold undo_last_model_batch, redo_last_model_batch, get_model,
    get_undo_redo, store_model.
  rewrite !model_request_run. subst queued model_args. cbv beta.
  repeat split; eexists; cbn [fst snd the_set pushed _requests _intention];
    (split; [reflexivity|]); (split; [reflexivity|]);
    try (destruct (model_if_given_new model_id (uuid (uuid_calls w))
                     "model" "undo") as (-> & -> & ->); done);
    try (destruct (model_if_given_new model_id (uuid (uuid_calls w))
                     "model" "redo") as (-> & -> & ->); done);
    try (destruct (model_if_given_new model_id (uuid (uuid_calls w))
                     "model" "get") as (-> & -> & ->); done);
    try (destruct (model_if_given_new model_id (uuid (uuid_calls w))
                     "model" "get-undo-redo") as (-> & -> & ->); done);
    try (destruct (model_if_given_new model_id (uuid (uuid_calls w))
                     "model" "store") as (-> & -> & ->); done).
  done.
Qed.

Lemma do_call_asks (c : call) (w : world) :
  asks c = true ->
  let w' := snd (do_call class_structure uuid c w) in
  _intention (the_set w') = _intention (the_set w)
  /\ length (_requests (the_set w')) = S (length (_requests (the_set w))).
Proof.
  intros Hc. cbv zeta.
  assert (exists req,
            snd (do_call class_structure uuid c w)
            = {| uuid_calls := S (uuid_calls w);
                 the_set := pushed req (Some "query") (the_set w) |})
    as [req ->].
  { destruct c; try discriminate Hc; cbn [do_call];
      unfold get_meta, get_model, get_undo_redo, store_model;
      open_bind; rewrite ?model_request_run; [open_bind|..];
      rewrite ?bind_fresh; cbv zeta; rewrite ?bind_add; by eexists. }
  cbn [the_set pushed _requests _intention]. rewrite length_app. cbn.
  split; [done|lia].
Qed.

(** X20: a batch built from get_meta, get_model, get_undo_redo and
    store_model alone stays a query: after any sequence of such calls on a
    new set the intention is query, there is one request per call, and
    structure reports the intention query. *)
Theorem asking_batches_stay_query
        (user_token model_id : arg) (n : nat) (calls : list call) :
  forallb asks calls = true ->
  let w :=
    run_calls class_structure uuid calls
      {| uuid_calls := n; the_set := new_request_set user_token model_id |} in
  _intention (the_set w) = "query"
  /\ length (_requests (the_set w)) = length calls
  /\ exists r w', structure w = (Ret r, w') /\ intention r = "query".
Proof.
  intros Hcalls w.
  assert (forall w0,
            _intention (the_set (run_calls class_structure uuid calls w0))
            = _intention (the_set w0)
            /\ length (_requests
                         (the_set (run_calls class_structure uuid calls w0)))
               = length (_requests (the_set w0)) + length calls) as Hrun.
  { clear w. induction calls as [|c calls IH]; intros w0; cbn [run_calls].
    - cbn. split; [done|lia].
    - cbn [forallb] in Hcalls. apply andb_true_iff in Hcalls as [Hc Hcalls].
      destruct (do_call_asks c w0 Hc) as [Hi Hl].
      destruct (IH Hcalls (snd (do_call class_structure uuid c w0)))
        as [-> ->].
      rewrite Hi, Hl. cbn. split; [done|lia]. }
  destruct (Hrun {| uuid_calls := n;
                    the_set := new_request_set user_token model_id |})
    as [Hi Hl].
  fold w in Hi, Hl. cbn in Hi, Hl. split; [done|]. split; [done|].
  rewrite structure_spec. eexists _, _. split; [reflexivity|]. exact Hi.
Qed.

(** X21: add_model queues one request of entity model and operation add
    and makes the batch an action.  Of the argument hash it copies the
    class-id and the taxon-id, each only if it is there and truthy, and
    nothing else; with no hash, or one that is not an object, the request
    has no arguments. *)
Theorem add_model_arguments (argument_hash : arg) (w : world) :
  exists model_req w',
    add_model uuid argument_hash w = (Ret (the_set w'), w')
    /\ _requests (the_set w') = _requests (the_set w) ++ [model_req]
    /\ _intention (the_set w') = "action"
    /\ (_entity model_req, _operation model_req) = ("model", "add")
    /\ prop_get "class-id" (_arguments model_req)
       = given (arg_prop argument_hash "class-id")
    /\ prop_get "taxon-id" (_arguments model_req)
       = given (arg_prop argument_hash "taxon-id")
    /\ (forall k, k <> "class-id" -> k <> "taxon-id" ->
          prop_get k (_arguments model_req) = None)
    /\ ((forall o, argument_hash <> Some (JObj o)) ->
        _arguments model_req = []).
Proof.
  unfold add_model. cbv zeta. rewrite bind_fresh. cbv zeta.
  rewrite bind_add. cbn [get_anchor the_set].
  eexists _, _. split; [reflexivity|].
  cbn [the_set pushed _requests _intention].
  split; [done|]. split; [done|].
  set (cls := if to_bool argument_hash
              then if to_bool (arg_prop argument_hash "class-id")
                   then arg_prop argument_hash "class-id" else Some JNull
              else Some JNull).
  set (tax := if to_bool argument_hash
              then if to_bool (arg_prop argument_hash "taxon-id")
                   then arg_prop argument_hash "taxon-id" else Some JNull
              else Some JNull).
  assert (forall k,
            given (if to_bool argument_hash
                   then if to_bool (arg_prop argument_hash k)
                        then arg_prop argument_hash k else Some JNull
                   else Some JNull)
            = given (arg_prop argument_hash k)) as Hgiven.
  { intros k. destruct (to_bool argument_hash) eqn:Hhash.
    - unfold to_bool.
      by destruct (given (arg_prop argument_hash k)) eqn:Hk.
    - by destruct argument_hash as [[]|]. }
  pose proof (Hgiven "class-id") as Hcls. fold cls in Hcls.
  pose proof (Hgiven "taxon-id") as Htax. fold tax in Htax.
  assert ((forall o, argument_hash <> Some (JObj o)) ->
          given (arg_prop argument_hash "class-id") = None
          /\ given (arg_prop argument_hash "taxon-id") = None) as Hplain.
  { intros Hnot. destruct argument_hash as [[| | | |o]|]; try done.
    by destruct (Hnot o). }
  clearbody cls tax. unfold special, _get_set, to_bool.
  rewrite Hcls, Htax.
  destruct (given (arg_prop argument_hash "class-id")) as [c|];
    destruct (given (arg_prop argument_hash "taxon-id")) as [t|];
    cbn [snd _add with_arguments new_request _entity _operation _arguments];
    rewrite ?prop_get_set_eq, ?prop_get_set_ne, ?prop_get_set_eq by done;
    (split; [done|]); (split; [done|]); (split; [done|]); split;
    try (intros Hnot; by destruct (Hplain Hnot));
    intros k Hk1 Hk2; by rewrite ?prop_get_set_ne by congruence.
Qed.

End Macros_model.

Lemma asking_batches_stay_query_witness :
  let w :=
    run_calls sample_structure sample_uuid
      [GetMeta; GetModel (str "gomodel:01"); StoreModel None]
      {| uuid_calls := 0; the_set := new_request_set (str "token") None |} in
  _intention (the_set w) = "query"
  /\ length (_requests (the_set w)) = 3
  /\ exists r w', structure w = (Ret r, w') /\ intention r = "query".
Proof.
  apply (asking_batches_stay_query sample_structure sample_uuid
           (str "token") None 0
           [GetMeta; GetModel (str "gomodel:01"); StoreModel None]).
  reflexivity.
Defined.

Lemma add_model_arguments_witness :
  exists model_req w',
    add_model sample_uuid
      (Some (JObj [("taxon-id", JStr "NCBITaxon:9606"); ("class-id", JStr "");
                   ("title", JStr "a model")])) sample_world
    = (Ret (the_set w'), w')
    /\ _requests (the_set w') = [model_req]
    /\ _arguments model_req = [("taxon-id", JStr "NCBITaxon:9606")].
Proof.
  destruct (add_model_arguments sample_uuid
              (Some (JObj [("taxon-id", JStr "NCBITaxon:9606");
                           ("class-id", JStr "");
                           ("title", JStr "a model")])) sample_world)
    as (model_req & w' & Hrun & Hreqs & _).
  exists model_req, w'. split; [exact Hrun|]. split; [exact Hreqs|].
  rewrite app_nil_l in Hreqs.
  injection Hrun as _ <-. by injection Hreqs as <-.
Defined.

(** ** Generated identifiers *)

Section Identifiers.

Variable class_structure : arg -> jsval.
Variable uuid : nat -> string.

(** No call gives an identifier back: the count of the identifiers drawn
    never goes down. *)
Lemma do_call_uuid_calls (c : call) (w : world) :
  uuid_calls w <= uuid_calls (snd (do_call class_structure uuid c w)).
Proof.
  destruct (serializes c) eqn:Hc.
  - by destruct c.
  - refine (proj1 (proj2 (sat_do_call class_structure uuid
              (fun _ => True) (fun w w' => uuid_calls w <= uuid_calls w')
              (fun _ => True) (fun _ => True) (fun _ => True)
              _ _ _ _ _ _ _ _ _ _ _ _ _ _ _ _ _ _ _ c Hc _ w I))); try done.
    + intros w1 w2 w3. lia.
    + intros w0. cbn. lia.
    + by destruct c.
Qed.

Lemma run_calls_uuid_calls (calls : list call) (w : world) :
  uuid_calls w <= uuid_calls (run_calls class_structure uuid calls w).
Proof.
  revert w. induction calls as [|c calls IH]; intros w; [done|].
  cbn [run_calls]. etrans; [apply (do_call_uuid_calls c)|apply IH].
Qed.

(** X22: as long as uuid() never returns the same identifier twice, two
    individuals added to a set get different ids, whatever is done to the
    set between the two calls of add_individual. *)
Theorem generated_ids_distinct
        (class_expr model_id class_expr' model_id' : arg)
        (calls : list call) (w : world) :
  (forall n m, uuid n = uuid m -> n = m) ->
  to_bool class_expr = true -> to_bool class_expr' = true ->
  let first := add_individual class_structure uuid class_expr model_id w in
  let later :=
    add_individual class_structure uuid class_expr' model_id'
      (run_calls class_structure uuid calls (snd first)) in
  exists id id',
    fst first = Ret id /\ fst later = Ret id' /\ id <> id'.
Proof.
  intros Hinj Hclass Hclass' first later. subst later first.
  rewrite (add_individual_run class_structure uuid class_expr) by done.
  cbn [fst snd].
  set (w1 := {| uuid_calls := S (uuid_calls w); the_set := _ |}).
  rewrite (add_individual_run class_structure uuid class_expr') by done.
  eexists _, _. split; [reflexivity|]. split; [reflexivity|].
  intros [= Heq%Hinj].
  pose proof (run_calls_uuid_calls calls w1) as Hle. cbn in Hle. lia.
Qed.

End Identifiers.

Lemma sample_uuid_inj (n m : nat) : sample_uuid n = sample_uuid m -> n = m.
Proof.
  unfold sample_uuid. intros Heq.
  apply (inj (String.app "uuid-")) in Heq. by apply (inj pretty) in Heq.
Qed.

Lemma generated_ids_distinct_witness :
  let first :=
    add_individual sample_structure sample_uuid (str "GO:0008150") None
      sample_world in
  let later :=
    add_individual sample_structure sample_uuid (str "GO:0005634") None
      (run_calls sample_structure sample_uuid [GetMeta; Structure]
         (snd first)) in
  exists id id', fst first = Ret id /\ fst later = Ret id' /\ id <> id'.
Proof.
  apply (generated_ids_distinct sample_structure sample_uuid
           (str "GO:0008150") None (str "GO:0005634") None
           [GetMeta; Structure] sample_world);
    [exact sample_uuid_inj | reflexivity | reflexivity].
Defined.

(** ** Serialization at its edges *)

Lemma structure_request_no_default (anchor : request_set) (req : request) :
  truthy (_model_id anchor) = false ->
  structure_request anchor req = objectify req.
Proof.
  intros Hnone. unfold structure_request. by rewrite Hnone, andb_false_r.
Qed.

Section Serialization_edges.

Variable class_structure : arg -> jsval.
Variable uuid : nat -> string.

Lemma do_call_user_token (c : call) (w : world) :
  _user_token (the_set (snd (do_call class_structure uuid c w)))
  = _user_token (the_set w).
Proof.
  destruct (serializes c) eqn:Hc.
  - by destruct c.
  - by destruct (do_call_grows class_structure uuid c w Hc) as (Ht & _).
Qed.

Lemma run_calls_user_token (calls : list call) (w : world) :
  _user_token (the_set (run_calls class_structure uuid calls w))
  = _user_token (the_set w).
Proof.
  revert w. induction calls as [|c calls IH]; intros w; [done|].
  cbn [run_calls]. by rewrite IH, do_call_user_token.
Qed.

(** X23: the token and the default model id of a set are those its
    constructor was given, null standing for a missing or falsy one: no
    sequence of calls changes them, and the token structure and callable
    report is that token. *)
Theorem token_and_model_are_fixed
        (user_token model_id : arg) (n : nat) (calls : list call) :
  let w :=
    run_calls class_structure uuid calls
      {| uuid_calls := n; the_set := new_request_set user_token model_id |} in
  _user_token (the_set w) = or_null user_token
  /\ _model_id (the_set w) = or_null model_id
  /\ (to_bool user_token = false -> _user_token (the_set w) = JNull)
  /\ (exists r w', structure w = (Ret r, w') /\ token r = or_null user_token)
  /\ (exists c w',
        callable w = (Ret c, w') /\ callable_token c = or_null user_token).
Proof.
  intros w. subst w.
  set (w := run_calls _ _ _ _).
  assert (_user_token (the_set w) = or_null user_token) as Htoken
    by (subst w; by rewrite run_calls_user_token).
  split; [done|]. split; [subst w; by rewrite run_calls_model_id|].
  split; [|split].
  - intros Hnone. rewrite Htoken. unfold or_null.
    by rewrite (to_bool_false_given _ Hnone).
  - rewrite structure_spec. by eexists _, _.
  - rewrite callable_spec. by eexists _, _.
Qed.

(** X24: on a set without a default model id, structure writes no model
    id into any request: what it returns for a request is what objectify
    returns for it, so a request queued without a model id is serialized
    without one.  An empty set serializes to an empty list, and callable
    then sends the text of that list, percent-encoded. *)
Theorem structure_without_default_model (w : world) :
  truthy (_model_id (the_set w)) = false ->
  (exists r w',
     structure w = (Ret r, w')
     /\ requests r = map (fun req => fst (objectify req))
                       (_requests (the_set w))
     /\ forall (i : nat) (req : request),
          _requests (the_set w) !! i = Some req ->
          exists base,
            requests r !! i = Some base
            /\ prop_get "model-id" (base_arguments base)
               = prop_get "model-id" (_arguments req))
  /\ (_requests (the_set w) = [] ->
      structure w
      = (Ret {| token := _user_token (the_set w);
                intention := _intention (the_set w);
                requests := [] |}, w)
      /\ callable w
         = (Ret {| callable_token := _user_token (the_set w);
                   callable_intention := _intention (the_set w);
                   callable_requests := "%5B%5D" |}, w)).
Proof.
  intros Hnone. split.
  - rewrite structure_spec. eexists _, _. split; [reflexivity|].
    cbn [requests]. rewrite map_map.
    assert (map (fun req => fst (structure_request (the_set w) req))
              (_requests (the_set w))
            = map (fun req => fst (objectify req)) (_requests (the_set w)))
      as Hmap.
    { apply map_ext. intros req. by rewrite structure_request_no_default. }
    split; [exact Hmap|]. intros i req Hreq. rewrite Hmap.
    exists (fst (objectify req)). split.
    + by rewrite list_lookup_fmap, Hreq.
    + by apply objectify_frame.
  - intros Hempty. rewrite callable_spec, structure_spec, Hempty.
    destruct w as [n [token model reqs intention]]. cbn in Hempty.
    subst reqs. split; reflexivity.
Qed.

End Serialization_edges.

Lemma structure_without_default_model_witness :
  let w :=
    run_calls sample_structure sample_uuid
      [AddFact (Some (JArr [JStr "i1"; JStr "i2"; JStr "part_of"])) None]
      {| uuid_calls := 0; the_set := new_request_set (str "token") None |} in
  exists r w',
    structure w = (Ret r, w')
    /\ requests r
       = [{| base_entity := "edge"; base_operation := "add";
             base_arguments := [("subject", JStr "i1"); ("object", JStr "i2");
                                ("predicate", JStr "part_of")] |}].
Proof.
  intros w.
  destruct (proj1 (structure_without_default_model w eq_refl))
    as (r & w' & Hrun & Hreqs & _).
  exists r, w'. split; [exact Hrun | exact Hreqs].
Defined.

(** ** The payload of callable *)

Lemma uri_safe_unit (c : ascii) (rest : string) :
  uri_safe rest = true -> uri_safe (uri_encode_unit c rest) = true.
Proof.
  intros Hrest.
  destruct c as [[|] [|] [|] [|] [|] [|] [|] [|]]; cbn; exact Hrest.
Qed.

Lemma uri_safe_encode (s : string) : uri_safe (encodeURIComponent s) = true.
Proof.
  induction s as [|c s IH]; [done|]. cbn [encodeURIComponent].
  by apply uri_safe_unit.
Qed.

(** X25: the requests field of callable holds only characters that stand
    for themselves in a URI (letters, digits and - _ . ! ~ * ' ( )) and
    percent signs, whatever the requests hold. *)
Theorem callable_is_uri_safe (w : world) :
  exists c w',
    callable w = (Ret c, w') /\ uri_safe (callable_requests c) = true.
Proof.
  rewrite callable_spec. eexists _, _. split; [reflexivity|].
  apply uri_safe_encode.
Qed.

(** ** The queue *)

(** X26: add(req, intention) puts the request, as it is, at the end of
    the queue and returns the set; it touches neither the token nor the
    default model id.  Afterwards the batch is an action exactly when it
    was one before or the hint is missing, empty or "action": any other
    hint leaves the intention as it was. *)
Theorem add_appends (req : request) (hint : option string) (w : world) :
  exists w',
    add req hint w = (Ret (the_set w'), w')
    /\ _requests (the_set w') = _requests (the_set w) ++ [req]
    /\ _user_token (the_set w') = _user_token (the_set w)
    /\ _model_id (the_set w') = _model_id (the_set w)
    /\ (_intention (the_set w') = "action"
        <-> _intention (the_set w) = "action"
            \/ hint = None \/ hint = Some "" \/ hint = Some "action")
    /\ (_intention (the_set w') = "action"
        \/ _intention (the_set w') = _intention (the_set w)).
Proof.
  rewrite add_spec. exists (pushed_world req hint w). split; [reflexivity|].
  cbn [the_set pushed_world pushed _requests _user_token _model_id _intention].
  do 3 (split; [done|]).
  assert (forall P : Prop, P -> ("action" = "action" <-> P)
                                /\ ("action" = "action"
                                    \/ "action" = _intention (the_set w)))
    as Haction by (intros P HP; split; [done|by left]).
  destruct hint as [s|]; cbn [hint_given hint_is negb];
    [|apply Haction; auto].
  destruct (String.eqb_spec s "") as [->|Hempty]; cbn [negb];
    [apply Haction; auto|].
  destruct (String.eqb_spec s "action") as [->|Hother];
    [apply Haction; auto 6|].
  split; [|by right]. split; [by left|].
  intros [?|[?|[[= ?]|[= ?]]]]; done.
Qed.

Lemma objectify_kept (req : request) : kept req (snd (objectify req)).
Proof.
  unfold kept, objectify.
  destruct (String.eqb (_entity req) "individual"
            && negb (set_p (_individual_id req))); [|done].
  cbn. repeat split. intros k _ Hk. by apply prop_get_set_ne.
Qed.

Lemma kept_refl (req : request) : kept req req.
Proof. by repeat split. Qed.

Lemma kept_trans (req1 req2 req3 : request) :
  kept req1 req2 -> kept req2 req3 -> kept req1 req3.
Proof.
  intros (He & Ho & Ha) (He' & Ho' & Ha').
  repeat split; [congruence..|]. intros k Hk Hk'.
  by rewrite Ha', Ha.
Qed.

Lemma structure_request_kept (anchor : request_set) (req : request) :
  kept req (snd (structure_request anchor req)).
Proof.
  unfold structure_request.
  destruct (negb (truthy (fst (model None req))) && truthy (_model_id anchor));
    [|apply objectify_kept].
  eapply kept_trans; [|apply objectify_kept]. unfold model.
  destruct (_get_set_kind "model-id" (Some (_model_id anchor)) req)
    as (He & Ho & _).
  repeat split; [done..|]. intros k' Hk Hk'. by apply _get_set_frame.
Qed.

Section Queue.

Variable class_structure : arg -> jsval.
Variable uuid : nat -> string.

Lemma do_call_kept (c : call) (w : world) (i : nat) (req : request) :
  _requests (the_set w) !! i = Some req ->
  exists req',
    _requests (the_set (snd (do_call class_structure uuid c w))) !! i
    = Some req'
    /\ kept req req'.
Proof.
  intros Hreq. destruct (serializes c) eqn:Hc.
  - exists (snd (structure_request (the_set w) req)).
    split; [|apply structure_request_kept].
    assert (snd (do_call class_structure uuid c w) = snd (structure w)) as ->
      by by destruct c.
    rewrite structure_spec. cbn [snd the_set with_requests _requests].
    by rewrite !list_lookup_fmap, Hreq.
  - destruct (do_call_grows class_structure uuid c w Hc)
      as (_ & _ & _ & added & -> & _).
    exists req. split; [|apply kept_refl].
    by apply lookup_app_l_Some.
Qed.

(** X27: nothing is ever taken out of the queue or moved in it.  After
    any sequence of calls, a request that was at some position is still at
    that position, with its entity, its operation and its arguments; all
    that can have changed in it is what serialization writes, the model id
    and the variable to assign. *)
Theorem queue_is_append_only (calls : list call) (w : world) (i : nat)
        (req : request) :
  _requests (the_set w) !! i = Some req ->
  exists req',
    _requests (the_set (run_calls class_structure uuid calls w)) !! i
    = Some req'
    /\ _entity req' = _entity req
    /\ _operation req' = _operation req
    /\ (forall k, k <> "model-id" -> k <> "assign-to-variable" ->
          prop_get k (_arguments req') = prop_get k (_arguments req))
    /\ length (_requests (the_set w))
       <= length (_requests (the_set (run_calls class_structure uuid calls w))).
Proof.
  intros Hreq.
  assert (exists req',
            _requests (the_set (run_calls class_structure uuid calls w)) !! i
            = Some req' /\ kept req req') as (req' & Hreq' & Hkept).
  { revert w req Hreq. induction calls as [|c calls IH]; intros w req Hreq.
    - exists req. split; [done|apply kept_refl].
    - cbn [run_calls].
      destruct (do_call_kept c w i req Hreq) as (req1 & Hreq1 & Hkept1).
      destruct (IH _ _ Hreq1) as (req2 & Hreq2 & Hkept2).
      exists req2. split; [done|]. by eapply kept_trans. }
  exists req'. destruct Hkept as (He & Ho & Ha).
  do 4 (split; [done|]).
  clear. revert w. induction calls as [|c calls IH]; intros w; [done|].
  cbn [run_calls]. etrans; [|apply IH].
  destruct (serializes c) eqn:Hc.
  - assert (snd (do_call class_structure uuid c w) = snd (structure w)) as ->
      by by destruct c.
    rewrite structure_spec. cbn [snd the_set with_requests _requests].
    by rewrite !length_map.
  - destruct (do_call_grows class_structure uuid c w Hc)
      as (_ & _ & _ & added & -> & _).
    rewrite length_app. lia.
Qed.

End Queue.

Lemma queue_is_append_only_witness :
  let req := new_request "uuid-9" "individual" "add" in
  let w := snd (add req None sample_world) in
  exists req',
    _requests (the_set (run_calls sample_structure sample_uuid
                          [GetMeta; Structure; AddModel None] w)) !! 0
    = Some req'
    /\ _entity req' = "individual"
    /\ _operation req' = "add".
Proof.
  intros req w.
  destruct (queue_is_append_only sample_structure sample_uuid
              [GetMeta; Structure; AddModel None] w 0 req eq_refl)
    as (req' & Hreq' & Hentity & Hoperation & _).
  exists req'. repeat split; assumption.
Defined.
